(** * HomeSchool: the cache-then-fetch provider clients

    A shallow embedding of the content-API wrappers under
    [system/apis/] (CK-12, Khan Academy, NASA, OpenLibrary, WordsAPI) and of
    the lesson-assembly helpers built on them.

    The clients are Python methods that read the clock, look at files in a
    cache directory, send HTTP requests and write to a logger.  They are
    embedded as functions in a state-and-exception monad over an explicit
    [world] (the files on disk, the requests sent so far, the log) and a
    read-only [env] (the clock and the remote server). *)

From Stdlib Require Import ZArith Lia PrimFloat Ascii String.
From stdpp Require Import base strings gmap pretty list.

Local Open Scope string_scope.
Local Open Scope Z_scope.

(** ** Python values

    Everything the clients handle is a value decoded from JSON
    ([response.json()], [json.load]) or a dict/list built from such values,
    so one type covers them: [None], [bool], [int], [float], [str], [list]
    and [dict] with string keys (in insertion order). *)

#[local] Set Warnings "-register-all".

Inductive json : Type :=
| JNull
| JBool (b : bool)
| JInt (n : Z)
| JFloat (x : float)
| JStr (s : string)
| JList (items : list json)
| JDict (entries : list (string * json)).

(** Exceptions.  [requests.RequestException] is the only family the clients
    catch; it is raised by [session.get] (transport failure) and by
    [raise_for_status] (HTTP error status).  [FileNotFoundError] and
    [NotADirectoryError] are what opening a file raises when its directory
    is missing or is a file; [OSError] stands for the plain [OSError] of a
    name that is too long. *)

Inductive request_error : Type :=
| ConnectionError
| HTTPError (status : Z).

Inductive exn : Type :=
| RequestException (e : request_error)
| JSONDecodeError
| FileNotFoundError
| NotADirectoryError
| OSError
| ValueError
| AttributeError
| TypeError
| KeyError
| IndexError.

Inductive result (A : Type) : Type :=
| Ok (a : A)
| Raise (e : exn).
Arguments Ok {A} a.
Arguments Raise {A} e.

(** Truth value of a Python object ([if x:], [not x]). *)
Definition truthy (v : json) : bool :=
  match v with
  | JNull => false
  | JBool b => b
  | JInt n => negb (n =? 0)
  | JFloat x => negb (PrimFloat.eqb x PrimFloat.zero)
  | JStr s => negb (String.eqb s "")
  | JList l => match l with [] => false | _ => true end
  | JDict d => match d with [] => false | _ => true end
  end.

(** [d[k]] on the entries of a dict. *)
Fixpoint dict_lookup (k : string) (d : list (string * json)) : option json :=
  match d with
  | [] => None
  | (k', v) :: d' => if String.eqb k k' then Some v else dict_lookup k d'
  end.

(** [v.get(k, default)]: only dicts have a [get] method. *)
Definition py_get (v : json) (k : string) (dflt : json) : result json :=
  match v with
  | JDict d => Ok (default dflt (dict_lookup k d))
  | _ => Raise AttributeError
  end.

(** ** Characters

    A Python [str] is a sequence of characters; a [string] here is the
    sequence of bytes of its UTF-8 encoding (the bytes a file name or a
    request is made of).  A character is a leading byte together with the
    continuation bytes ([10xxxxxx]) that follow it. *)
Definition is_continuation (a : ascii) : bool :=
  match a with
  | Ascii _ _ _ _ _ _ b6 b7 => b7 && negb b6
  end.

Fixpoint utf8_chars (s : string) : list string :=
  match s with
  | EmptyString => []
  | String a s' =>
      let rest := utf8_chars s' in
      match s' with
      | String b _ =>
          if is_continuation b
          then match rest with
               | c :: cs => String a c :: cs
               | [] => [String a EmptyString]
               end
          else String a EmptyString :: rest
      | EmptyString => String a EmptyString :: rest
      end
  end.

Definition join_chars (cs : list string) : string :=
  fold_right String.append EmptyString cs.

(** [for x in v]: lists yield their items, dicts their keys, strings their
    characters; the other values are not iterable. *)
Definition string_chars (s : string) : list json := map JStr (utf8_chars s).

Definition py_iter (v : json) : result (list json) :=
  match v with
  | JList l => Ok l
  | JDict d => Ok (map (fun kv => JStr (fst kv)) d)
  | JStr s => Ok (string_chars s)
  | _ => Raise TypeError
  end.

(** [v[:k]] for a literal [k >= 0].  Slicing a dict raises ([TypeError]:
    unhashable slice; a [KeyError] from Python 3.12 on), and [None], numbers
    and booleans are not subscriptable. *)
Definition py_take (k : nat) (v : json) : result json :=
  match v with
  | JList l => Ok (JList (take k l))
  | JStr s => Ok (JStr (join_chars (take k (utf8_chars s))))
  | _ => Raise TypeError
  end.



(** Optional arguments ([subject=None], [grade_level=None]) as values. *)
Definition of_opt_str (o : option string) : json :=
  match o with Some s => JStr s | None => JNull end.

Definition of_opt_int (o : option Z) : json :=
  match o with Some n => JInt n | None => JNull end.

(** [v[k]] for a string key: a missing key of a dict is a [KeyError];
    lists and strings take no string index, the other values no index at
    all. *)
Definition py_item (v : json) (k : string) : result json :=
  match v with
  | JDict d =>
      match dict_lookup k d with
      | Some x => Ok x
      | None => Raise KeyError
      end
  | _ => Raise TypeError
  end.

(** The length of [l[:k]] for a list of length [n]: the first [k] items, or
    all but the last [-k] when [k] is negative. *)
Definition slice_len (k : Z) (n : nat) : nat :=
  if 0 <=? k then Nat.min (Z.to_nat k) n else (n - Z.to_nat (- k))%nat.

Definition slice_stop {A} (k : Z) (l : list A) : list A :=
  take (slice_len k (length l)) l.

(** [v[:k]] for an integer [k]. *)
Definition py_slice (k : Z) (v : json) : result json :=
  match v with
  | JList l => Ok (JList (slice_stop k l))
  | JStr s => Ok (JStr (join_chars (slice_stop k (utf8_chars s))))
  | _ => Raise TypeError
  end.

(** [needle in hay] on strings. *)
Fixpoint contains (needle hay : string) : bool :=
  String.prefix needle hay ||
  match hay with
  | EmptyString => false
  | String _ hay' => contains needle hay'
  end.

(** [k in v] for a string [k]: a key of a dict, an item of a list (only a
    string equals a string), a substring of a string. *)
Definition py_in (k : string) (v : json) : result bool :=
  match v with
  | JDict d => Ok (match dict_lookup k d with Some _ => true | None => false end)
  | JList l =>
      Ok (existsb (fun x => match x with JStr s => String.eqb k s | _ => false end) l)
  | JStr s => Ok (contains k s)
  | _ => Raise TypeError
  end.

(** [s.replace(a, b)] for single characters. *)
Fixpoint replace_char (a b : ascii) (s : string) : string :=
  match s with
  | EmptyString => EmptyString
  | String c s' => String (if Ascii.eqb c a then b else c) (replace_char a b s')
  end.


(** ** Library functions

    The clients call into the Python standard library; what those calls
    compute is a parameter of the model.  [text] is what a file holds;
    [json_loads] is [None] on a text [json.load] rejects with a
    [JSONDecodeError].  [md5_digest] is the 128-bit digest of [hashlib.md5]
    as a number.  [py_str] is [str(v)], as an f-string applies it. *)

Class PyLib : Type := {
  text : Type;
  json_dumps : json -> text;
  json_loads : text -> option json;
  md5_digest : string -> N;
  str_lower : string -> string;
  str_title : string -> string;
  py_str : json -> string
}.

(** [hexdigest()]: the digest as 32 lower-case hexadecimal digits. *)
Definition hex_alphabet : list ascii :=
  ["0"; "1"; "2"; "3"; "4"; "5"; "6"; "7"; "8"; "9";
   "a"; "b"; "c"; "d"; "e"; "f"]%char.

Definition hex_digit (n : N) : ascii := nth (N.to_nat n) hex_alphabet "0"%char.

Fixpoint hex_digits (k : nat) (n : N) : string :=
  match k with
  | O => EmptyString
  | S k' => hex_digits k' (n / 16) +:+ String (hex_digit (n mod 16)) EmptyString
  end.

Definition md5_hexdigest `{L : PyLib} (s : string) : string :=
  hex_digits 32 (md5_digest s).

(** ** Paths

    A cache file is [self.cache_dir / name].  The constructor of a client
    has made its cache directory ([mkdir(parents=True, exist_ok=True)]), so
    the directory exists; it is taken to hold regular files only, and its
    own path to leave room for a file name.  What the file system makes of
    the path then depends on the name, which the clients build from their
    arguments after a fixed prefix:
    - a name with a NUL byte is not a path at all;
    - a name whose first component has more than 255 bytes is too long, and
      so is a path of 4096 bytes or more;
    - a name with a ['/'] lies in a sub-directory, which is not there;
    - any other name is the name of a file that can be there. *)
Definition path : Type := string * string.

Definition path_join (dir name : string) : path := (dir, name).

Definition path_text (p : path) : string := p.1 +:+ "/" +:+ p.2.

Fixpoint has_byte (c : ascii) (s : string) : bool :=
  match s with
  | EmptyString => false
  | String a s' => Ascii.eqb a c || has_byte c s'
  end.

Fixpoint first_component (name : string) : string :=
  match name with
  | EmptyString => EmptyString
  | String a s' =>
      if Ascii.eqb a "/" then EmptyString else String a (first_component s')
  end.

Inductive path_kind : Type :=
| Plain
| NoParent
| TooLong
| NulByte.

Definition kind_of (p : path) : path_kind :=
  if has_byte "000" p.2 then NulByte
  else if (255 <? String.length (first_component p.2))%nat then TooLong
  else if has_byte "/" p.2
       then (if (4096 <=? String.length (path_text p))%nat then TooLong else NoParent)
       else Plain.

(** ** HTTP *)

Record request : Type := {
  url : string;
  params : list (string * json)
}.

(** What [session.get] meets: no answer at all, or a status line with a
    JSON body ([response.json()]). *)
Inductive http_result : Type :=
| ConnectionFailed
| Responded (status : Z) (body : json).

Record response : Type := {
  status_code : Z;
  response_json : json
}.

(** The log: one record per [logger.error(f"<message>: {e}")]. *)
Record log_record : Type := {
  message : string;
  exc : request_error
}.

(** ** Time

    [datetime.now()] and a file's modification time are instants in
    microseconds; their difference is a [timedelta], whose [days] attribute
    is the floored number of whole days. *)
Definition day : Z := 86400 * 1000000.

Definition timedelta_days (delta : Z) : Z := delta `div` day.

(** [timedelta] has the attributes [days], [seconds] and [microseconds]
    only: reading [hours] raises. *)
Definition timedelta_hours (delta : Z) : result Z := Raise AttributeError.

(** ** The monad *)

Section Runtime.
Context `{L : PyLib}.

Record file : Type := {
  mtime : Z;
  content : text
}.

Record world : Type := {
  files : gmap path file;
  sent : list request;
  logged : list log_record
}.

Record env : Type := {
  now : Z;
  server : request -> http_result
}.

Definition M (A : Type) : Type := env -> world -> result A * world.

Definition ret {A} (a : A) : M A := fun _ w => (Ok a, w).

Definition raise {A} (e : exn) : M A := fun _ w => (Raise e, w).

Definition bind {A B} (m : M A) (k : A -> M B) : M B :=
  fun e w =>
    match m e w with
    | (Ok a, w') => k a e w'
    | (Raise x, w') => (Raise x, w')
    end.

Definition lift {A} (r : result A) : M A := fun _ w => (r, w).

(** [try: body except requests.RequestException as e: handler e]. *)
Definition try_except {A} (body : M A) (handler : request_error -> M A) : M A :=
  fun e w =>
    match body e w with
    | (Raise (RequestException x), w') => handler x e w'
    | other => other
    end.
End Runtime.

Declare Scope py_scope.
Delimit Scope py_scope with py.
Notation "x <- m ;; k" := (bind m (fun x => k))
  (at level 100, m at next level, right associativity) : py_scope.
Notation "m ;; k" := (bind m (fun _ => k))
  (at level 100, right associativity) : py_scope.
Local Open Scope py_scope.

(** ** Files, clock, network, logger *)

Section Primitives.
Context `{L : PyLib}.

(** [cache_file.exists()]: the answer of [stat], where a missing file or
    directory is [False], a path that is no path is [False], and a name
    that is too long is the [OSError] of [stat]. *)
Definition path_exists (p : path) : M bool :=
  fun _ w =>
    match kind_of p with
    | Plain => (Ok (match files w !! p with Some _ => true | None => false end), w)
    | NoParent | NulByte => (Ok false, w)
    | TooLong => (Raise OSError, w)
    end.

(** [cache_file.stat().st_mtime], as an instant. *)
Definition stat_mtime (p : path) : M Z :=
  fun _ w =>
    match files w !! p with
    | Some f => (Ok (mtime f), w)
    | None => (Raise FileNotFoundError, w)
    end.

Definition datetime_now : M Z := fun e w => (Ok (now e), w).

(** [datetime.now() - datetime.fromtimestamp(cache_file.stat().st_mtime)]. *)
Definition cache_age_of (p : path) : M Z :=
  n <- datetime_now ;;
  m <- stat_mtime p ;;
  ret (n - m).

(** [with open(p, 'r') as f: json.load(f)]. *)
Definition json_load (p : path) : M json :=
  fun _ w =>
    match files w !! p with
    | None => (Raise FileNotFoundError, w)
    | Some f =>
        match json_loads (content f) with
        | Some v => (Ok v, w)
        | None => (Raise JSONDecodeError, w)
        end
    end.

(** [with open(p, 'w') as f: json.dump(v, f)]: the file is created or
    replaced, and its modification time is the time of the write.  [open]
    raises when the name is no name of a file in the cache directory: the
    sub-directory of a name with a ['/'] is missing, or is a regular file
    of the cache. *)
Definition store (p : path) (f : file) (w : world) : world :=
  {| files := <[p := f]> (files w); sent := sent w; logged := logged w |}.

Definition open_error (p : path) (w : world) : exn :=
  match kind_of p with
  | NulByte => ValueError
  | TooLong => OSError
  | _ =>
      match files w !! (p.1, first_component p.2) with
      | Some _ => NotADirectoryError
      | None => FileNotFoundError
      end
  end.

Definition json_dump (v : json) (p : path) : M unit :=
  fun e w =>
    match kind_of p with
    | Plain => (Ok tt, store p {| mtime := now e; content := json_dumps v |} w)
    | _ => (Raise (open_error p w), w)
    end.

(** [self.session.get(url, params=params)]: the request goes out, then
    either the transport fails or a response comes back. *)
Definition emit (r : request) (w : world) : world :=
  {| files := files w; sent := sent w ++ [r]; logged := logged w |}.

Definition session_get (u : string) (ps : list (string * json)) : M response :=
  fun e w =>
    let r := {| url := u; params := ps |} in
    match server e r with
    | ConnectionFailed => (Raise (RequestException ConnectionError), emit r w)
    | Responded st b => (Ok {| status_code := st; response_json := b |}, emit r w)
    end.

(** [response.raise_for_status()]: 4xx and 5xx raise [HTTPError]. *)
Definition raise_for_status (r : response) : M unit :=
  if (400 <=? status_code r) && (status_code r <? 600)
  then raise (RequestException (HTTPError (status_code r)))
  else ret tt.

(** [logger.error(f"{msg}: {e}")]. *)
Definition note (l : log_record) (w : world) : world :=
  {| files := files w; sent := sent w; logged := logged w ++ [l] |}.

Definition logger_error (msg : string) (e : request_error) : M unit :=
  fun _ w => (Ok tt, note {| message := msg; exc := e |} w).

(** [item.get(k, '').lower()]: the default only stands in for a missing
    key, and only strings have a [lower]. *)
Definition lower_of (item : json) (k : string) : result string :=
  match py_get item k (JStr "") with
  | Raise e => Raise e
  | Ok (JStr s) => Ok (str_lower s)
  | Ok _ => Raise AttributeError
  end.
End Primitives.

(** [for x in xs: out.append(f x)], where [f] may raise. *)
Fixpoint for_each {A B} (f : A -> result B) (xs : list A) : result (list B) :=
  match xs with
  | [] => Ok []
  | x :: xs' =>
      match f x with
      | Raise e => Raise e
      | Ok y =>
          match for_each f xs' with
          | Raise e => Raise e
          | Ok ys => Ok (y :: ys)
          end
      end
  end.

(** [{k1: item.get(k1), ..., kn: item.get(kn, d)}]: a projection of [item]
    onto named fields, each with its default. *)
Definition project (fields : list (string * string * json)) (item : json) : result json :=
  match item with
  | JDict d =>
      Ok (JDict (map (fun f => (f.1.1, default f.2 (dict_lookup f.1.2 d))) fields))
  | _ => Raise AttributeError
  end.

(** [for x in xs: if p x: out.append(x)], where the test may raise. *)
Fixpoint keep_if (p : json -> result bool) (xs : list json) : result (list json) :=
  match xs with
  | [] => Ok []
  | x :: xs' =>
      match p x with
      | Raise e => Raise e
      | Ok keep =>
          match keep_if p xs' with
          | Raise e => Raise e
          | Ok out => Ok (if keep : bool then x :: out else out)
          end
      end
  end.

(** * CK-12 *)

Module CK12API.
Section Client.
Context `{L : PyLib}.

Record client : Type := { cache_dir : string }.

Definition base_url : string := "https://www.ck12.org/api/v1".

(** [_process_content]: every item is projected onto nine fields;
    [difficulty] defaults to ['medium'], the others to [None]. *)
Definition _process_content (content_list : json) : result json :=
  match py_iter content_list with
  | Raise e => Raise e
  | Ok items =>
      match for_each (project
              [("id", "id", JNull); ("title", "title", JNull);
               ("description", "description", JNull); ("type", "type", JNull);
               ("subject", "subject", JNull); ("grade_level", "grade_level", JNull);
               ("url", "url", JNull); ("embed_url", "embed_url", JNull);
               ("difficulty", "difficulty", JStr "medium")]) items with
      | Raise e => Raise e
      | Ok out => Ok (JList out)
      end
  end.

(** The parameters of a search: [q] and [limit], then [subject] and
    [grade_level] when they are truthy. *)
Definition search_params (query : string) (subject : option string)
    (grade_level : option Z) (limit : Z) : list (string * json) :=
  [("q", JStr query); ("limit", JInt limit)]
  ++ (if truthy (of_opt_str subject) then [("subject", of_opt_str subject)] else [])
  ++ (if truthy (of_opt_int grade_level) then [("grade_level", of_opt_int grade_level)] else []).

Definition search_cache_file (self : client) (query : string)
    (subject : option string) (grade_level : option Z) : path :=
  path_join (cache_dir self)
    ("search_"
     +:+ md5_hexdigest (query +:+ "_" +:+ py_str (of_opt_str subject)
                        +:+ "_" +:+ py_str (of_opt_int grade_level))
     +:+ ".json").

Definition search_content (self : client) (query : string)
    (subject : option string) (grade_level : option Z) (limit : Z) : M json :=
  let endpoint := base_url +:+ "/content" in
  let params := search_params query subject grade_level limit in
  let cache_file := search_cache_file self query subject grade_level in
  present <- path_exists cache_file ;;
  hit <- (if present : bool
          then cache_age <- cache_age_of cache_file ;;
               ret (timedelta_days cache_age <? 7)
          else ret false) ;;
  if hit : bool
  then data <- json_load cache_file ;;
       content <- lift (py_get data "content" (JList [])) ;;
       lift (_process_content content)
  else
    try_except
      (response <- session_get endpoint params ;;
       raise_for_status response ;;
       let data := response_json response in
       json_dump data cache_file ;;
       content <- lift (py_get data "content" (JList [])) ;;
       lift (_process_content content))
      (fun e =>
         logger_error "CK-12 search error" e ;;
         ret (JList [])).

Definition content_cache_file (self : client) (content_id : string) : path :=
  path_join (cache_dir self) ("content_" +:+ content_id +:+ ".json").

Definition get_content_details (self : client) (content_id : string) : M json :=
  let endpoint := base_url +:+ "/content/" +:+ content_id in
  let cache_file := content_cache_file self content_id in
  present <- path_exists cache_file ;;
  hit <- (if present : bool
          then cache_age <- cache_age_of cache_file ;;
               ret (timedelta_days cache_age <? 30)
          else ret false) ;;
  if hit : bool
  then json_load cache_file
  else
    try_except
      (response <- session_get endpoint [] ;;
       raise_for_status response ;;
       let content_data := response_json response in
       json_dump content_data cache_file ;;
       ret content_data)
      (fun e =>
         logger_error "CK-12 content details error" e ;;
         ret JNull).

(** [a in item.get(k1, '').lower() or b in item.get(k2, '').lower()]. *)
Definition either_mentions (a k1 b k2 : string) (item : json) : result bool :=
  match lower_of item k1 with
  | Raise e => Raise e
  | Ok t1 =>
      if contains a t1 then Ok true
      else match lower_of item k2 with
           | Raise e => Raise e
           | Ok t2 => Ok (contains b t2)
           end
  end.

Definition get_simulations (self : client) (subject : string)
    (grade_level : option Z) (limit : Z) : M json :=
  simulations <- search_content self "simulation" (Some subject) grade_level limit ;;
  sims <- lift (py_iter simulations) ;;
  filtered_simulations <-
    lift (keep_if (either_mentions "simulation" "type" "interactive" "title") sims) ;;
  ret (JList (slice_stop limit filtered_simulations)).

Definition get_practice_problems (self : client) (subject : string)
    (grade_level : option Z) (limit : Z) : M json :=
  problems <- search_content self "practice problem" (Some subject) grade_level limit ;;
  items <- lift (py_iter problems) ;;
  filtered_problems <-
    lift (keep_if (either_mentions "problem" "type" "practice" "title") items) ;;
  ret (JList (slice_stop limit filtered_problems)).

(** The loop of [get_math_content]: interactive content, then practice
    problems; what is neither is left out. *)
Fixpoint sort_math (items : list json) : result (list json * list json) :=
  match items with
  | [] => Ok ([], [])
  | content :: rest =>
      match lower_of content "type" with
      | Raise e => Raise e
      | Ok t =>
          match sort_math rest with
          | Raise e => Raise e
          | Ok (interactive, problems) =>
              Ok (if contains "interactive" t then (content :: interactive, problems)
                  else if contains "problem" t then (interactive, content :: problems)
                  else (interactive, problems))
          end
      end
  end.

Definition get_math_content (self : client) (topic : string)
    (grade_level : option Z) : M json :=
  math_content <- search_content self topic (Some "math") grade_level 15 ;;
  items <- lift (py_iter math_content) ;;
  sorted <- lift (sort_math items) ;;
  ret (JDict
         [("title", JStr ("CK-12 Math - " +:+ topic));
          ("subject", JStr "math");
          ("grade_level", of_opt_int grade_level);
          ("content_type", JStr "ck12_math");
          ("interactive_content", JList sorted.1);
          ("practice_problems", JList sorted.2);
          ("text_content",
           JStr ("Learn " +:+ topic +:+ " through CK-12's interactive math content."));
          ("estimated_time", JInt 25);
          ("xp_value", JInt 18)]).

(** The loop of [get_science_content]: simulations, experiments, and
    explanations for everything else. *)
Fixpoint sort_science (items : list json)
  : result (list json * list json * list json) :=
  match items with
  | [] => Ok ([], [], [])
  | content :: rest =>
      match lower_of content "type" with
      | Raise e => Raise e
      | Ok content_type =>
          match sort_science rest with
          | Raise e => Raise e
          | Ok (simulations, experiments, explanations) =>
              Ok (if contains "simulation" content_type
                  then (content :: simulations, experiments, explanations)
                  else if contains "experiment" content_type
                  then (simulations, content :: experiments, explanations)
                  else (simulations, experiments, content :: explanations))
          end
      end
  end.

Definition get_science_content (self : client) (topic : string)
    (grade_level : option Z) : M json :=
  science_content <- search_content self topic (Some "science") grade_level 15 ;;
  items <- lift (py_iter science_content) ;;
  sorted <- lift (sort_science items) ;;
  ret (JDict
         [("title", JStr ("CK-12 Science - " +:+ topic));
          ("subject", JStr "science");
          ("grade_level", of_opt_int grade_level);
          ("content_type", JStr "ck12_science");
          ("simulations", JList sorted.1.1);
          ("experiments", JList sorted.1.2);
          ("explanations", JList sorted.2);
          ("text_content",
           JStr ("Explore " +:+ topic
                 +:+ " through CK-12's science simulations and experiments."));
          ("estimated_time", JInt 35);
          ("xp_value", JInt 25)]).

(** [convert_to_quiz]: [None] for a falsy problem, else the quiz fields
    with their defaults. *)
Definition convert_to_quiz (practice_problem : json) : result json :=
  if negb (truthy practice_problem) then Ok JNull
  else
    match practice_problem with
    | JDict d =>
        Ok (JDict
              [("question", default (JStr "") (dict_lookup "question" d));
               ("options", default (JList []) (dict_lookup "options" d));
               ("correct_answer", default (JStr "") (dict_lookup "correct_answer" d));
               ("explanation", default (JStr "") (dict_lookup "explanation" d));
               ("difficulty", default (JStr "medium") (dict_lookup "difficulty" d));
               ("points", JInt 1)])
    | _ => Raise AttributeError
    end.

Definition subjects_cache_file (self : client) : path :=
  path_join (cache_dir self) "subjects.json".

Definition get_subjects (self : client) : M json :=
  let endpoint := base_url +:+ "/subjects" in
  let cache_file := subjects_cache_file self in
  present <- path_exists cache_file ;;
  hit <- (if present : bool
          then cache_age <- cache_age_of cache_file ;;
               ret (timedelta_days cache_age <? 30)
          else ret false) ;;
  if hit : bool
  then json_load cache_file
  else
    try_except
      (response <- session_get endpoint [] ;;
       raise_for_status response ;;
       let subjects_data := response_json response in
       json_dump subjects_data cache_file ;;
       ret subjects_data)
      (fun e =>
         logger_error "CK-12 subjects error" e ;;
         ret (JList [])).

(** The parameters of [get_concepts]: [subject] and [grade_level], each
    when it is truthy. *)
Definition concepts_params (subject : option string) (grade_level : option Z)
  : list (string * json) :=
  (if truthy (of_opt_str subject) then [("subject", of_opt_str subject)] else [])
  ++ (if truthy (of_opt_int grade_level) then [("grade_level", of_opt_int grade_level)] else []).

Definition concepts_cache_file (self : client) (subject : option string)
    (grade_level : option Z) : path :=
  path_join (cache_dir self)
    ("concepts_" +:+ py_str (of_opt_str subject) +:+ "_"
     +:+ py_str (of_opt_int grade_level) +:+ ".json").

Definition get_concepts (self : client) (subject : option string)
    (grade_level : option Z) : M json :=
  let endpoint := base_url +:+ "/concepts" in
  let params := concepts_params subject grade_level in
  let cache_file := concepts_cache_file self subject grade_level in
  present <- path_exists cache_file ;;
  hit <- (if present : bool
          then cache_age <- cache_age_of cache_file ;;
               ret (timedelta_days cache_age <? 7)
          else ret false) ;;
  if hit : bool
  then json_load cache_file
  else
    try_except
      (response <- session_get endpoint params ;;
       raise_for_status response ;;
       let concepts_data := response_json response in
       json_dump concepts_data cache_file ;;
       ret concepts_data)
      (fun e =>
         logger_error "CK-12 concepts error" e ;;
         ret (JList [])).

End Client.
End CK12API.

(** * Khan Academy *)

Module KhanAcademyAPI.
Section Client.
Context `{L : PyLib}.

Record client : Type := { cache_dir : string }.

Definition base_url : string := "https://www.khanacademy.org/api/v1".

Definition _process_videos (videos : json) : result json :=
  match py_iter videos with
  | Raise e => Raise e
  | Ok items =>
      match for_each (project
              [("id", "id", JNull); ("title", "title", JNull);
               ("description", "description", JNull); ("duration", "duration", JNull);
               ("thumbnail", "thumbnail_url", JNull); ("url", "url", JNull);
               ("subject", "subject", JNull); ("grade_level", "grade_level", JNull)])
              items with
      | Raise e => Raise e
      | Ok out => Ok (JList out)
      end
  end.

Definition _process_exercises (exercises : json) : result json :=
  match py_iter exercises with
  | Raise e => Raise e
  | Ok items =>
      match for_each (project
              [("id", "id", JNull); ("title", "title", JNull);
               ("description", "description", JNull); ("type", "type", JNull);
               ("difficulty", "difficulty", JNull); ("subject", "subject", JNull)])
              items with
      | Raise e => Raise e
      | Ok out => Ok (JList out)
      end
  end.

Definition search_cache_file (self : client) (topic : string)
    (grade_level : option Z) : path :=
  path_join (cache_dir self)
    ("search_"
     +:+ md5_hexdigest (topic +:+ "_" +:+ py_str (of_opt_int grade_level))
     +:+ ".json").

(** [_get_cached_videos]: "Get cached videos when API is unavailable".
    The file is read whatever its age. *)
Definition _get_cached_videos (self : client) (topic : string)
    (grade_level : option Z) : M json :=
  let cache_file := search_cache_file self topic grade_level in
  present <- path_exists cache_file ;;
  if present : bool then json_load cache_file else ret (JList []).

Definition videos_params (topic : string) (grade_level : option Z) (limit : Z)
  : list (string * json) :=
  [("query", JStr topic); ("limit", JInt limit)]
  ++ (if truthy (of_opt_int grade_level)
      then [("grade_level", of_opt_int grade_level)] else []).

Definition search_videos (self : client) (topic : string)
    (grade_level : option Z) (limit : Z) : M json :=
  try_except
    (let params := videos_params topic grade_level limit in
     response <- session_get (base_url +:+ "/videos") params ;;
     raise_for_status response ;;
     let videos := response_json response in
     lift (_process_videos videos))
    (fun e =>
       logger_error "Khan Academy API error" e ;;
       _get_cached_videos self topic grade_level).

Definition video_cache_file (self : client) (video_id : string) : path :=
  path_join (cache_dir self) ("video_" +:+ video_id +:+ ".json").

Definition get_video_content (self : client) (video_id : string) : M json :=
  let cache_file := video_cache_file self video_id in
  present <- path_exists cache_file ;;
  hit <- (if present : bool
          then cache_age <- cache_age_of cache_file ;;
               ret (timedelta_days cache_age <? 7)
          else ret false) ;;
  if hit : bool
  then json_load cache_file
  else
    try_except
      (response <- session_get (base_url +:+ "/videos/" +:+ video_id) [] ;;
       raise_for_status response ;;
       let video_data := response_json response in
       json_dump video_data cache_file ;;
       ret video_data)
      (fun e =>
         logger_error ("Error fetching video " +:+ video_id) e ;;
         ret JNull).

Definition exercises_params (subject : string) (grade_level : option Z)
  : list (string * json) :=
  [("subject", JStr subject)]
  ++ (if truthy (of_opt_int grade_level)
      then [("grade_level", of_opt_int grade_level)] else []).

Definition get_exercises (self : client) (subject : string)
    (grade_level : option Z) : M json :=
  try_except
    (let params := exercises_params subject grade_level in
     response <- session_get (base_url +:+ "/exercises") params ;;
     raise_for_status response ;;
     let exercises := response_json response in
     lift (_process_exercises exercises))
    (fun e =>
       logger_error "Error fetching exercises" e ;;
       ret (JList [])).

Definition _get_subject_topics (self : client) (subject : string) : M json :=
  try_except
    (response <- session_get (base_url +:+ "/subjects/" +:+ subject +:+ "/topics") [] ;;
     raise_for_status response ;;
     ret (response_json response))
    (fun e =>
       logger_error ("Error fetching topics for " +:+ subject) e ;;
       ret (JList [])).

(** The [content] dict of [get_subject_content], as its three values. *)
Record subject_content : Type := {
  videos : json;
  exercises : json;
  topics : json
}.

Definition get_subject_content (self : client) (subject : string)
    (grade_level : option Z) : M subject_content :=
  videos <- search_videos self subject grade_level 20 ;;
  exercises <- get_exercises self subject grade_level ;;
  topics <- _get_subject_topics self subject ;;
  ret {| videos := videos; exercises := exercises; topics := topics |}.

(** The [lesson_data] dict of [create_lesson_from_khan]. *)
Definition lesson_data (subject : string) (grade_level : option Z)
    (topic : string) (first_videos first_exercises : json) : json :=
  JDict
    [("title", JStr ("Khan Academy - " +:+ subject +:+ " - " +:+ topic));
     ("subject", JStr subject);
     ("grade_level", of_opt_int grade_level);
     ("content_type", JStr "khan_academy");
     ("videos", first_videos);
     ("exercises", first_exercises);
     ("estimated_time", JInt 30);
     ("xp_value", JInt 15)].

Definition create_lesson_from_khan (self : client) (subject : string)
    (grade_level : option Z) (topic : string) : M json :=
  content <- get_subject_content self subject grade_level ;;
  first_videos <- lift (py_take 3 (videos content)) ;;
  first_exercises <- lift (py_take 5 (exercises content)) ;;
  ret (lesson_data subject grade_level topic first_videos first_exercises).
End Client.
End KhanAcademyAPI.

(** * NASA *)

Module NASAAPI.
Section Client.
Context `{L : PyLib}.

Record client : Type := { api_key : string; cache_dir : string }.

(** [__init__]: [self.api_key = api_key or 'DEMO_KEY']. *)
Definition init (key : option string) (dir : string) : client :=
  {| api_key := match key with
                | Some k => if truthy (JStr k) then k else "DEMO_KEY"
                | None => "DEMO_KEY"
                end;
     cache_dir := dir |}.

Definition base_url : string := "https://api.nasa.gov".

Definition space_weather_cache_file (self : client) : path :=
  path_join (cache_dir self) "space_weather.json".

Definition get_space_weather (self : client) : M json :=
  let endpoint := base_url +:+ "/DONKI/WSJ" in
  let params := [("api_key", JStr (api_key self))] in
  let cache_file := space_weather_cache_file self in
  present <- path_exists cache_file ;;
  hit <- (if present : bool
          then cache_age <- cache_age_of cache_file ;;
               hours <- lift (timedelta_hours cache_age) ;;
               ret (hours <? 6)
          else ret false) ;;
  if hit : bool
  then json_load cache_file
  else
    try_except
      (response <- session_get endpoint params ;;
       raise_for_status response ;;
       let weather_data := response_json response in
       json_dump weather_data cache_file ;;
       ret weather_data)
      (fun e =>
         logger_error "NASA Space Weather API error" e ;;
         ret JNull).

(** [date or other]: the date when it is given and not empty. *)
Definition date_or (date : option string) (other : string) : string :=
  if truthy (of_opt_str date) then default other date else other.

(** [{'api_key': self.api_key}], and [date] when it is truthy. *)
Definition dated_params (self : client) (date : option string)
  : list (string * json) :=
  [("api_key", JStr (api_key self))]
  ++ (if truthy (of_opt_str date) then [("date", of_opt_str date)] else []).

Definition apod_cache_file (self : client) (date : option string) : path :=
  path_join (cache_dir self) ("apod_" +:+ date_or date "today" +:+ ".json").

Definition get_apod (self : client) (date : option string) : M json :=
  let endpoint := base_url +:+ "/planetary/apod" in
  let params := dated_params self date in
  let cache_file := apod_cache_file self date in
  present <- path_exists cache_file ;;
  hit <- (if present : bool
          then cache_age <- cache_age_of cache_file ;;
               ret (timedelta_days cache_age <? 1)
          else ret false) ;;
  if hit : bool
  then json_load cache_file
  else
    try_except
      (response <- session_get endpoint params ;;
       raise_for_status response ;;
       let apod_data := response_json response in
       json_dump apod_data cache_file ;;
       ret apod_data)
      (fun e =>
         logger_error "NASA APOD API error" e ;;
         ret JNull).

(** [get_earth_imagery]: [lat] and [lon] only name the cache file; [dim]
    is not used. *)
Definition earth_cache_file (self : client) (lat lon : json)
    (date : option string) : path :=
  path_join (cache_dir self)
    ("earth_" +:+ py_str lat +:+ "_" +:+ py_str lon +:+ "_"
     +:+ date_or date "latest" +:+ ".json").

Definition get_earth_imagery (self : client) (lat lon : json)
    (date : option string) : M json :=
  let endpoint := base_url +:+ "/EPIC/api/natural" in
  let params := dated_params self date in
  let cache_file := earth_cache_file self lat lon date in
  present <- path_exists cache_file ;;
  hit <- (if present : bool
          then cache_age <- cache_age_of cache_file ;;
               ret (timedelta_days cache_age <? 1)
          else ret false) ;;
  if hit : bool
  then json_load cache_file
  else
    try_except
      (response <- session_get endpoint params ;;
       raise_for_status response ;;
       let earth_data := response_json response in
       json_dump earth_data cache_file ;;
       ret earth_data)
      (fun e =>
         logger_error "NASA Earth API error" e ;;
         ret JNull).

(** [get_mars_photos]: a falsy [sol] ([None] or 0) asks for sol 1000 and is
    cached as ['latest']. *)
Definition mars_params (self : client) (sol : option Z) (camera : string)
  : list (string * json) :=
  [("api_key", JStr (api_key self)); ("camera", JStr camera);
   ("sol", if truthy (of_opt_int sol) then of_opt_int sol else JInt 1000)].

Definition mars_cache_file (self : client) (sol : option Z) (camera : string)
  : path :=
  path_join (cache_dir self)
    ("mars_photos_"
     +:+ (if truthy (of_opt_int sol) then py_str (of_opt_int sol) else "latest")
     +:+ "_" +:+ camera +:+ ".json").

Definition get_mars_photos (self : client) (sol : option Z) (camera : string)
    (limit : Z) : M json :=
  let endpoint := base_url +:+ "/mars-photos/api/v1/rovers/curiosity/photos" in
  let params := mars_params self sol camera in
  let cache_file := mars_cache_file self sol camera in
  present <- path_exists cache_file ;;
  hit <- (if present : bool
          then cache_age <- cache_age_of cache_file ;;
               ret (timedelta_days cache_age <? 7)
          else ret false) ;;
  if hit : bool
  then data <- json_load cache_file ;;
       photos <- lift (py_item data "photos") ;;
       lift (py_slice limit photos)
  else
    try_except
      (response <- session_get endpoint params ;;
       raise_for_status response ;;
       let data := response_json response in
       json_dump data cache_file ;;
       photos <- lift (py_item data "photos") ;;
       lift (py_slice limit photos))
      (fun e =>
         logger_error "NASA Mars API error" e ;;
         ret (JList [])).

Definition images_cache_file (self : client) (query : string) : path :=
  path_join (cache_dir self) ("search_" +:+ md5_hexdigest query +:+ ".json").

Definition search_nasa_images (self : client) (query : string) (limit : Z)
  : M json :=
  let endpoint := base_url +:+ "/search" in
  let params := [("q", JStr query); ("media_type", JStr "image");
                 ("api_key", JStr (api_key self))] in
  let cache_file := images_cache_file self query in
  present <- path_exists cache_file ;;
  hit <- (if present : bool
          then cache_age <- cache_age_of cache_file ;;
               ret (timedelta_days cache_age <? 7)
          else ret false) ;;
  if hit : bool
  then data <- json_load cache_file ;;
       collection <- lift (py_item data "collection") ;;
       items <- lift (py_item collection "items") ;;
       lift (py_slice limit items)
  else
    try_except
      (response <- session_get endpoint params ;;
       raise_for_status response ;;
       let data := response_json response in
       json_dump data cache_file ;;
       collection <- lift (py_item data "collection") ;;
       items <- lift (py_item collection "items") ;;
       lift (py_slice limit items))
      (fun e =>
         logger_error "NASA Search API error" e ;;
         ret (JList [])).

(** The loop of [get_space_mission_data]: the first project whose title
    mentions the mission, whatever the case; [None] when there is none. *)
Fixpoint find_mission (mission_name : string) (projects : list json) : result json :=
  match projects with
  | [] => Ok JNull
  | project :: rest =>
      match lower_of project "title" with
      | Raise e => Raise e
      | Ok title =>
          if contains (str_lower mission_name) title then Ok project
          else find_mission mission_name rest
      end
  end.

Definition mission_cache_file (self : client) (mission_name : string) : path :=
  path_join (cache_dir self)
    ("mission_" +:+ replace_char " " "_" (str_lower mission_name) +:+ ".json").

Definition get_space_mission_data (self : client) (mission_name : string)
  : M json :=
  let endpoint := base_url +:+ "/techport/api/projects" in
  let params := [("api_key", JStr (api_key self))] in
  let cache_file := mission_cache_file self mission_name in
  present <- path_exists cache_file ;;
  hit <- (if present : bool
          then cache_age <- cache_age_of cache_file ;;
               ret (timedelta_days cache_age <? 30)
          else ret false) ;;
  if hit : bool
  then json_load cache_file
  else
    try_except
      (response <- session_get endpoint params ;;
       raise_for_status response ;;
       let data := response_json response in
       projects <- lift (py_get data "projects" (JList [])) ;;
       items <- lift (py_iter projects) ;;
       mission_data <- lift (find_mission mission_name items) ;;
       (if truthy mission_data
        then json_dump mission_data cache_file
        else ret tt) ;;
       ret mission_data)
      (fun e =>
         logger_error "NASA TechPort API error" e ;;
         ret JNull).
End Client.
End NASAAPI.

(** * OpenLibrary *)

Module OpenLibraryAPI.
Section Client.
Context `{L : PyLib}.

Record client : Type := { cache_dir : string }.

Definition base_url : string := "https://openlibrary.org".

Definition mature_keywords : list string :=
  ["adult"; "mature"; "teen"; "young adult"].

(** [any(keyword in subject.lower() for subject in subjects)]: stops at
    the first hit; a subject that is not a string has no [lower]. *)
Fixpoint any_subject_has (keyword : string) (subjects : list json) : result bool :=
  match subjects with
  | [] => Ok false
  | JStr s :: rest =>
      if contains keyword (str_lower s) then Ok true
      else any_subject_has keyword rest
  | _ :: _ => Raise AttributeError
  end.

(** The loop over [mature_keywords], left at the first keyword found in
    the title or in a subject. *)
Fixpoint has_mature_keyword (keywords : list string) (title : string)
    (subjects : json) : result bool :=
  match keywords with
  | [] => Ok false
  | keyword :: rest =>
      if contains keyword title then Ok true
      else
        match py_iter subjects with
        | Raise e => Raise e
        | Ok subs =>
            match any_subject_has keyword subs with
            | Raise e => Raise e
            | Ok true => Ok true
            | Ok false => has_mature_keyword rest title subjects
            end
        end
  end.

(** One turn of the loop of [_filter_by_grade_level]: [is_appropriate]
    for [book]. *)
Definition is_appropriate (grade_level : Z) (book : json) : result bool :=
  match book with
  | JDict d =>
      match default (JStr "") (dict_lookup "title" d) with
      | JStr t =>
          let title := str_lower t in
          let subjects := default (JList []) (dict_lookup "subject" d) in
          if grade_level <=? 3
          then match has_mature_keyword mature_keywords title subjects with
               | Raise e => Raise e
               | Ok found => Ok (negb found)
               end
          else Ok true
      | _ => Raise AttributeError
      end
  | _ => Raise AttributeError
  end.

Fixpoint filter_books (grade_level : Z) (books : list json) : result (list json) :=
  match books with
  | [] => Ok []
  | book :: rest =>
      match is_appropriate grade_level book with
      | Raise e => Raise e
      | Ok keep =>
          match filter_books grade_level rest with
          | Raise e => Raise e
          | Ok out => Ok (if keep : bool then book :: out else out)
          end
      end
  end.

Definition _filter_by_grade_level (books : json) (grade_level : option Z)
  : result json :=
  match grade_level with
  | None => Ok books
  | Some g =>
      if negb (truthy (JInt g)) then Ok books
      else
        match py_iter books with
        | Raise e => Raise e
        | Ok items =>
            match filter_books g items with
            | Raise e => Raise e
            | Ok out => Ok (JList out)
            end
        end
  end.

Definition search_cache_file (self : client) (query : string) : path :=
  path_join (cache_dir self) ("search_" +:+ md5_hexdigest query +:+ ".json").

Definition search_books (self : client) (query : string) (limit : Z)
    (grade_level : option Z) : M json :=
  let endpoint := base_url +:+ "/search.json" in
  let params := [("q", JStr query); ("limit", JInt limit)] in
  let cache_file := search_cache_file self query in
  present <- path_exists cache_file ;;
  hit <- (if present : bool
          then cache_age <- cache_age_of cache_file ;;
               ret (timedelta_days cache_age <? 7)
          else ret false) ;;
  if hit : bool
  then data <- json_load cache_file ;;
       docs <- lift (py_get data "docs" (JList [])) ;;
       lift (_filter_by_grade_level docs grade_level)
  else
    try_except
      (response <- session_get endpoint params ;;
       raise_for_status response ;;
       let data := response_json response in
       json_dump data cache_file ;;
       docs <- lift (py_get data "docs" (JList [])) ;;
       lift (_filter_by_grade_level docs grade_level))
      (fun e =>
         logger_error "OpenLibrary search error" e ;;
         ret (JList [])).

Definition book_cache_file (self : client) (book_id : string) : path :=
  path_join (cache_dir self) ("book_" +:+ book_id +:+ ".json").

(** [book_id] only ever appears inside f-strings, so it is taken already
    formatted. *)
Definition get_book_details (self : client) (book_id : string) : M json :=
  let endpoint := base_url +:+ "/works/" +:+ book_id +:+ ".json" in
  let cache_file := book_cache_file self book_id in
  present <- path_exists cache_file ;;
  hit <- (if present : bool
          then cache_age <- cache_age_of cache_file ;;
               ret (timedelta_days cache_age <? 30)
          else ret false) ;;
  if hit : bool
  then json_load cache_file
  else
    try_except
      (response <- session_get endpoint [] ;;
       raise_for_status response ;;
       let book_data := response_json response in
       json_dump book_data cache_file ;;
       ret book_data)
      (fun e =>
         logger_error "OpenLibrary book details error" e ;;
         ret JNull).

Definition author_cache_file (self : client) (author_id : string) : path :=
  path_join (cache_dir self) ("author_" +:+ author_id +:+ ".json").

Definition get_author_details (self : client) (author_id : string) : M json :=
  let endpoint := base_url +:+ "/authors/" +:+ author_id +:+ ".json" in
  let cache_file := author_cache_file self author_id in
  present <- path_exists cache_file ;;
  hit <- (if present : bool
          then cache_age <- cache_age_of cache_file ;;
               ret (timedelta_days cache_age <? 30)
          else ret false) ;;
  if hit : bool
  then json_load cache_file
  else
    try_except
      (response <- session_get endpoint [] ;;
       raise_for_status response ;;
       let author_data := response_json response in
       json_dump author_data cache_file ;;
       ret author_data)
      (fun e =>
         logger_error "OpenLibrary author details error" e ;;
         ret JNull).


(** The [lesson_data] dict of [create_reading_lesson]. *)
Definition lesson_data (grade_level : option Z)
    (book book_details title author : json) : json :=
  JDict
    [("title", JStr ("Reading: " +:+ py_str title));
     ("subject", JStr "reading");
     ("grade_level", of_opt_int grade_level);
     ("content_type", JStr "openlibrary");
     ("book_data", book);
     ("book_details", book_details);
     ("text_content",
      JStr ("Read and discuss " +:+ py_str title +:+ " by "
            +:+ py_str author +:+ "."));
     ("estimated_time", JInt 45);
     ("xp_value", JInt 30)].


(** The [if]/[elif] chain of [get_reading_level]: the level of the first
    kind of book some subject names, 5 when none does. *)
Definition reading_levels : list (string * Z) :=
  [("picture book", 1); ("early reader", 2); ("chapter book", 3);
   ("middle grade", 5); ("young adult", 8)].

Fixpoint first_level (levels : list (string * Z)) (subjects : json) : result Z :=
  match levels with
  | [] => Ok 5
  | (kind, level) :: rest =>
      match py_iter subjects with
      | Raise e => Raise e
      | Ok subs =>
          match any_subject_has kind subs with
          | Raise e => Raise e
          | Ok true => Ok level
          | Ok false => first_level rest subjects
          end
      end
  end.

Definition get_reading_level (book : json) : result Z :=
  match book with
  | JDict d => first_level reading_levels (default (JList []) (dict_lookup "subject" d))
  | _ => Raise AttributeError
  end.

Definition subject_cache_file (self : client) (subject : string) : path :=
  path_join (cache_dir self) ("subject_" +:+ subject +:+ ".json").

Definition get_subject_books (self : client) (subject : string)
    (grade_level : option Z) (limit : Z) : M json :=
  let endpoint := base_url +:+ "/subjects/" +:+ subject +:+ ".json" in
  let cache_file := subject_cache_file self subject in
  present <- path_exists cache_file ;;
  hit <- (if present : bool
          then cache_age <- cache_age_of cache_file ;;
               ret (timedelta_days cache_age <? 7)
          else ret false) ;;
  if hit : bool
  then data <- json_load cache_file ;;
       works <- lift (py_get data "works" (JList [])) ;;
       books <- lift (_filter_by_grade_level works grade_level) ;;
       lift (py_slice limit books)
  else
    try_except
      (response <- session_get endpoint [] ;;
       raise_for_status response ;;
       let data := response_json response in
       json_dump data cache_file ;;
       works <- lift (py_get data "works" (JList [])) ;;
       books <- lift (_filter_by_grade_level works grade_level) ;;
       lift (py_slice limit books))
      (fun e =>
         logger_error "OpenLibrary subject search error" e ;;
         ret (JList [])).
End Client.
End OpenLibraryAPI.

(** * WordsAPI *)

Module WordsAPI.
Section Client.
Context `{L : PyLib}.

Record client : Type := { api_key : option string; cache_dir : string }.

Definition base_url : string := "https://wordsapiv1.p.rapidapi.com".

Definition definition_record (word meaning : string) : json :=
  JDict [("word", JStr word);
         ("results", JList [JDict [("definition", JStr meaning)]])].

(** The embedded dictionary. *)
Definition basic_definitions : list (string * json) :=
  [("happy", definition_record "happy" "feeling or showing pleasure or contentment");
   ("big", definition_record "big" "of considerable size or extent");
   ("small", definition_record "small" "of a size that is less than normal or usual");
   ("fast", definition_record "fast" "moving or capable of moving at high speed");
   ("slow", definition_record "slow" "moving or operating at a low speed");
   ("good", definition_record "good" "to be desired or approved of");
   ("bad", definition_record "bad" "of poor quality or a low standard");
   ("new", definition_record "new"
      "not existing before; made, introduced, or discovered recently");
   ("old", definition_record "old" "having lived for a long time; no longer young");
   ("hot", definition_record "hot"
      "having a high degree of heat or a high temperature")].

Definition _get_basic_definition (word : string) : json :=
  default (definition_record word ("A word meaning related to " +:+ word))
          (dict_lookup (str_lower word) basic_definitions).

Definition word_cache_file (self : client) (word : string) : path :=
  path_join (cache_dir self) ("word_" +:+ str_lower word +:+ ".json").

Definition get_word_definition (self : client) (word : string) : M json :=
  let cache_file := word_cache_file self word in
  present <- path_exists cache_file ;;
  hit <- (if present : bool
          then cache_age <- cache_age_of cache_file ;;
               ret (timedelta_days cache_age <? 30)
          else ret false) ;;
  if hit : bool
  then json_load cache_file
  else if negb (truthy (of_opt_str (api_key self)))
  then ret (_get_basic_definition word)
  else
    try_except
      (response <- session_get (base_url +:+ "/words/" +:+ word) [] ;;
       raise_for_status response ;;
       let word_data := response_json response in
       json_dump word_data cache_file ;;
       ret word_data)
      (fun e =>
         logger_error ("WordsAPI error for word '" +:+ word +:+ "'") e ;;
         ret (_get_basic_definition word)).

(** The [lesson_data] dict of [create_vocabulary_lesson]. *)
Definition lesson_data (word : string) (grade_level : option Z)
    (word_data : json) : json :=
  JDict
    [("title", JStr ("Vocabulary: " +:+ str_title word));
     ("subject", JStr "vocabulary");
     ("grade_level", of_opt_int grade_level);
     ("content_type", JStr "wordsapi");
     ("word", JStr word);
     ("word_data", word_data);
     ("text_content",
      JStr ("Learn the meaning, synonyms, and usage of the word '"
            +:+ word +:+ "'."));
     ("estimated_time", JInt 15);
     ("xp_value", JInt 10)].


(** The word lists of [get_grade_level_vocabulary], grades 1 to 12. *)
Definition grade_vocabulary : list (Z * list string) :=
  [(1, ["happy"; "big"; "small"; "fast"; "slow"; "good"; "bad"; "new"; "old"; "hot"]);
   (2, ["beautiful"; "careful"; "helpful"; "wonderful"; "peaceful"; "colorful";
        "powerful"; "thoughtful"; "cheerful"; "graceful"]);
   (3, ["adventure"; "brave"; "curious"; "determined"; "energetic"; "friendly";
        "generous"; "honest"; "imaginative"; "kind"]);
   (4, ["accomplish"; "brilliant"; "courageous"; "delightful"; "excellent";
        "fascinating"; "grateful"; "harmonious"; "incredible"; "joyful"]);
   (5, ["analytical"; "creative"; "diligent"; "eloquent"; "innovative"; "logical";
        "persistent"; "resilient"; "systematic"; "thorough"]);
   (6, ["articulate"; "comprehensive"; "dedicated"; "enthusiastic"; "fortunate";
        "genuine"; "influential"; "magnificent"; "optimistic"; "remarkable"]);
   (7, ["authentic"; "confident"; "determined"; "enthusiastic"; "fortunate";
        "genuine"; "influential"; "magnificent"; "optimistic"; "remarkable"]);
   (8, ["accomplished"; "brilliant"; "charismatic"; "determined"; "eloquent";
        "fascinating"; "generous"; "inspiring"; "knowledgeable"; "passionate"]);
   (9, ["analytical"; "articulate"; "comprehensive"; "dedicated"; "eloquent";
        "innovative"; "logical"; "persistent"; "resilient"; "systematic"]);
   (10, ["authentic"; "charismatic"; "determined"; "eloquent"; "fascinating";
         "generous"; "inspiring"; "knowledgeable"; "passionate"; "remarkable"]);
   (11, ["accomplished"; "analytical"; "articulate"; "comprehensive"; "dedicated";
         "eloquent"; "innovative"; "logical"; "persistent"; "resilient"]);
   (12, ["authentic"; "charismatic"; "determined"; "eloquent"; "fascinating";
         "generous"; "inspiring"; "knowledgeable"; "passionate"; "remarkable"])].

Fixpoint vocabulary_of (grade_level : Z) (table : list (Z * list string))
  : option (list string) :=
  match table with
  | [] => None
  | (g, words) :: rest =>
      if grade_level =? g then Some words else vocabulary_of grade_level rest
  end.

Definition get_grade_level_vocabulary (grade_level : Z) (limit : Z) : list string :=
  let words := default (default [] (vocabulary_of 5 grade_vocabulary))
                       (vocabulary_of grade_level grade_vocabulary) in
  slice_stop limit words.




Definition get_word_pronunciation (self : client) (word : string) : M json :=
  word_data <- get_word_definition self word ;;
  if truthy word_data
  then has <- lift (py_in "pronunciation" word_data) ;;
       if has : bool then lift (py_item word_data "pronunciation") else ret JNull
  else ret JNull.

(** The loop of [get_etymology]: the etymology of the first result that has
    one. *)
Fixpoint first_etymology (results : list json) : result json :=
  match results with
  | [] => Ok JNull
  | r :: rest =>
      match py_in "etymology" r with
      | Raise e => Raise e
      | Ok true => py_item r "etymology"
      | Ok false => first_etymology rest
      end
  end.

Definition get_etymology (self : client) (word : string) : M json :=
  word_data <- get_word_definition self word ;;
  if truthy word_data
  then has <- lift (py_in "results" word_data) ;;
       if has : bool
       then results <- lift (py_item word_data "results") ;;
            items <- lift (py_iter results) ;;
            lift (first_etymology items)
       else ret JNull
  else ret JNull.

Definition etymology_lesson_data (word : string) (grade_level : option Z)
    (etymology : json) : json :=
  JDict
    [("title", JStr ("Word Origins: " +:+ str_title word));
     ("subject", JStr "vocabulary");
     ("grade_level", of_opt_int grade_level);
     ("content_type", JStr "wordsapi_etymology");
     ("word", JStr word);
     ("etymology", etymology);
     ("text_content",
      JStr ("Learn about the origin and history of the word '" +:+ word +:+ "'."));
     ("estimated_time", JInt 10);
     ("xp_value", JInt 8)].

Definition create_etymology_lesson (self : client) (word : string)
    (grade_level : option Z) : M json :=
  etymology <- get_etymology self word ;;
  if negb (truthy etymology) then ret JNull
  else ret (etymology_lesson_data word grade_level etymology).

(** The words [get_word_of_the_day] draws from. *)
Definition educational_words : list string :=
  ["serendipity"; "ephemeral"; "ubiquitous"; "eloquent"; "perseverance";
   "resilient"; "innovative"; "authentic"; "diligent"; "curious";
   "analytical"; "creative"; "logical"; "systematic"; "thorough";
   "precise"; "concise"; "articulate"; "profound"; "insightful"].

Definition word_of_day_cache_file (self : client) : path :=
  path_join (cache_dir self) "word_of_day.json".

(** [get_word_of_the_day]; the word [random.choice] draws is an argument,
    one of [educational_words]. *)
Definition get_word_of_the_day (self : client) (drawn : string) : M json :=
  let cache_file := word_of_day_cache_file self in
  present <- path_exists cache_file ;;
  hit <- (if present : bool
          then cache_age <- cache_age_of cache_file ;;
               ret (timedelta_days cache_age <? 1)
          else ret false) ;;
  if hit : bool
  then json_load cache_file
  else
    word_data <- get_word_definition self drawn ;;
    json_dump word_data cache_file ;;
    ret word_data.
End Client.
End WordsAPI.

(** * A small library instance

    To run the clients on concrete inputs the library parameters must be
    something.  Here a file's text is kept as the value it was dumped from,
    or as raw characters that do not parse; [lower] and [title] act on ASCII
    letters; the digest is a polynomial in the bytes, cut to 128 bits. *)

Inductive disk_text : Type :=
| Dumped (v : json)
| Garbled (raw : string).

Definition ascii_lower (a : ascii) : ascii :=
  let n := nat_of_ascii a in
  if (65 <=? n)%nat && (n <=? 90)%nat then ascii_of_nat (n + 32) else a.

Definition ascii_upper (a : ascii) : ascii :=
  let n := nat_of_ascii a in
  if (97 <=? n)%nat && (n <=? 122)%nat then ascii_of_nat (n - 32) else a.

Definition is_letter (a : ascii) : bool :=
  let n := nat_of_ascii a in
  ((65 <=? n)%nat && (n <=? 90)%nat) || ((97 <=? n)%nat && (n <=? 122)%nat).

Fixpoint lower_string (s : string) : string :=
  match s with
  | EmptyString => EmptyString
  | String a s' => String (ascii_lower a) (lower_string s')
  end.

(** [str.title()]: a letter that follows a non-letter is upper-cased, the
    other letters are lower-cased. *)
Fixpoint title_from (after_letter : bool) (s : string) : string :=
  match s with
  | EmptyString => EmptyString
  | String a s' =>
      String (if after_letter then ascii_lower a else ascii_upper a)
             (title_from (is_letter a) s')
  end.

Definition simple_str (v : json) : string :=
  match v with
  | JNull => "None"
  | JBool true => "True"
  | JBool false => "False"
  | JInt n => pretty n
  | JStr s => s
  | JFloat _ => "<float>"
  | JList _ => "<list>"
  | JDict _ => "<dict>"
  end.

Fixpoint simple_digest (h : N) (s : string) : N :=
  match s with
  | EmptyString => h
  | String a s' => simple_digest ((h * 257 + N_of_ascii a) mod 2 ^ 128)%N s'
  end.

Definition simple_lib : PyLib := {|
  text := disk_text;
  json_dumps := Dumped;
  json_loads := fun t => match t with Dumped v => Some v | Garbled _ => None end;
  md5_digest := simple_digest 0;
  str_lower := lower_string;
  str_title := title_from false;
  py_str := simple_str
|}.

(** The world before anything happened, with the given files on disk. *)
Definition world_with `{L : PyLib} (fs : gmap path file) : world :=
  {| files := fs; sent := []; logged := [] |}.

(** A server that never answers, and one that answers every request alike. *)
Definition unreachable : request -> http_result := fun _ => ConnectionFailed.

Definition answering (status : Z) (body : json) : request -> http_result :=
  fun _ => Responded status body.

(** * The vocabulary of the statements *)

Section Vocabulary.
Context `{L : PyLib}.

(** [exists()] answers for [p], and a file named [p] can be written. *)
Definition reachable (p : path) : bool :=
  match kind_of p with TooLong => false | _ => true end.

Definition plain (p : path) : bool :=
  match kind_of p with Plain => true | _ => false end.

(** The entry for [p] is valid at the instant of [e], for a TTL of [ttl]
    days: [exists()] finds the file and [now - mtime < TTL]. *)
Definition valid_entry (w : world) (e : env) (p : path) (ttl : Z) : bool :=
  match kind_of p, files w !! p with
  | Plain, Some f => now e - mtime f <? ttl * day
  | _, _ => false
  end.

(** What [json.load] reads from [p], when the file is there and parses. *)
Definition cached_payload (w : world) (p : path) : option json :=
  match files w !! p with
  | Some f => json_loads (content f)
  | None => None
  end.

(** The same world without the file [p]. *)
Definition forget (p : path) (w : world) : world :=
  {| files := delete p (files w); sent := sent w; logged := logged w |}.

(** How a fetch ends: a [RequestException] (transport failure, or a 4xx
    or 5xx status) or the decoded body. *)
Definition fetch_outcome (e : env) (r : request) : request_error + json :=
  match server e r with
  | ConnectionFailed => inl ConnectionError
  | Responded st body =>
      if (400 <=? st) && (st <? 600) then inl (HTTPError st) else inr body
  end.

(** The file a successful fetch at the instant of [e] leaves. *)
Definition written (e : env) (payload : json) : file :=
  {| mtime := now e; content := json_dumps payload |}.

(** The shape shared by the cache-first methods: look at the file and its
    age, answer from the file when it is young enough, otherwise go on. *)
Definition cache_then (p : path) (ttl : Z) (on_hit on_miss : M json) : M json :=
  present <- path_exists p ;;
  hit <- (if present : bool
          then cache_age <- cache_age_of p ;;
               ret (timedelta_days cache_age <? ttl)
          else ret false) ;;
  if hit : bool then on_hit else on_miss.

(** The whole of it: on a hit, answer with [view] of the payload read; on a
    miss, unless the client is not [online], send [r]; of the body of a
    good response write what [keep] says, then answer with [answer]; a
    failed request is logged as [msg] and answered by [fallback], which is
    also the answer of a client that is not online. *)
Definition cache_first (p : path) (days : Z) (online : bool) (r : request)
    (view : json -> result json) (keep : json -> result (option json))
    (answer : json -> result json) (msg : string) (fallback : json) : M json :=
  cache_then p days
    (data <- json_load p ;; lift (view data))
    (if negb online then ret fallback
     else
       try_except
         (response <- session_get (url r) (params r) ;;
          raise_for_status response ;;
          kept <- lift (keep (response_json response)) ;;
          match kept with
          | Some v => json_dump v p
          | None => ret tt
          end ;;
          lift (answer (response_json response)))
         (fun e => logger_error msg e ;; ret fallback)).

(** [data['photos'][:limit]]. *)
Definition mars_pick (limit : Z) (data : json) : result json :=
  match py_item data "photos" with
  | Raise x => Raise x
  | Ok photos => py_slice limit photos
  end.

(** [data['collection']['items'][:limit]]. *)
Definition images_pick (limit : Z) (data : json) : result json :=
  match py_item data "collection" with
  | Raise x => Raise x
  | Ok collection =>
      match py_item collection "items" with
      | Raise x => Raise x
      | Ok items => py_slice limit items
      end
  end.

(** [self._filter_by_grade_level(data.get('works', []), grade_level)[:limit]]. *)
Definition subject_pick (grade_level : option Z) (limit : Z)
    (data : json) : result json :=
  match py_get data "works" (JList []) with
  | Raise x => Raise x
  | Ok works =>
      match OpenLibraryAPI._filter_by_grade_level works grade_level with
      | Raise x => Raise x
      | Ok books => py_slice limit books
      end
  end.

(** The project [get_space_mission_data] picks from a response. *)
Definition mission_found (mission_name : string) (data : json) : result json :=
  match py_get data "projects" (JList []) with
  | Raise x => Raise x
  | Ok projects =>
      match py_iter projects with
      | Raise x => Raise x
      | Ok items => NASAAPI.find_mission mission_name items
      end
  end.

(** ** The cache-first operations

    The methods that test a cache file against a TTL in days before they
    do anything else, and fetch on a miss. *)
Inductive cached_op : Type :=
| Ck12Search (self : CK12API.client) (query : string) (subject : option string)
             (grade_level : option Z) (limit : Z)
| Ck12Details (self : CK12API.client) (content_id : string)
| Ck12Subjects (self : CK12API.client)
| Ck12Concepts (self : CK12API.client) (subject : option string)
               (grade_level : option Z)
| KhanVideo (self : KhanAcademyAPI.client) (video_id : string)
| NasaApod (self : NASAAPI.client) (date : option string)
| NasaMars (self : NASAAPI.client) (sol : option Z) (camera : string) (limit : Z)
| NasaEarth (self : NASAAPI.client) (lat lon : json) (date : option string)
| NasaImages (self : NASAAPI.client) (query : string) (limit : Z)
| NasaMission (self : NASAAPI.client) (mission_name : string)
| BookSearch (self : OpenLibraryAPI.client) (query : string) (limit : Z)
             (grade_level : option Z)
| BookDetails (self : OpenLibraryAPI.client) (book_id : string)
| AuthorDetails (self : OpenLibraryAPI.client) (author_id : string)
| SubjectBooks (self : OpenLibraryAPI.client) (subject : string)
               (grade_level : option Z) (limit : Z)
| WordDefinition (self : WordsAPI.client) (word : string).

Definition run (op : cached_op) : M json :=
  match op with
  | Ck12Search self q s g l => CK12API.search_content self q s g l
  | Ck12Details self i => CK12API.get_content_details self i
  | Ck12Subjects self => CK12API.get_subjects self
  | Ck12Concepts self s g => CK12API.get_concepts self s g
  | KhanVideo self i => KhanAcademyAPI.get_video_content self i
  | NasaApod self d => NASAAPI.get_apod self d
  | NasaMars self sol camera l => NASAAPI.get_mars_photos self sol camera l
  | NasaEarth self lat lon d => NASAAPI.get_earth_imagery self lat lon d
  | NasaImages self q l => NASAAPI.search_nasa_images self q l
  | NasaMission self name => NASAAPI.get_space_mission_data self name
  | BookSearch self q l g => OpenLibraryAPI.search_books self q l g
  | BookDetails self i => OpenLibraryAPI.get_book_details self i
  | AuthorDetails self i => OpenLibraryAPI.get_author_details self i
  | SubjectBooks self s g l => OpenLibraryAPI.get_subject_books self s g l
  | WordDefinition self word => WordsAPI.get_word_definition self word
  end.

Definition cache_file (op : cached_op) : path :=
  match op with
  | Ck12Search self q s g _ => CK12API.search_cache_file self q s g
  | Ck12Details self i => CK12API.content_cache_file self i
  | Ck12Subjects self => CK12API.subjects_cache_file self
  | Ck12Concepts self s g => CK12API.concepts_cache_file self s g
  | KhanVideo self i => KhanAcademyAPI.video_cache_file self i
  | NasaApod self d => NASAAPI.apod_cache_file self d
  | NasaMars self sol camera _ => NASAAPI.mars_cache_file self sol camera
  | NasaEarth self lat lon d => NASAAPI.earth_cache_file self lat lon d
  | NasaImages self q _ => NASAAPI.images_cache_file self q
  | NasaMission self name => NASAAPI.mission_cache_file self name
  | BookSearch self q _ _ => OpenLibraryAPI.search_cache_file self q
  | BookDetails self i => OpenLibraryAPI.book_cache_file self i
  | AuthorDetails self i => OpenLibraryAPI.author_cache_file self i
  | SubjectBooks self s _ _ => OpenLibraryAPI.subject_cache_file self s
  | WordDefinition self word => WordsAPI.word_cache_file self word
  end.

(** The TTL of the operation, in days. *)
Definition ttl (op : cached_op) : Z :=
  match op with
  | Ck12Search _ _ _ _ _ => 7
  | Ck12Details _ _ => 30
  | Ck12Subjects _ => 30
  | Ck12Concepts _ _ _ => 7
  | KhanVideo _ _ => 7
  | NasaApod _ _ => 1
  | NasaMars _ _ _ _ => 7
  | NasaEarth _ _ _ _ => 1
  | NasaImages _ _ _ => 7
  | NasaMission _ _ => 30
  | BookSearch _ _ _ _ => 7
  | BookDetails _ _ => 30
  | AuthorDetails _ _ => 30
  | SubjectBooks _ _ _ _ => 7
  | WordDefinition _ _ => 30
  end.

(** What the operation returns for a cached payload: the payload itself,
    or what the method makes of its result list. *)
Definition view (op : cached_op) (payload : json) : result json :=
  match op with
  | Ck12Search _ _ _ _ _ =>
      match py_get payload "content" (JList []) with
      | Raise x => Raise x
      | Ok content => CK12API._process_content content
      end
  | BookSearch _ _ _ g =>
      match py_get payload "docs" (JList []) with
      | Raise x => Raise x
      | Ok docs => OpenLibraryAPI._filter_by_grade_level docs g
      end
  | NasaMars _ _ _ limit => mars_pick limit payload
  | NasaImages _ _ limit => images_pick limit payload
  | SubjectBooks _ _ g limit => subject_pick g limit payload
  | _ => Ok payload
  end.

(** What the operation writes to its cache file after a good response:
    the body as it came, except for [get_space_mission_data], which writes
    the project it found, if any. *)
Definition kept (op : cached_op) (body : json) : result (option json) :=
  match op with
  | NasaMission _ name =>
      match mission_found name body with
      | Raise x => Raise x
      | Ok found => Ok (if truthy found then Some found else None)
      end
  | _ => Ok (Some body)
  end.

(** What it returns then. *)
Definition answer (op : cached_op) (body : json) : result json :=
  match op with
  | NasaMission _ name => mission_found name body
  | _ => view op body
  end.

(** The request a miss sends. *)
Definition fetch_request (op : cached_op) : request :=
  match op with
  | Ck12Search _ q s g l =>
      {| url := CK12API.base_url +:+ "/content";
         params := CK12API.search_params q s g l |}
  | Ck12Details _ i =>
      {| url := CK12API.base_url +:+ "/content/" +:+ i; params := [] |}
  | Ck12Subjects _ =>
      {| url := CK12API.base_url +:+ "/subjects"; params := [] |}
  | Ck12Concepts _ s g =>
      {| url := CK12API.base_url +:+ "/concepts";
         params := CK12API.concepts_params s g |}
  | KhanVideo _ i =>
      {| url := KhanAcademyAPI.base_url +:+ "/videos/" +:+ i; params := [] |}
  | NasaApod self d =>
      {| url := NASAAPI.base_url +:+ "/planetary/apod";
         params := NASAAPI.dated_params self d |}
  | NasaMars self sol camera _ =>
      {| url := NASAAPI.base_url +:+ "/mars-photos/api/v1/rovers/curiosity/photos";
         params := NASAAPI.mars_params self sol camera |}
  | NasaEarth self _ _ d =>
      {| url := NASAAPI.base_url +:+ "/EPIC/api/natural";
         params := NASAAPI.dated_params self d |}
  | NasaImages self q _ =>
      {| url := NASAAPI.base_url +:+ "/search";
         params := [("q", JStr q); ("media_type", JStr "image");
                    ("api_key", JStr (NASAAPI.api_key self))] |}
  | NasaMission self _ =>
      {| url := NASAAPI.base_url +:+ "/techport/api/projects";
         params := [("api_key", JStr (NASAAPI.api_key self))] |}
  | BookSearch _ q l _ =>
      {| url := OpenLibraryAPI.base_url +:+ "/search.json";
         params := [("q", JStr q); ("limit", JInt l)] |}
  | BookDetails _ i =>
      {| url := OpenLibraryAPI.base_url +:+ "/works/" +:+ i +:+ ".json";
         params := [] |}
  | AuthorDetails _ i =>
      {| url := OpenLibraryAPI.base_url +:+ "/authors/" +:+ i +:+ ".json";
         params := [] |}
  | SubjectBooks _ s _ _ =>
      {| url := OpenLibraryAPI.base_url +:+ "/subjects/" +:+ s +:+ ".json";
         params := [] |}
  | WordDefinition _ word =>
      {| url := WordsAPI.base_url +:+ "/words/" +:+ word; params := [] |}
  end.

(** Whether a miss goes to the network at all: the vocabulary client
    without a key does not. *)
Definition fetches (op : cached_op) : bool :=
  match op with
  | WordDefinition self _ => truthy (of_opt_str (WordsAPI.api_key self))
  | _ => true
  end.

(** What the operation returns when the fetch fails. *)
Definition on_failure (op : cached_op) : json :=
  match op with
  | Ck12Search _ _ _ _ _ | Ck12Subjects _ | Ck12Concepts _ _ _
  | NasaMars _ _ _ _ | NasaImages _ _ _
  | BookSearch _ _ _ _ | SubjectBooks _ _ _ _ => JList []
  | Ck12Details _ _ | KhanVideo _ _ | NasaApod _ _ | NasaEarth _ _ _ _
  | NasaMission _ _ | BookDetails _ _ | AuthorDetails _ _ => JNull
  | WordDefinition _ word => WordsAPI._get_basic_definition word
  end.

(** The message it logs then. *)
Definition failure_message (op : cached_op) : string :=
  match op with
  | Ck12Search _ _ _ _ _ => "CK-12 search error"
  | Ck12Details _ _ => "CK-12 content details error"
  | Ck12Subjects _ => "CK-12 subjects error"
  | Ck12Concepts _ _ _ => "CK-12 concepts error"
  | KhanVideo _ i => "Error fetching video " +:+ i
  | NasaApod _ _ => "NASA APOD API error"
  | NasaMars _ _ _ _ => "NASA Mars API error"
  | NasaEarth _ _ _ _ => "NASA Earth API error"
  | NasaImages _ _ _ => "NASA Search API error"
  | NasaMission _ _ => "NASA TechPort API error"
  | BookSearch _ _ _ _ => "OpenLibrary search error"
  | BookDetails _ _ => "OpenLibrary book details error"
  | AuthorDetails _ _ => "OpenLibrary author details error"
  | SubjectBooks _ _ _ _ => "OpenLibrary subject search error"
  | WordDefinition _ word => "WordsAPI error for word '" +:+ word +:+ "'"
  end.

(** The world a miss with a good response leaves: the request sent, and
    the file written when there is something to keep. *)
Definition fetched (op : cached_op) (e : env) (body : json) (w : world) : world :=
  match kept op body with
  | Ok (Some v) => store (cache_file op) (written e v) (emit (fetch_request op) w)
  | _ => emit (fetch_request op) w
  end.

(** A sequence of vocabulary lookups, each at its own instant, one after
    the other on the same disk. *)
Fixpoint lookup_words (self : WordsAPI.client) (calls : list (string * env))
    (w : world) : list (result json) * world :=
  match calls with
  | [] => ([], w)
  | (word, e) :: rest =>
      let (r, w') := WordsAPI.get_word_definition self word e w in
      let (rs, w'') := lookup_words self rest w' in
      (r :: rs, w'')
  end.

(** Every operation but [get_space_mission_data] keeps the body of the
    response. *)
Definition keeps_body (op : cached_op) : Prop :=
  match op with NasaMission _ _ => False | _ => True end.

(** The handlers of the clients catch [RequestException] and nothing else:
    [not_caught r] says that [r] is not an exception they would catch. *)
Definition not_caught {A} (r : result A) : Prop :=
  forall x, r <> Raise (RequestException x).
End Vocabulary.

(** Unfolding the primitives of a fetch, and the case analysis on how the
    fetch named in [H] ends. *)
Ltac unfold_io :=
  unfold try_except, bind, session_get, fetch_outcome, raise_for_status,
    json_dump, json_load, logger_error, lift, ret, raise, written,
    cached_payload in *;
  cbn [server url params status_code response_json] in *.

Ltac split_fetch H :=
  match type of H with
  | context [server ?e ?r] =>
      destruct (server e r) as [|?st ?b];
      [| cbn [status_code response_json] in *;
         destruct ((400 <=? st) && (st <? 600)) ];
      try discriminate H
  end.

(** Case analysis on every result and test in the goal. *)
Ltac split_results :=
  repeat match goal with
         | |- context [match ?x with Ok _ => _ | Raise _ => _ end] =>
             destruct x as [?|?]
         | |- context [let (_, _) := ?x in _] => destruct x as [? ?]
         | |- context [match ?x with (_, _) => _ end] => destruct x as [? ?]
         | |- context [if ?b then _ else _] => destruct b
         end.

(** ** The operations that are not cache-first: their requests *)

Definition videos_request (topic : string) (grade_level : option Z) (limit : Z)
  : request :=
  {| url := KhanAcademyAPI.base_url +:+ "/videos";
     params := KhanAcademyAPI.videos_params topic grade_level limit |}.

Definition exercises_request (subject : string) (grade_level : option Z) : request :=
  {| url := KhanAcademyAPI.base_url +:+ "/exercises";
     params := KhanAcademyAPI.exercises_params subject grade_level |}.

Definition topics_request (subject : string) : request :=
  {| url := KhanAcademyAPI.base_url +:+ "/subjects/" +:+ subject +:+ "/topics";
     params := [] |}.

Definition space_weather_request (self : NASAAPI.client) : request :=
  {| url := NASAAPI.base_url +:+ "/DONKI/WSJ";
     params := [("api_key", JStr (NASAAPI.api_key self))] |}.

(** * Concrete inputs

    Clients with the cache directories of the constructors' defaults, and
    the payloads and instants used to run them. *)

Definition ck12 : CK12API.client := {| CK12API.cache_dir := "uploads/ck12" |}.

Definition khan : KhanAcademyAPI.client :=
  {| KhanAcademyAPI.cache_dir := "uploads/khan_academy" |}.

Definition nasa : NASAAPI.client :=
  {| NASAAPI.api_key := "DEMO_KEY"; NASAAPI.cache_dir := "uploads/nasa" |}.


Definition words_offline : WordsAPI.client :=
  {| WordsAPI.api_key := None; WordsAPI.cache_dir := "uploads/wordsapi" |}.

Definition words_online : WordsAPI.client :=
  {| WordsAPI.api_key := Some "secret"; WordsAPI.cache_dir := "uploads/wordsapi" |}.

Definition hour : Z := 3600 * 1000000.

(** A search response with two content items. *)
Definition fractions_item1 : list (string * json) :=
  [("id", JStr "c1"); ("title", JStr "Equivalent fractions"); ("type", JStr "lesson");
   ("subject", JStr "math"); ("grade_level", JInt 4)].

Definition fractions_item2 : list (string * json) :=
  [("id", JStr "c2"); ("title", JStr "Adding fractions"); ("type", JStr "practice problem");
   ("difficulty", JStr "easy")].

Definition fractions_payload : json :=
  JDict [("total", JInt 2);
         ("content", JList [JDict fractions_item1; JDict fractions_item2])].

Definition fractions_request : request :=
  {| url := "https://www.ck12.org/api/v1/content";
     params := [("q", JStr "fractions"); ("limit", JInt 20);
                ("subject", JStr "math"); ("grade_level", JInt 4)] |}.

Definition at_time `{L : PyLib} (t : Z) (srv : request -> http_result) : env :=
  {| now := t; server := srv |}.

(** A file holding the dump of [v], last written at [t]. *)
Definition dumped_at `{L : PyLib} (t : Z) (v : json) : file :=
  {| mtime := t; content := json_dumps v |}.

Definition cached_videos : json :=
  JList [JDict [("id", JStr "v-old"); ("title", JStr "Fractions, an old lesson")]].

Definition live_videos : json :=
  JList [JDict [("id", JStr "v-new"); ("title", JStr "Fractions on a number line");
                ("thumbnail_url", JStr "https://img.example/v-new.png")]].

Definition video_detail : json :=
  JDict [("id", JStr "v-new"); ("title", JStr "Fractions on a number line");
         ("download_urls", JDict [("medium", JStr "https://cdn.example/v-new.mp4")])].

Definition serendipity_record : json :=
  JDict [("word", JStr "serendipity");
         ("results", JList [JDict [("definition", JStr "good luck in making unexpected discoveries");
                                   ("synonyms", JList [JStr "fluke"])]])].


(** A file whose text does not parse, last written at [t]. *)
Definition garbled_at (t : Z) (raw : string) : @file simple_lib :=
  @Build_file simple_lib t (Garbled raw).

(** ** The requests of the other operations *)

Definition mars_request (self : NASAAPI.client) (sol : option Z) (camera : string)
  : request :=
  {| url := NASAAPI.base_url +:+ "/mars-photos/api/v1/rovers/curiosity/photos";
     params := NASAAPI.mars_params self sol camera |}.

Definition images_request (self : NASAAPI.client) (query : string) : request :=
  {| url := NASAAPI.base_url +:+ "/search";
     params := [("q", JStr query); ("media_type", JStr "image");
                ("api_key", JStr (NASAAPI.api_key self))] |}.

Definition mission_request (self : NASAAPI.client) : request :=
  {| url := NASAAPI.base_url +:+ "/techport/api/projects";
     params := [("api_key", JStr (NASAAPI.api_key self))] |}.

Definition subject_books_request (subject : string) : request :=
  {| url := OpenLibraryAPI.base_url +:+ "/subjects/" +:+ subject +:+ ".json";
     params := [] |}.


(** The embedded dictionary of the vocabulary client, as the words it
    holds and their meanings. *)
Definition embedded_meanings : list (string * string) :=
  [("happy", "feeling or showing pleasure or contentment");
   ("big", "of considerable size or extent");
   ("small", "of a size that is less than normal or usual");
   ("fast", "moving or capable of moving at high speed");
   ("slow", "moving or operating at a low speed");
   ("good", "to be desired or approved of");
   ("bad", "of poor quality or a low standard");
   ("new", "not existing before; made, introduced, or discovered recently");
   ("old", "having lived for a long time; no longer young");
   ("hot", "having a high degree of heat or a high temperature")].

(** The record of a definition: [{'word': w, 'results': [{'definition': m}]}]. *)
Definition one_definition (word meaning : string) : json :=
  JDict [("word", JStr word);
         ("results", JList [JDict [("definition", JStr meaning)]])].

(** A value is a record when it is a dict. *)
Definition is_record (v : json) : Prop := exists d, v = JDict d.

(** The fields of a normalized CK-12 content item, in order. *)
Definition content_fields : list string :=
  ["id"; "title"; "description"; "type"; "subject"; "grade_level"; "url";
   "embed_url"; "difficulty"].

(** The quiz [convert_to_quiz] makes of a record with none of the question
    fields. *)
Definition blank_quiz (difficulty : json) : json :=
  JDict [("question", JStr ""); ("options", JList []); ("correct_answer", JStr "");
         ("explanation", JStr ""); ("difficulty", difficulty); ("points", JInt 1)].

(** The record [_process_content] makes of a content record. *)
Definition normalized_content (d : list (string * json)) : list (string * json) :=
  [("id", default JNull (dict_lookup "id" d));
   ("title", default JNull (dict_lookup "title" d));
   ("description", default JNull (dict_lookup "description" d));
   ("type", default JNull (dict_lookup "type" d));
   ("subject", default JNull (dict_lookup "subject" d));
   ("grade_level", default JNull (dict_lookup "grade_level" d));
   ("url", default JNull (dict_lookup "url" d));
   ("embed_url", default JNull (dict_lookup "embed_url" d));
   ("difficulty", default (JStr "medium") (dict_lookup "difficulty" d))].

Definition is_normalized (item : json) : Prop :=
  exists d, item = JDict (normalized_content d).

(** The tests of [get_simulations] and [get_practice_problems]. *)
Definition simulation_like `{L : PyLib} : json -> result bool :=
  CK12API.either_mentions "simulation" "type" "interactive" "title".

Definition problem_like `{L : PyLib} : json -> result bool :=
  CK12API.either_mentions "problem" "type" "practice" "title".

(** The world [w] after more requests and log records, the disk untouched. *)
Definition advanced `{L : PyLib} (w : world) (reqs : list request)
    (logs : list log_record) : world :=
  {| files := files w; sent := sent w ++ reqs; logged := logged w ++ logs |}.




(** ** More inputs *)

(** A search response whose content list holds a string. *)
Definition broken_search : json := JDict [("content", JList [JStr "oops"])].

(** A response with a simulation and a lesson. *)
Definition pendulum : list (string * json) :=
  [("id", JStr "s1"); ("title", JStr "Pendulum lab"); ("type", JStr "Simulation")].

Definition forces : list (string * json) :=
  [("id", JStr "s2"); ("title", JStr "Forces"); ("type", JStr "lesson")].

Definition science_payload : json :=
  JDict [("content", JList [JDict pendulum; JDict forces])].

(** A response with a practice problem. *)
Definition adding : list (string * json) :=
  [("id", JStr "p1"); ("title", JStr "Adding fractions");
   ("type", JStr "Practice Problem"); ("difficulty", JStr "easy")].

Definition problems_payload : json := JDict [("content", JList [JDict adding])].

Definition rover_photos : json :=
  JDict [("photos", JList [JDict [("id", JInt 1)]; JDict [("id", JInt 2)];
                           JDict [("id", JInt 3)]])].

Definition artemis : json := JDict [("title", JStr "ARTEMIS I")].

Definition techport : json :=
  JDict [("projects", JList [JDict [("title", JStr "Apollo 11")]; artemis])].

(** A Khan Academy that answers each of its three endpoints: four videos,
    six exercises, one topic. *)
Definition with_ids (ids : list string) : json :=
  JList (map (fun i => JDict [("id", JStr i)]) ids).

Definition khan_server : request -> http_result := fun r =>
  if String.eqb (url r) "https://www.khanacademy.org/api/v1/videos"
  then Responded 200 (with_ids ["v1"; "v2"; "v3"; "v4"])
  else if String.eqb (url r) "https://www.khanacademy.org/api/v1/exercises"
  then Responded 200 (with_ids ["x1"; "x2"; "x3"; "x4"; "x5"; "x6"])
  else Responded 200 (JList [JStr "Fractions"]).

(** What [_process_videos] and [_process_exercises] make of a record that
    has only an [id]. *)
Definition bare_video (id : string) : json :=
  JDict [("id", JStr id); ("title", JNull); ("description", JNull);
         ("duration", JNull); ("thumbnail", JNull); ("url", JNull);
         ("subject", JNull); ("grade_level", JNull)].

Definition bare_exercise (id : string) : json :=
  JDict [("id", JStr id); ("title", JNull); ("description", JNull);
         ("type", JNull); ("difficulty", JNull); ("subject", JNull)].









(** * Properties *)

Section Facts.
Context `{L : PyLib}.

Lemma day_pos : 0 < day.
Proof. unfold day. lia. Qed.

(** The test the clients make, [cache_age.days < ttl], holds exactly when
    the age is below [ttl] whole days. *)
Lemma timedelta_days_lt (delta ttl : Z) :
  (timedelta_days delta <? ttl) = true <-> delta < ttl * day.
Proof.
  unfold timedelta_days. rewrite Z.ltb_lt. pose proof day_pos as Hd.
  split; intros H.
  - apply Z.nle_gt. intros Hle.
    assert (ttl <= delta `div` day) by (apply Z.div_le_lower_bound; lia). lia.
  - apply Z.div_lt_upper_bound; lia.
Qed.

(** ** File names *)

Lemma has_byte_app c a b : has_byte c (a +:+ b) = has_byte c a || has_byte c b.
Proof.
  induction a as [|x a IH]; [reflexivity|].
  simpl. rewrite IH. now rewrite orb_assoc.
Qed.

Lemma length_app a b :
  String.length (a +:+ b) = (String.length a + String.length b)%nat.
Proof. induction a as [|x a IH]; [reflexivity|]. simpl. now f_equal. Qed.

Lemma first_component_whole s : has_byte "/" s = false -> first_component s = s.
Proof.
  induction s as [|a s IH]; [reflexivity|]. cbn [has_byte first_component].
  intros H. apply orb_false_elim in H as [Ha Hs]. rewrite Ha. now rewrite IH.
Qed.

(** A name of at most 255 bytes without a ['/'] and without a NUL byte is
    the name of a file in the cache directory. *)
Lemma plain_name dir name :
  has_byte "000" name = false -> has_byte "/" name = false ->
  (String.length name <= 255)%nat ->
  kind_of (path_join dir name) = Plain.
Proof.
  intros Hnul Hslash Hlen. unfold kind_of, path_join. cbn [fst snd].
  rewrite Hnul, (first_component_whole _ Hslash), Hslash.
  destruct (Nat.ltb_spec 255 (String.length name)); [lia|reflexivity].
Qed.

Lemma hex_digit_in n : In (hex_digit n) hex_alphabet.
Proof.
  unfold hex_digit.
  destruct (nth_in_or_default (N.to_nat n) hex_alphabet "0"%char) as [H|H];
    [exact H|].
  rewrite H. now left.
Qed.

Lemma hex_digits_plain c k n :
  ~ In c hex_alphabet -> has_byte c (hex_digits k n) = false.
Proof.
  intros Hc. revert n. induction k as [|k IH]; intros n; [reflexivity|].
  change (hex_digits (S k) n)
    with (hex_digits k (n / 16) +:+ String (hex_digit (n mod 16)) EmptyString).
  rewrite has_byte_app, IH. cbn [has_byte orb].
  rewrite orb_false_r. apply Ascii.eqb_neq. intros Heq. apply Hc.
  rewrite <- Heq. apply hex_digit_in.
Qed.

Lemma hex_digits_length k n : String.length (hex_digits k n) = k.
Proof.
  revert n. induction k as [|k IH]; intros n; [reflexivity|].
  change (hex_digits (S k) n)
    with (hex_digits k (n / 16) +:+ String (hex_digit (n mod 16)) EmptyString).
  rewrite length_app, IH. cbn. lia.
Qed.

(** The searches name their cache file after a digest: such a name is
    always the name of a file. *)
Lemma digest_file_plain dir s :
  kind_of (path_join dir ("search_" +:+ md5_hexdigest s +:+ ".json")) = Plain.
Proof.
  assert (Hnot : forall c, In c ["000"; "/"]%char -> ~ In c hex_alphabet).
  { intros c [<-|[<-|[]]] Hin; repeat (destruct Hin as [Hin|Hin]; [discriminate|]);
      destruct Hin. }
  apply plain_name.
  - rewrite !has_byte_app. unfold md5_hexdigest.
    rewrite hex_digits_plain by (apply Hnot; now left). reflexivity.
  - rewrite !has_byte_app. unfold md5_hexdigest.
    rewrite hex_digits_plain by (apply Hnot; right; now left). reflexivity.
  - rewrite !length_app. unfold md5_hexdigest. rewrite hex_digits_length. cbn. lia.
Qed.

Lemma plain_reachable p : plain p = true -> reachable p = true.
Proof. unfold plain, reachable. now destruct (kind_of p). Qed.

Lemma plain_kind p : plain p = true <-> kind_of p = Plain.
Proof. unfold plain. destruct (kind_of p); split; congruence. Qed.

(** ** The primitives on a file name *)

Lemma path_exists_plain p e w :
  plain p = true ->
  path_exists p e w
    = (Ok (match files w !! p with Some _ => true | None => false end), w).
Proof. intros H. apply plain_kind in H. unfold path_exists. now rewrite H. Qed.

Lemma path_exists_unreachable p e w :
  reachable p = false -> path_exists p e w = (Raise OSError, w).
Proof. unfold reachable, path_exists. now destruct (kind_of p). Qed.

Lemma path_exists_absent p e w :
  reachable p = true -> plain p = false -> path_exists p e w = (Ok false, w).
Proof. unfold reachable, plain, path_exists. now destruct (kind_of p). Qed.

Lemma json_dump_plain v p e w :
  plain p = true -> json_dump v p e w = (Ok tt, store p (written e v) w).
Proof. intros H. apply plain_kind in H. unfold json_dump. now rewrite H. Qed.

Lemma json_dump_fails v p e w :
  plain p = false -> json_dump v p e w = (Raise (open_error p w), w).
Proof. unfold plain, json_dump. now destruct (kind_of p). Qed.

Lemma open_error_not_caught p w x : open_error p w <> RequestException x.
Proof.
  unfold open_error. destruct (kind_of p); try discriminate;
    destruct (files w !! _); discriminate.
Qed.

(** What opening fails with: the name is no name, or too long, or its
    directory is missing or is a file of the cache. *)
Lemma open_error_cases p w :
  In (open_error p w) [ValueError; OSError; NotADirectoryError; FileNotFoundError].
Proof.
  unfold open_error. destruct (kind_of p); cbn; auto;
    destruct (files w !! _); auto.
Qed.

(** ** The cache test *)

Lemma valid_entry_file w e p t :
  valid_entry w e p t = true ->
  plain p = true /\ exists f, files w !! p = Some f /\ now e - mtime f < t * day.
Proof.
  unfold valid_entry, plain. destruct (kind_of p); try discriminate.
  destruct (files w !! p) as [f|]; [|discriminate].
  intros H. split; [reflexivity|]. exists f. split; [reflexivity|]. now apply Z.ltb_lt.
Qed.

Lemma valid_entry_fresh w e p t f :
  plain p = true -> files w !! p = Some f ->
  valid_entry w e p t = (now e - mtime f <? t * day).
Proof.
  intros Hp Hf. apply plain_kind in Hp. unfold valid_entry. now rewrite Hp, Hf.
Qed.

Lemma valid_entry_stale w e p t f :
  files w !! p = Some f -> t * day <= now e - mtime f ->
  valid_entry w e p t = false.
Proof.
  intros Hf Hage. unfold valid_entry. rewrite Hf.
  destruct (kind_of p); try reflexivity. apply Z.ltb_ge. lia.
Qed.

Lemma valid_entry_absent w e p t :
  files w !! p = None -> valid_entry w e p t = false.
Proof. intros Hf. unfold valid_entry. rewrite Hf. now destruct (kind_of p). Qed.

Lemma valid_entry_forget w e p t : valid_entry (forget p w) e p t = false.
Proof. apply valid_entry_absent. unfold forget. cbn [files]. apply lookup_delete_eq. Qed.

Lemma valid_entry_store w e1 e2 p t payload :
  plain p = true ->
  now e2 - now e1 < t * day ->
  valid_entry (store p (written e1 payload) w) e2 p t = true.
Proof.
  intros Hp Hage. rewrite (valid_entry_fresh _ _ _ _ (written e1 payload) Hp).
  - cbn [mtime written]. now apply Z.ltb_lt.
  - unfold store. cbn [files]. apply lookup_insert_eq.
Qed.

Lemma cached_payload_store w e p payload :
  (forall v, json_loads (json_dumps v) = Some v) ->
  cached_payload (store p (written e payload) w) p = Some payload.
Proof.
  intros Hcodec. unfold cached_payload, store. cbn [files].
  rewrite lookup_insert_eq. apply Hcodec.
Qed.

Lemma cache_then_hit p t (h m : M json) e w r :
  valid_entry w e p t = true -> h e w = r -> cache_then p t h m e w = r.
Proof.
  intros Hv <-. destruct (valid_entry_file _ _ _ _ Hv) as (Hp & f & Hf & Hage).
  unfold cache_then, bind. rewrite (path_exists_plain p e w Hp), Hf.
  unfold cache_age_of, bind, datetime_now, stat_mtime, ret. rewrite Hf.
  apply timedelta_days_lt in Hage. now rewrite Hage.
Qed.

Lemma cache_then_miss p t (h m : M json) e w r :
  valid_entry w e p t = false -> reachable p = true ->
  m e w = r -> cache_then p t h m e w = r.
Proof.
  intros Hv Hr <-. unfold cache_then, bind.
  destruct (plain p) eqn:Hp.
  - rewrite (path_exists_plain p e w Hp).
    destruct (files w !! p) as [f|] eqn:Hf; [|reflexivity].
    rewrite (valid_entry_fresh _ _ _ _ f Hp Hf) in Hv.
    unfold cache_age_of, bind, datetime_now, stat_mtime, ret. rewrite Hf.
    destruct (timedelta_days (now e - mtime f) <? t) eqn:Hd; [|reflexivity].
    apply timedelta_days_lt in Hd. apply Z.ltb_ge in Hv. lia.
  - now rewrite (path_exists_absent p e w Hr Hp).
Qed.

(** A cache file whose name is too long stops the call at [exists()]. *)
Lemma cache_then_unreachable p t (h m : M json) e w :
  reachable p = false -> cache_then p t h m e w = (Raise OSError, w).
Proof.
  intros Hr. unfold cache_then, bind. now rewrite (path_exists_unreachable p e w Hr).
Qed.

Lemma cache_then_ext p t (h h' m m' : M json) e w :
  h e w = h' e w -> m e w = m' e w ->
  cache_then p t h m e w = cache_then p t h' m' e w.
Proof.
  intros Hh Hm. destruct (reachable p) eqn:Hr.
  - destruct (valid_entry w e p t) eqn:Hv.
    + rewrite (cache_then_hit p t h m e w _ Hv eq_refl).
      now rewrite (cache_then_hit p t h' m' e w _ Hv eq_refl).
    + rewrite (cache_then_miss p t h m e w _ Hv Hr eq_refl).
      now rewrite (cache_then_miss p t h' m' e w _ Hv Hr eq_refl).
  - now rewrite !cache_then_unreachable.
Qed.

(** The call only looks at the file, and leaves the world alone, until it
    has decided between hit and miss. *)
Lemma cache_then_cases p t (h m : M json) e w :
  (reachable p = false /\ cache_then p t h m e w = (Raise OSError, w)) \/
  (valid_entry w e p t = true /\ cache_then p t h m e w = h e w) \/
  (reachable p = true /\ valid_entry w e p t = false /\
   cache_then p t h m e w = m e w).
Proof.
  destruct (reachable p) eqn:Hr.
  - destruct (valid_entry w e p t) eqn:Hv.
    + right. left. split; [reflexivity|]. now apply cache_then_hit.
    + right. right. repeat split. now apply cache_then_miss.
  - left. split; [reflexivity|]. now apply cache_then_unreachable.
Qed.

(** ** What the pure helpers can raise

    Only [session.get] and [raise_for_status] raise a [RequestException];
    the helpers that walk a payload raise [AttributeError], [TypeError],
    [KeyError] or [IndexError], which no handler of the clients catches. *)
Lemma py_get_not_caught v k d : not_caught (py_get v k d).
Proof. intros err; destruct v; discriminate. Qed.

Lemma py_iter_not_caught v : not_caught (py_iter v).
Proof. intros err; destruct v; discriminate. Qed.

Lemma project_not_caught fields item : not_caught (project fields item).
Proof. intros err; destruct item; discriminate. Qed.

Lemma for_each_not_caught {A B} (f : A -> result B) xs :
  (forall a, not_caught (f a)) -> not_caught (for_each f xs).
Proof.
  intros Hf. induction xs as [|a xs IH]; intros x; cbn; [discriminate|].
  destruct (f a) eqn:Ha; [|intros [= ->]; now apply (Hf a x)].
  destruct (for_each f xs) eqn:Hxs; [discriminate|].
  intros [= ->]. now apply (IH x).
Qed.

Lemma process_content_not_caught v : not_caught (CK12API._process_content v).
Proof.
  unfold CK12API._process_content. intros x.
  destruct (py_iter v) eqn:Hi; [|intros [= ->]; now apply (py_iter_not_caught v x)].
  destruct (for_each _ a) eqn:Hfe; [discriminate|].
  intros [= ->]. revert Hfe. apply for_each_not_caught.
  intros item. apply project_not_caught.
Qed.

Lemma process_videos_not_caught v :
  not_caught (KhanAcademyAPI._process_videos v).
Proof.
  unfold KhanAcademyAPI._process_videos. intros x.
  destruct (py_iter v) eqn:Hi; [|intros [= ->]; now apply (py_iter_not_caught v x)].
  destruct (for_each _ a) eqn:Hfe; [discriminate|].
  intros [= ->]. revert Hfe. apply for_each_not_caught.
  intros item. apply project_not_caught.
Qed.

Lemma process_exercises_not_caught v :
  not_caught (KhanAcademyAPI._process_exercises v).
Proof.
  unfold KhanAcademyAPI._process_exercises. intros x.
  destruct (py_iter v) eqn:Hi; [|intros [= ->]; now apply (py_iter_not_caught v x)].
  destruct (for_each _ a) eqn:Hfe; [discriminate|].
  intros [= ->]. revert Hfe. apply for_each_not_caught.
  intros item. apply project_not_caught.
Qed.

Lemma any_subject_has_not_caught k subs :
  not_caught (OpenLibraryAPI.any_subject_has k subs).
Proof.
  induction subs as [|s subs IH]; intros x; cbn; [discriminate|].
  destruct s; try discriminate.
  destruct (contains k _); [discriminate|apply IH].
Qed.

Lemma has_mature_keyword_not_caught ks title subjects :
  not_caught (OpenLibraryAPI.has_mature_keyword ks title subjects).
Proof.
  induction ks as [|k ks IH]; intros x; cbn; [discriminate|].
  destruct (contains k title); [discriminate|].
  destruct (py_iter subjects) eqn:Hi;
    [|intros [= ->]; now apply (py_iter_not_caught subjects x)].
  destruct (OpenLibraryAPI.any_subject_has k a) as [[]|] eqn:Ha;
    [discriminate|apply IH|].
  intros [= ->]. now apply (any_subject_has_not_caught k a x).
Qed.

Lemma is_appropriate_not_caught g book :
  not_caught (OpenLibraryAPI.is_appropriate g book).
Proof.
  intros x. destruct book; try discriminate.
  unfold OpenLibraryAPI.is_appropriate.
  destruct (default _ _); try discriminate.
  destruct (g <=? 3); [|discriminate].
  match goal with
  | |- context [OpenLibraryAPI.has_mature_keyword ?a ?b ?c] =>
      pose proof (has_mature_keyword_not_caught a b c x) as Hm;
      destruct (OpenLibraryAPI.has_mature_keyword a b c)
  end; [discriminate|].
  intros [= ->]. now apply Hm.
Qed.

Lemma filter_books_not_caught g books :
  not_caught (OpenLibraryAPI.filter_books g books).
Proof.
  induction books as [|b books IH]; intros x; cbn; [discriminate|].
  destruct (OpenLibraryAPI.is_appropriate g b) eqn:Hb;
    [|intros [= ->]; now apply (is_appropriate_not_caught g b x)].
  destruct (OpenLibraryAPI.filter_books g books) eqn:Hr; [discriminate|].
  intros [= ->]. now apply (IH x).
Qed.

Lemma filter_by_grade_level_not_caught books g :
  not_caught (OpenLibraryAPI._filter_by_grade_level books g).
Proof.
  intros x. unfold OpenLibraryAPI._filter_by_grade_level.
  destruct g as [g|]; [|discriminate].
  destruct (negb _); [discriminate|].
  destruct (py_iter books) eqn:Hi;
    [|intros [= ->]; now apply (py_iter_not_caught books x)].
  destruct (OpenLibraryAPI.filter_books g a) eqn:Hf; [discriminate|].
  intros [= ->]. now apply (filter_books_not_caught g a x).
Qed.

Lemma py_item_not_caught v k : not_caught (py_item v k).
Proof. intros err. destruct v; try discriminate. cbn. destruct (dict_lookup k _); discriminate. Qed.

Lemma py_slice_not_caught k v : not_caught (py_slice k v).
Proof. intros err. destruct v; discriminate. Qed.

Lemma mars_pick_not_caught limit data : not_caught (mars_pick limit data).
Proof.
  intros err. unfold mars_pick.
  destruct (py_item data "photos") eqn:H; [apply py_slice_not_caught|].
  intros [= ->]. now apply (py_item_not_caught _ _ err) in H.
Qed.

Lemma images_pick_not_caught limit data : not_caught (images_pick limit data).
Proof.
  intros err. unfold images_pick.
  destruct (py_item data "collection") as [c|] eqn:H;
    [|intros [= ->]; now apply (py_item_not_caught _ _ err) in H].
  destruct (py_item c "items") eqn:H'; [apply py_slice_not_caught|].
  intros [= ->]. now apply (py_item_not_caught _ _ err) in H'.
Qed.

Lemma subject_pick_not_caught g limit data : not_caught (subject_pick g limit data).
Proof.
  intros err. unfold subject_pick.
  destruct (py_get data "works" (JList [])) as [c|] eqn:H;
    [|intros [= ->]; now apply (py_get_not_caught _ _ _ err) in H].
  destruct (OpenLibraryAPI._filter_by_grade_level c g) eqn:H';
    [apply py_slice_not_caught|].
  intros [= ->]. now apply (filter_by_grade_level_not_caught _ _ err) in H'.
Qed.

Lemma lower_of_raises item k e : lower_of item k = Raise e -> e = AttributeError.
Proof.
  unfold lower_of. destruct item; cbn [py_get]; try (now intros [= <-]).
  destruct (default _ _); intros [= <-]; reflexivity.
Qed.

Lemma find_mission_not_caught name items : not_caught (NASAAPI.find_mission name items).
Proof.
  intros err. induction items as [|project rest IH]; cbn [NASAAPI.find_mission];
    [discriminate|].
  destruct (lower_of project "title") as [title|x] eqn:Ht.
  - destruct (contains _ _); [discriminate|exact IH].
  - apply lower_of_raises in Ht. subst x. discriminate.
Qed.

Lemma mission_found_not_caught name body : not_caught (mission_found name body).
Proof.
  intros err. unfold mission_found.
  destruct (py_get body _ _) as [projects|] eqn:Hg;
    [|intros [= ->]; now apply (py_get_not_caught _ _ _ err) in Hg].
  destruct (py_iter projects) as [items|] eqn:Hi;
    [|intros [= ->]; now apply (py_iter_not_caught _ err) in Hi].
  apply find_mission_not_caught.
Qed.

Lemma view_not_caught op payload : not_caught (view op payload).
Proof.
  intros x. destruct op; cbn [view]; try discriminate.
  - destruct (py_get payload _ _) eqn:Hg;
      [apply process_content_not_caught
      |intros [= ->]; now apply (py_get_not_caught _ _ _ x) in Hg].
  - apply mars_pick_not_caught.
  - apply images_pick_not_caught.
  - destruct (py_get payload _ _) eqn:Hg;
      [apply filter_by_grade_level_not_caught
      |intros [= ->]; now apply (py_get_not_caught _ _ _ x) in Hg].
  - apply subject_pick_not_caught.
Qed.

Lemma answer_not_caught op body : not_caught (answer op body).
Proof.
  destruct op; try apply view_not_caught. cbn [answer]. apply mission_found_not_caught.
Qed.

Lemma kept_not_caught op body : not_caught (kept op body).
Proof.
  intros x. destruct op; cbn [kept]; try discriminate.
  destruct (mission_found mission_name body) eqn:H; [discriminate|].
  intros [= ->]. now apply (mission_found_not_caught _ _ x) in H.
Qed.

(** ** One step of the cache-first shape *)

Section Shape.
Variables (p : path) (days : Z) (online : bool) (r : request).
Variables (see : json -> result json) (keep : json -> result (option json)).
Variables (reply : json -> result json) (msg : string) (fallback : json).

Let call : M json := cache_first p days online r see keep reply msg fallback.

Lemma cf_hit e w payload :
  valid_entry w e p days = true ->
  cached_payload w p = Some payload ->
  call e w = (see payload, w).
Proof.
  intros Hv Hp. apply (cache_then_hit _ _ _ _ e w _ Hv).
  unfold bind, json_load, lift, cached_payload in *.
  destruct (files w !! p) as [f|]; [|discriminate]. now rewrite Hp.
Qed.

Lemma cf_hit_malformed e w f :
  valid_entry w e p days = true ->
  files w !! p = Some f ->
  json_loads (content f) = None ->
  call e w = (Raise JSONDecodeError, w).
Proof.
  intros Hv Hf Hp. apply (cache_then_hit _ _ _ _ e w _ Hv).
  unfold bind, json_load. now rewrite Hf, Hp.
Qed.

Lemma cf_unreachable e w :
  reachable p = false -> call e w = (Raise OSError, w).
Proof. apply cache_then_unreachable. Qed.

Lemma cf_miss_offline e w :
  valid_entry w e p days = false -> reachable p = true -> online = false ->
  call e w = (Ok fallback, w).
Proof.
  intros Hv Hr ->. now apply (cache_then_miss _ _ _ _ e w _ Hv Hr).
Qed.

Lemma cf_miss_failure e w err :
  valid_entry w e p days = false -> reachable p = true -> online = true ->
  fetch_outcome e r = inl err ->
  call e w = (Ok fallback, note {| message := msg; exc := err |} (emit r w)).
Proof.
  intros Hv Hr -> Ho. apply (cache_then_miss _ _ _ _ e w _ Hv Hr).
  destruct r as [u ps]. cbn [negb].
  unfold try_except, bind, session_get, fetch_outcome, raise_for_status,
    logger_error, ret, raise in *.
  cbn [server url params status_code response_json] in *.
  destruct (server e _) as [|st b]; [now injection Ho as <-|].
  cbn [status_code]. destruct ((400 <=? st) && (st <? 600)); [|discriminate].
  now injection Ho as <-.
Qed.

Lemma cf_miss_success e w body :
  valid_entry w e p days = false -> reachable p = true -> online = true ->
  fetch_outcome e r = inr body ->
  not_caught (keep body) -> not_caught (reply body) ->
  call e w =
    match keep body with
    | Raise x => (Raise x, emit r w)
    | Ok None => (reply body, emit r w)
    | Ok (Some v) =>
        if plain p then (reply body, store p (written e v) (emit r w))
        else (Raise (open_error p w), emit r w)
    end.
Proof.
  intros Hv Hr -> Ho Hk Ha. apply (cache_then_miss _ _ _ _ e w _ Hv Hr).
  destruct r as [u ps]. cbn [negb].
  unfold try_except, bind, session_get, fetch_outcome, raise_for_status,
    lift, ret, raise in *.
  cbn [server url params status_code response_json] in *.
  destruct (server e _) as [|st b]; [discriminate|].
  cbn [status_code response_json].
  destruct ((400 <=? st) && (st <? 600)); [discriminate|].
  injection Ho as ->.
  destruct (keep body) as [[v|]|x].
  - destruct (plain p) eqn:Hp.
    + rewrite (json_dump_plain v p e _ Hp).
      destruct (reply body) as [a|x]; [reflexivity|].
      destruct x; try reflexivity. now destruct (Ha e0).
    + rewrite (json_dump_fails v p e _ Hp).
      change (open_error p (emit {| url := u; params := ps |} w))
        with (open_error p w).
      pose proof (open_error_not_caught p w) as Hn.
      destruct (open_error p w); try reflexivity. now destruct (Hn e0).
  - destruct (reply body) as [a|x]; [reflexivity|].
    destruct x; try reflexivity. now destruct (Ha e0).
  - destruct x; try reflexivity. now destruct (Hk e0).
Qed.
End Shape.

(** ** Every cache-first operation has that shape *)

Lemma run_shape op e w :
  run op e w =
    cache_first (cache_file op) (ttl op) (fetches op) (fetch_request op)
      (view op) (kept op) (answer op) (failure_message op) (on_failure op) e w.
Proof.
  destruct op;
    cbn [run cache_file ttl fetches fetch_request view kept answer
         failure_message on_failure negb url params];
    unfold cache_first;
    (apply cache_then_ext;
     [ unfold bind, lift, ret;
       destruct (json_load _ e w) as [[data|x] w']; [|reflexivity];
       cbv beta iota; cbn [view kept answer];
       unfold mars_pick, images_pick, subject_pick;
       split_results; reflexivity
     | cbn [negb url params];
       try (destruct (truthy (of_opt_str (WordsAPI.api_key self))); [|reflexivity]);
       cbn [negb];
       unfold try_except, bind, lift, ret;
       destruct (session_get _ _ e w) as [[resp|x] w1]; [|reflexivity];
       cbv beta iota;
       destruct (raise_for_status resp e w1) as [[[]|x] w2]; [|reflexivity];
       cbv beta iota zeta; cbn [view kept answer];
       unfold mars_pick, images_pick, subject_pick, mission_found;
       try (destruct (py_get (response_json resp) "projects" (JList []))
              as [projects|]; [|reflexivity];
            destruct (py_iter projects) as [items|]; [|reflexivity];
            destruct (NASAAPI.find_mission mission_name items) as [found|];
              [|reflexivity];
            destruct (truthy found); [|reflexivity]);
       split_results; reflexivity ]).
Qed.

(** ** One step of a cache-first operation *)

(** A valid entry that parses is the answer; the world is left as it was. *)
Lemma run_hit op e w payload :
  valid_entry w e (cache_file op) (ttl op) = true ->
  cached_payload w (cache_file op) = Some payload ->
  run op e w = (view op payload, w).
Proof. intros Hv Hp. rewrite run_shape. now apply cf_hit. Qed.

(** A valid entry that does not parse ends the call with the parser's
    exception; no request is sent. *)
Lemma run_hit_malformed op e w f :
  valid_entry w e (cache_file op) (ttl op) = true ->
  files w !! cache_file op = Some f ->
  json_loads (content f) = None ->
  run op e w = (Raise JSONDecodeError, w).
Proof. intros Hv Hf Hp. rewrite run_shape. now apply (cf_hit_malformed _ _ _ _ _ _ _ _ _ e w f). Qed.

(** A cache file whose name is too long for the file system ends the call
    at its first line. *)
Lemma run_unreachable op e w :
  reachable (cache_file op) = false -> run op e w = (Raise OSError, w).
Proof. intros Hr. rewrite run_shape. now apply cf_unreachable. Qed.

(** Without a valid entry and without a key, the vocabulary client
    answers from the embedded dictionary and touches nothing. *)
Lemma run_miss_offline op e w :
  valid_entry w e (cache_file op) (ttl op) = false ->
  reachable (cache_file op) = true ->
  fetches op = false ->
  run op e w = (Ok (on_failure op), w).
Proof. intros Hv Hr Hf. rewrite run_shape. now apply cf_miss_offline. Qed.

(** Without a valid entry, a failed fetch is logged and the operation
    returns its empty value. *)
Lemma run_miss_failure op e w err :
  valid_entry w e (cache_file op) (ttl op) = false ->
  reachable (cache_file op) = true ->
  fetches op = true ->
  fetch_outcome e (fetch_request op) = inl err ->
  run op e w =
    (Ok (on_failure op),
     note {| message := failure_message op; exc := err |}
          (emit (fetch_request op) w)).
Proof. intros Hv Hr Hf Ho. rewrite run_shape. now apply cf_miss_failure. Qed.

(** Without a valid entry, after a good response: what is kept is written
    if the file can be written, and the call answers; if it cannot, the
    call ends with the error of [open], the request already sent. *)
Lemma run_miss_success op e w body :
  valid_entry w e (cache_file op) (ttl op) = false ->
  reachable (cache_file op) = true ->
  fetches op = true ->
  fetch_outcome e (fetch_request op) = inr body ->
  run op e w =
    match kept op body with
    | Raise x => (Raise x, emit (fetch_request op) w)
    | Ok None => (answer op body, emit (fetch_request op) w)
    | Ok (Some v) =>
        if plain (cache_file op)
        then (answer op body,
              store (cache_file op) (written e v) (emit (fetch_request op) w))
        else (Raise (open_error (cache_file op) w), emit (fetch_request op) w)
    end.
Proof.
  intros Hv Hr Hf Ho. rewrite run_shape.
  apply cf_miss_success; auto using kept_not_caught, answer_not_caught.
Qed.

Lemma run_miss_stored op e w body v :
  valid_entry w e (cache_file op) (ttl op) = false ->
  plain (cache_file op) = true ->
  fetches op = true ->
  fetch_outcome e (fetch_request op) = inr body ->
  kept op body = Ok (Some v) ->
  run op e w =
    (answer op body,
     store (cache_file op) (written e v) (emit (fetch_request op) w)).
Proof.
  intros Hv Hp Hf Ho Hk.
  rewrite (run_miss_success op e w body Hv (plain_reachable _ Hp) Hf Ho).
  now rewrite Hk, Hp.
Qed.

Lemma run_miss_unwritable op e w body v :
  valid_entry w e (cache_file op) (ttl op) = false ->
  reachable (cache_file op) = true ->
  plain (cache_file op) = false ->
  fetches op = true ->
  fetch_outcome e (fetch_request op) = inr body ->
  kept op body = Ok (Some v) ->
  run op e w =
    (Raise (open_error (cache_file op) w), emit (fetch_request op) w).
Proof.
  intros Hv Hr Hp Hf Ho Hk.
  rewrite (run_miss_success op e w body Hv Hr Hf Ho). now rewrite Hk, Hp.
Qed.

(** What is kept is what a later hit answers with. *)
Lemma kept_view op body v :
  kept op body = Ok (Some v) -> view op v = answer op body.
Proof.
  destruct op; cbn [kept view answer]; try (now intros [= ->]).
  destruct (mission_found mission_name body) as [found|]; [|discriminate].
  destruct (truthy found); [|discriminate]. now intros [= ->].
Qed.

Lemma kept_body op body :
  keeps_body op -> kept op body = Ok (Some body) /\ answer op body = view op body.
Proof. destruct op; cbn; intros H; try (now split); destruct H. Qed.

(** The files named after a digest, and the file of the subjects, can
    always be tested and written. *)
Lemma search_files_plain :
  (forall self q s g l, plain (cache_file (Ck12Search self q s g l)) = true) /\
  (forall self q l g, plain (cache_file (BookSearch self q l g)) = true) /\
  (forall self q l, plain (cache_file (NasaImages self q l)) = true) /\
  (forall self, plain (cache_file (Ck12Subjects self)) = true) /\
  (forall self topic g,
      plain (KhanAcademyAPI.search_cache_file self topic g) = true).
Proof.
  repeat split; intros; apply plain_kind; cbn [cache_file];
    first [apply digest_file_plain | reflexivity].
Qed.

(** Every way a call can go. *)
Lemma run_cases op e w :
  (reachable (cache_file op) = false /\ run op e w = (Raise OSError, w)) \/
  (valid_entry w e (cache_file op) (ttl op) = true /\
   exists f, files w !! cache_file op = Some f /\
     run op e w = (match json_loads (content f) with
                   | Some payload => view op payload
                   | None => Raise JSONDecodeError
                   end, w)) \/
  (reachable (cache_file op) = true /\
   valid_entry w e (cache_file op) (ttl op) = false /\
   ((fetches op = false /\ run op e w = (Ok (on_failure op), w)) \/
    (fetches op = true /\
     ((exists err, fetch_outcome e (fetch_request op) = inl err /\
         run op e w =
           (Ok (on_failure op),
            note {| message := failure_message op; exc := err |}
                 (emit (fetch_request op) w))) \/
      (exists body, fetch_outcome e (fetch_request op) = inr body /\
         exists r w', run op e w = (r, w') /\
           (w' = emit (fetch_request op) w \/
            exists v, w' = store (cache_file op) (written e v)
                             (emit (fetch_request op) w))))))).
Proof.
  destruct (reachable (cache_file op)) eqn:Hr;
    [|left; split; [reflexivity|now apply run_unreachable]].
  right. destruct (valid_entry w e (cache_file op) (ttl op)) eqn:Hv.
  - left. split; [reflexivity|].
    destruct (valid_entry_file _ _ _ _ Hv) as (_ & f & Hf & _).
    exists f. split; [exact Hf|].
    destruct (json_loads (content f)) as [payload|] eqn:Hp.
    + apply run_hit; [exact Hv|]. unfold cached_payload. now rewrite Hf.
    + now apply (run_hit_malformed op e w f).
  - right. repeat split. destruct (fetches op) eqn:Hf.
    + right. split; [reflexivity|].
      destruct (fetch_outcome e (fetch_request op)) as [err|body] eqn:Ho.
      * left. exists err. split; [reflexivity|]. now apply run_miss_failure.
      * right. exists body. split; [reflexivity|].
        rewrite (run_miss_success op e w body Hv Hr Hf Ho).
        destruct (kept op body) as [[v|]|x]; [destruct (plain _)|..]; eauto 7.
    + left. split; [reflexivity|]. now apply run_miss_offline.
Qed.

(** A call on a valid entry leaves the world as it found it. *)
Lemma run_valid_world op e w :
  valid_entry w e (cache_file op) (ttl op) = true -> snd (run op e w) = w.
Proof.
  intros Hv. destruct (run_cases op e w) as [[Hr _]|[(_ & f & _ & ->)|(_ & Hv' & _)]].
  - apply valid_entry_file in Hv as [Hp _]. apply plain_reachable in Hp. congruence.
  - reflexivity.
  - congruence.
Qed.

(** The requests of a call: none, or the one of the operation. *)
Lemma run_sent op e w :
  sent (snd (run op e w)) = sent w \/
  (valid_entry w e (cache_file op) (ttl op) = false /\
   reachable (cache_file op) = true /\ fetches op = true /\
   sent (snd (run op e w)) = (sent w ++ [fetch_request op])%list).
Proof.
  destruct (run_cases op e w)
    as [[_ ->]|[(_ & f & _ & ->)|(Hr & Hv & [[_ ->]|[Hf [(err & _ & ->)|(body & _ & r & w' & -> & Hw)]]])]];
    try (now left); right; repeat split; auto.
  destruct Hw as [->|[v ->]]; reflexivity.
Qed.

(** A call never deletes a file, and writes no file but its own. *)
Lemma run_other_files op e w p :
  p <> cache_file op -> files (snd (run op e w)) !! p = files w !! p.
Proof.
  intros Hne. destruct (run_cases op e w)
    as [[_ ->]|[(_ & f & _ & ->)|(Hr & Hv & [[_ ->]|[Hf [(err & _ & ->)|(body & _ & r & w' & -> & Hw)]]])]];
    try reflexivity.
  destruct Hw as [->|[v ->]]; [reflexivity|].
  unfold store. cbn [snd files emit]. now apply lookup_insert_ne.
Qed.

(** What a call returns: its fallback, or what it makes of a payload or of
    a response. *)
Lemma run_returns op e w v :
  fst (run op e w) = Ok v ->
  v = on_failure op \/ (exists payload, view op payload = Ok v) \/
  (exists body, answer op body = Ok v).
Proof.
  destruct (reachable (cache_file op)) eqn:Hr;
    [|now rewrite (run_unreachable op e w Hr)].
  destruct (valid_entry w e (cache_file op) (ttl op)) eqn:Hv.
  - destruct (valid_entry_file _ _ _ _ Hv) as (_ & f & Hf & _).
    destruct (json_loads (content f)) as [payload|] eqn:Hp.
    + rewrite (run_hit op e w payload Hv); [|unfold cached_payload; now rewrite Hf].
      cbn [fst]. eauto.
    + now rewrite (run_hit_malformed op e w f Hv Hf Hp).
  - destruct (fetches op) eqn:Hfetch.
    + destruct (fetch_outcome e (fetch_request op)) as [err|body] eqn:Ho.
      * rewrite (run_miss_failure op e w err Hv Hr Hfetch Ho). cbn [fst].
        intros [= <-]. now left.
      * rewrite (run_miss_success op e w body Hv Hr Hfetch Ho).
        destruct (kept op body) as [[x|]|x]; [destruct (plain _)|..]; cbn [fst];
          try discriminate; eauto.
    + rewrite (run_miss_offline op e w Hv Hr Hfetch). cbn [fst].
      intros [= <-]. now left.
Qed.

(** ** Khan Academy: the network-first operations *)

Lemma get_cached_videos_eq self topic g e w :
  KhanAcademyAPI._get_cached_videos self topic g e w =
    (match files w !! KhanAcademyAPI.search_cache_file self topic g with
     | None => Ok (JList [])
     | Some f =>
         match json_loads (content f) with
         | Some v => Ok v
         | None => Raise JSONDecodeError
         end
     end, w).
Proof.
  destruct search_files_plain as (_ & _ & _ & _ & Hp).
  unfold KhanAcademyAPI._get_cached_videos, bind.
  rewrite (path_exists_plain _ e w (Hp self topic g)).
  unfold json_load, ret.
  destruct (files w !! _) as [f|] eqn:Hf; [|reflexivity].
  rewrite Hf. destruct (json_loads (content f)); reflexivity.
Qed.

Lemma search_videos_success self topic g limit e w body :
  fetch_outcome e (videos_request topic g limit) = inr body ->
  KhanAcademyAPI.search_videos self topic g limit e w =
    (KhanAcademyAPI._process_videos body, emit (videos_request topic g limit) w).
Proof.
  intros Ho. unfold KhanAcademyAPI.search_videos, videos_request in *.
  unfold_io. split_fetch Ho. injection Ho as ->.
  pose proof (process_videos_not_caught body) as Hn.
  destruct (KhanAcademyAPI._process_videos body) as [a|x]; [reflexivity|].
  destruct x; try reflexivity. now destruct (Hn e0).
Qed.

Lemma search_videos_failure self topic g limit e w err :
  fetch_outcome e (videos_request topic g limit) = inl err ->
  KhanAcademyAPI.search_videos self topic g limit e w =
    KhanAcademyAPI._get_cached_videos self topic g e
      (note {| message := "Khan Academy API error"; exc := err |}
            (emit (videos_request topic g limit) w)).
Proof.
  intros Ho. unfold KhanAcademyAPI.search_videos, videos_request in *.
  unfold try_except, bind, session_get, fetch_outcome, raise_for_status,
    logger_error, ret, raise in *.
  cbn [server url params status_code response_json] in *.
  split_fetch Ho; injection Ho as <-; reflexivity.
Qed.

Lemma get_exercises_success self subject g e w body :
  fetch_outcome e (exercises_request subject g) = inr body ->
  KhanAcademyAPI.get_exercises self subject g e w =
    (KhanAcademyAPI._process_exercises body, emit (exercises_request subject g) w).
Proof.
  intros Ho. unfold KhanAcademyAPI.get_exercises, exercises_request in *.
  unfold_io. split_fetch Ho. injection Ho as ->.
  pose proof (process_exercises_not_caught body) as Hn.
  destruct (KhanAcademyAPI._process_exercises body) as [a|x]; [reflexivity|].
  destruct x; try reflexivity. now destruct (Hn e0).
Qed.

Lemma get_exercises_failure self subject g e w err :
  fetch_outcome e (exercises_request subject g) = inl err ->
  KhanAcademyAPI.get_exercises self subject g e w =
    (Ok (JList []),
     note {| message := "Error fetching exercises"; exc := err |}
          (emit (exercises_request subject g) w)).
Proof.
  intros Ho. unfold KhanAcademyAPI.get_exercises, exercises_request in *.
  unfold_io. split_fetch Ho; injection Ho as <-; reflexivity.
Qed.

Lemma get_subject_topics_success self subject e w body :
  fetch_outcome e (topics_request subject) = inr body ->
  KhanAcademyAPI._get_subject_topics self subject e w =
    (Ok body, emit (topics_request subject) w).
Proof.
  intros Ho. unfold KhanAcademyAPI._get_subject_topics, topics_request in *.
  unfold_io. split_fetch Ho. injection Ho as ->. reflexivity.
Qed.

Lemma get_subject_topics_failure self subject e w err :
  fetch_outcome e (topics_request subject) = inl err ->
  KhanAcademyAPI._get_subject_topics self subject e w =
    (Ok (JList []),
     note {| message := "Error fetching topics for " +:+ subject; exc := err |}
          (emit (topics_request subject) w)).
Proof.
  intros Ho. unfold KhanAcademyAPI._get_subject_topics, topics_request in *.
  unfold_io. split_fetch Ho; injection Ho as <-; reflexivity.
Qed.

(** ** NASA: the space-weather feed *)

Lemma space_weather_file_plain self :
  plain (NASAAPI.space_weather_cache_file self) = true.
Proof. reflexivity. Qed.

(** With a cache file in place, of whatever age or content, the age test
    reads an attribute a [timedelta] does not have. *)
Lemma get_space_weather_cached_raises self e w f :
  files w !! NASAAPI.space_weather_cache_file self = Some f ->
  NASAAPI.get_space_weather self e w = (Raise AttributeError, w).
Proof.
  intros Hf. unfold NASAAPI.get_space_weather, bind.
  rewrite (path_exists_plain _ e w (space_weather_file_plain self)), Hf.
  unfold cache_age_of, bind, datetime_now, stat_mtime, ret, lift, timedelta_hours.
  now rewrite Hf.
Qed.


Lemma get_space_weather_success self e w body :
  files w !! NASAAPI.space_weather_cache_file self = None ->
  fetch_outcome e (space_weather_request self) = inr body ->
  NASAAPI.get_space_weather self e w =
    (Ok body,
     store (NASAAPI.space_weather_cache_file self) (written e body)
           (emit (space_weather_request self) w)).
Proof.
  intros Hf Ho. unfold NASAAPI.get_space_weather, space_weather_request in *.
  unfold bind at 1.
  rewrite (path_exists_plain _ e w (space_weather_file_plain self)), Hf.
  unfold try_except, bind, session_get, fetch_outcome, raise_for_status, ret,
    raise in *.
  cbn [server url params status_code response_json] in *.
  split_fetch Ho. injection Ho as ->.
  now rewrite (json_dump_plain _ _ e _ (space_weather_file_plain self)).
Qed.

(** ** The word of the day *)

Lemma word_of_day_file_plain self :
  plain (WordsAPI.word_of_day_cache_file self) = true.
Proof. reflexivity. Qed.

Lemma get_word_of_the_day_miss self drawn e w :
  valid_entry w e (WordsAPI.word_of_day_cache_file self) 1 = false ->
  WordsAPI.get_word_of_the_day self drawn e w =
    match WordsAPI.get_word_definition self drawn e w with
    | (Ok word_data, w') =>
        (Ok word_data,
         store (WordsAPI.word_of_day_cache_file self) (written e word_data) w')
    | (Raise x, w') => (Raise x, w')
    end.
Proof.
  intros Hv.
  apply (cache_then_miss _ _ _ _ e w _ Hv
           (plain_reachable _ (word_of_day_file_plain self))).
  unfold bind. destruct (WordsAPI.get_word_definition self drawn e w) as [[v|x] w'];
    [|reflexivity].
  now rewrite (json_dump_plain _ _ e _ (word_of_day_file_plain self)).
Qed.

Lemma get_word_of_the_day_hit self drawn e w payload :
  valid_entry w e (WordsAPI.word_of_day_cache_file self) 1 = true ->
  cached_payload w (WordsAPI.word_of_day_cache_file self) = Some payload ->
  WordsAPI.get_word_of_the_day self drawn e w = (Ok payload, w).
Proof.
  intros Hv Hp. apply (cache_then_hit _ _ _ _ e w _ Hv).
  unfold json_load, cached_payload in *.
  destruct (files w !! _) as [f|]; [|discriminate]. now rewrite Hp.
Qed.

Lemma get_word_of_the_day_malformed self drawn e w f :
  valid_entry w e (WordsAPI.word_of_day_cache_file self) 1 = true ->
  files w !! WordsAPI.word_of_day_cache_file self = Some f ->
  json_loads (content f) = None ->
  WordsAPI.get_word_of_the_day self drawn e w = (Raise JSONDecodeError, w).
Proof.
  intros Hv Hf Hp. apply (cache_then_hit _ _ _ _ e w _ Hv).
  unfold json_load. now rewrite Hf, Hp.
Qed.

(** ** What goes out on a miss *)

Lemma run_miss_sent op e w :
  valid_entry w e (cache_file op) (ttl op) = false ->
  reachable (cache_file op) = true ->
  fetches op = true ->
  sent (snd (run op e w)) = (sent w ++ [fetch_request op])%list.
Proof.
  intros Hv Hr Hf.
  destruct (run_cases op e w)
    as [[Hr' _]|[(Hv' & _)|(_ & _ & [[Hf' _]|[_ [(err & _ & ->)|(body & _ & r & w' & -> & Hw)]]])]];
    try congruence; [reflexivity|].
  destruct Hw as [->|[v ->]]; reflexivity.
Qed.

(** ** CK-12: one search, then the cache *)

Lemma process_content_records ds :
  CK12API._process_content (JList (map JDict ds))
    = Ok (JList (map (fun d => JDict (normalized_content d)) ds)).
Proof.
  unfold CK12API._process_content. cbn [py_iter].
  induction ds as [|d ds IH]; [reflexivity|].
  cbn [map for_each project] in *.
  destruct (for_each _ (map JDict ds)) as [out|]; [|discriminate].
  injection IH as ->. reflexivity.
Qed.

(** C1.  [search_content("fractions", subject="math", grade_level=4)]
    with no cache file for that search sends exactly one request, which
    carries the query, the subject and the grade level (and the limit);
    when the answer is a 200 whose [content] list has the two records
    [item1] and [item2], the call stores the response and returns the list
    of their two normalized records: nine fields each, a missing field
    [None], a missing [difficulty] ['medium'].  A second identical call
    less than 7 days later sends nothing, changes nothing and returns the
    same list, the projection of the cached payload (the codec is assumed
    to read back what it wrote); a call 7 days later or more sends the
    request again. *)
Theorem ck12_search_fractions_once_then_cached
    (Hcodec : forall v, json_loads (json_dumps v) = Some v)
    (self : CK12API.client) (e1 e2 e3 : env) (w : world)
    (data : json) (item1 item2 : list (string * json)) :
  let search := CK12API.search_content self "fractions" (Some "math") (Some 4) 20 in
  let cache := CK12API.search_cache_file self "fractions" (Some "math") (Some 4) in
  let normalized :=
    [JDict [("id", default JNull (dict_lookup "id" item1));
            ("title", default JNull (dict_lookup "title" item1));
            ("description", default JNull (dict_lookup "description" item1));
            ("type", default JNull (dict_lookup "type" item1));
            ("subject", default JNull (dict_lookup "subject" item1));
            ("grade_level", default JNull (dict_lookup "grade_level" item1));
            ("url", default JNull (dict_lookup "url" item1));
            ("embed_url", default JNull (dict_lookup "embed_url" item1));
            ("difficulty", default (JStr "medium") (dict_lookup "difficulty" item1))];
     JDict [("id", default JNull (dict_lookup "id" item2));
            ("title", default JNull (dict_lookup "title" item2));
            ("description", default JNull (dict_lookup "description" item2));
            ("type", default JNull (dict_lookup "type" item2));
            ("subject", default JNull (dict_lookup "subject" item2));
            ("grade_level", default JNull (dict_lookup "grade_level" item2));
            ("url", default JNull (dict_lookup "url" item2));
            ("embed_url", default JNull (dict_lookup "embed_url" item2));
            ("difficulty", default (JStr "medium") (dict_lookup "difficulty" item2))]] in
  let w1 := store cache (written e1 data) (emit fractions_request w) in
  files w !! cache = None ->
  server e1 fractions_request = Responded 200 data ->
  py_get data "content" (JList []) = Ok (JList [JDict item1; JDict item2]) ->
  now e2 - now e1 < 7 * day ->
  7 * day <= now e3 - now e1 ->
  length normalized = 2%nat /\
  search e1 w = (Ok (JList normalized), w1) /\
  sent w1 = (sent w ++ [fractions_request])%list /\
  cached_payload w1 cache = Some data /\
  search e2 w1 = (Ok (JList normalized), w1) /\
  sent (snd (search e3 w1)) = (sent w1 ++ [fractions_request])%list.
Proof.
  intros search cache normalized w1 Hnone Hsrv Hcontent Hage Hold.
  set (op := Ck12Search self "fractions" (Some "math") (Some 4) 20).
  destruct search_files_plain as (Hplain & _).
  specialize (Hplain self "fractions" (Some "math") (Some 4) 20). fold op in Hplain.
  assert (Hmiss : valid_entry w e1 (cache_file op) (ttl op) = false)
    by now apply valid_entry_absent.
  assert (Hout : fetch_outcome e1 (fetch_request op) = inr data).
  { unfold fetch_outcome. change (fetch_request op) with fractions_request.
    now rewrite Hsrv. }
  assert (Hview : view op data = Ok (JList normalized)).
  { cbn [view op]. rewrite Hcontent.
    exact (process_content_records [item1; item2]). }
  pose proof (run_miss_stored op e1 w data data Hmiss Hplain eq_refl Hout eq_refl) as H1.
  cbn [run op answer] in H1. change (view _ data) with (view op data) in H1.
  rewrite Hview in H1.
  assert (Hpay : cached_payload w1 cache = Some data)
    by now apply cached_payload_store.
  assert (Hvalid : valid_entry w1 e2 (cache_file op) (ttl op) = true)
    by now apply valid_entry_store.
  pose proof (run_hit op e2 w1 data Hvalid Hpay) as H2. rewrite Hview in H2.
  split; [reflexivity|]. split; [exact H1|]. split; [reflexivity|].
  split; [exact Hpay|]. split; [exact H2|].
  apply (run_miss_sent op e3 w1); [|now apply plain_reachable|reflexivity].
  apply (valid_entry_stale w1 e3 _ _ (written e1 data)); [|exact Hold].
  unfold w1, store. cbn [files]. apply lookup_insert_eq.
Qed.

(** ** Hits, misses and what goes out *)

(** [search_videos] sends its request whatever is on disk. *)
Lemma search_videos_sent self topic g limit e w :
  sent (snd (KhanAcademyAPI.search_videos self topic g limit e w))
    = (sent w ++ [videos_request topic g limit])%list.
Proof.
  destruct (fetch_outcome e (videos_request topic g limit)) as [err|body] eqn:Ho.
  - rewrite (search_videos_failure self topic g limit e w err Ho).
    rewrite get_cached_videos_eq. reflexivity.
  - rewrite (search_videos_success self topic g limit e w body Ho). reflexivity.
Qed.

Lemma get_exercises_sent self subject g e w :
  sent (snd (KhanAcademyAPI.get_exercises self subject g e w))
    = (sent w ++ [exercises_request subject g])%list.
Proof.
  destruct (fetch_outcome e (exercises_request subject g)) as [err|body] eqn:Ho.
  - now rewrite (get_exercises_failure self subject g e w err Ho).
  - now rewrite (get_exercises_success self subject g e w body Ho).
Qed.

Lemma get_subject_topics_sent self subject e w :
  sent (snd (KhanAcademyAPI._get_subject_topics self subject e w))
    = (sent w ++ [topics_request subject])%list.
Proof.
  destruct (fetch_outcome e (topics_request subject)) as [err|body] eqn:Ho.
  - now rewrite (get_subject_topics_failure self subject e w err Ho).
  - now rewrite (get_subject_topics_success self subject e w body Ho).
Qed.

(** The word of the day on a valid entry leaves the world as it was. *)
Lemma get_word_of_the_day_valid_world self drawn e w :
  valid_entry w e (WordsAPI.word_of_day_cache_file self) 1 = true ->
  snd (WordsAPI.get_word_of_the_day self drawn e w) = w.
Proof.
  intros Hv. destruct (valid_entry_file _ _ _ _ Hv) as (_ & f & Hf & _).
  destruct (json_loads (content f)) as [payload|] eqn:Hp.
  - rewrite (get_word_of_the_day_hit self drawn e w payload Hv); [reflexivity|].
    unfold cached_payload. now rewrite Hf.
  - now rewrite (get_word_of_the_day_malformed self drawn e w f Hv Hf Hp).
Qed.

(** C2 (amended).  Each of the cache-first operations ([cached_op], and
    the word of the day) answers a valid entry from the file, as it would
    answer a fresh response, without changing the world, so without a
    request; it sends a request only when the entry is not valid.
    [search_videos] is network-first: each call sends exactly one request
    whatever is on disk, and a successful answer is processed and returned
    without any file being read or written.  [get_exercises] and the
    topics lookup have no cache: every call sends its request. *)
Theorem cache_first_operations_and_network_first_search_videos :
  (forall (op : cached_op) e w payload,
      valid_entry w e (cache_file op) (ttl op) = true ->
      cached_payload w (cache_file op) = Some payload ->
      run op e w = (view op payload, w)) /\
  (forall self drawn e w payload,
      valid_entry w e (WordsAPI.word_of_day_cache_file self) 1 = true ->
      cached_payload w (WordsAPI.word_of_day_cache_file self) = Some payload ->
      WordsAPI.get_word_of_the_day self drawn e w = (Ok payload, w)) /\
  (forall (op : cached_op) e w,
      sent (snd (run op e w)) <> sent w ->
      valid_entry w e (cache_file op) (ttl op) = false) /\
  (forall self drawn e w,
      sent (snd (WordsAPI.get_word_of_the_day self drawn e w)) <> sent w ->
      valid_entry w e (WordsAPI.word_of_day_cache_file self) 1 = false) /\
  (forall self topic g limit e w,
      sent (snd (KhanAcademyAPI.search_videos self topic g limit e w))
        = (sent w ++ [videos_request topic g limit])%list) /\
  (forall self topic g limit e w body,
      fetch_outcome e (videos_request topic g limit) = inr body ->
      KhanAcademyAPI.search_videos self topic g limit e w
        = (KhanAcademyAPI._process_videos body,
           emit (videos_request topic g limit) w)) /\
  (forall self subject g e w,
      sent (snd (KhanAcademyAPI.get_exercises self subject g e w))
        = (sent w ++ [exercises_request subject g])%list /\
      sent (snd (KhanAcademyAPI._get_subject_topics self subject e w))
        = (sent w ++ [topics_request subject])%list).
Proof.
  split; [exact run_hit|]. split; [exact get_word_of_the_day_hit|].
  split; [|split; [|split; [|split]]].
  - intros op e w Hsent.
    destruct (valid_entry w e (cache_file op) (ttl op)) eqn:Hv; [|reflexivity].
    destruct Hsent. now rewrite (run_valid_world op e w Hv).
  - intros self drawn e w Hsent.
    destruct (valid_entry w e _ 1) eqn:Hv; [|reflexivity].
    destruct Hsent. now rewrite (get_word_of_the_day_valid_world self drawn e w Hv).
  - exact search_videos_sent.
  - exact search_videos_success.
  - intros. split; [apply get_exercises_sent|apply get_subject_topics_sent].
Qed.

(** Without a valid entry the file plays no part: the call goes as on
    the world without it. *)
Lemma run_without_valid_entry op e w :
  valid_entry w e (cache_file op) (ttl op) = false ->
  plain (cache_file op) = true ->
  fst (run op e w) = fst (run op e (forget (cache_file op) w)) /\
  sent (snd (run op e w)) = sent (snd (run op e (forget (cache_file op) w))) /\
  logged (snd (run op e w))
    = logged (snd (run op e (forget (cache_file op) w))) /\
  (fetches op = true ->
     sent (snd (run op e w)) = (sent w ++ [fetch_request op])%list) /\
  (fetches op = false ->
     run op e w = (Ok (on_failure op), w)).
Proof.
  intros Hv Hp. pose proof (plain_reachable _ Hp) as Hr.
  pose proof (valid_entry_forget w e (cache_file op) (ttl op)) as Hv'.
  destruct (fetches op) eqn:Hfetch.
  - destruct (fetch_outcome e (fetch_request op)) as [err|body] eqn:Ho.
    + rewrite (run_miss_failure op e w err Hv Hr Hfetch Ho).
      rewrite (run_miss_failure op e _ err Hv' Hr Hfetch Ho).
      repeat split; try reflexivity. discriminate.
    + rewrite (run_miss_success op e w body Hv Hr Hfetch Ho).
      rewrite (run_miss_success op e _ body Hv' Hr Hfetch Ho).
      rewrite Hp. destruct (kept op body) as [[v|]|x];
        repeat split; try reflexivity; discriminate.
  - rewrite (run_miss_offline op e w Hv Hr Hfetch).
    rewrite (run_miss_offline op e _ Hv' Hr Hfetch).
    repeat split; try reflexivity. discriminate.
Qed.

(** C4 (amended).  For each of the cache-first operations, an entry is
    valid exactly while [now - mtime < TTL]: a younger entry is the answer
    of the call, which sends nothing; an entry whose age has reached the
    TTL is not returned, and the call goes as if the file were not there:
    same result, same requests, same log.  When the operation goes to the
    network on a miss, that is exactly one request; the vocabulary client
    without a key answers from the embedded dictionary and sends nothing.
    The word of the day, once its entry is a day old, is looked up again
    through [get_word_definition]. *)
Theorem stale_entry_is_absent_and_refetched_once
    (op : cached_op) (e : env) (w : world) (f : file) :
  files w !! cache_file op = Some f ->
  plain (cache_file op) = true ->
  (valid_entry w e (cache_file op) (ttl op) = true
     <-> now e - mtime f < ttl op * day) /\
  (now e - mtime f < ttl op * day ->
     run op e w = (match json_loads (content f) with
                   | Some payload => view op payload
                   | None => Raise JSONDecodeError
                   end, w)) /\
  (ttl op * day <= now e - mtime f ->
     fst (run op e w) = fst (run op e (forget (cache_file op) w)) /\
     sent (snd (run op e w)) = sent (snd (run op e (forget (cache_file op) w))) /\
     logged (snd (run op e w))
       = logged (snd (run op e (forget (cache_file op) w))) /\
     (fetches op = true ->
        sent (snd (run op e w)) = (sent w ++ [fetch_request op])%list) /\
     (fetches op = false ->
        run op e w = (Ok (on_failure op), w))) /\
  (forall self drawn age,
     files w !! WordsAPI.word_of_day_cache_file self = Some age ->
     1 * day <= now e - mtime age ->
     WordsAPI.get_word_of_the_day self drawn e w =
       match WordsAPI.get_word_definition self drawn e w with
       | (Ok word_data, w') =>
           (Ok word_data,
            store (WordsAPI.word_of_day_cache_file self) (written e word_data) w')
       | (Raise x, w') => (Raise x, w')
       end).
Proof.
  intros Hf Hp.
  assert (Hiff : valid_entry w e (cache_file op) (ttl op) = true
                 <-> now e - mtime f < ttl op * day).
  { rewrite (valid_entry_fresh w e _ _ f Hp Hf). apply Z.ltb_lt. }
  split; [exact Hiff|]. split; [|split].
  - intros Hage. apply Hiff in Hage.
    destruct (json_loads (content f)) as [payload|] eqn:Hl.
    + apply run_hit; [exact Hage|]. unfold cached_payload. now rewrite Hf.
    + now apply (run_hit_malformed op e w f).
  - intros Hage. apply run_without_valid_entry; [|exact Hp].
    exact (valid_entry_stale w e _ _ f Hf Hage).
  - intros self drawn age Hday Hold. apply get_word_of_the_day_miss.
    exact (valid_entry_stale w e _ _ age Hday Hold).
Qed.

(** C5.  What [json.dump] wrote under a cache key is what [json.load]
    reads back from it (given a codec that reads back what it wrote), and
    as long as the TTL has not run out the entry is the answer of the
    operation: the payload itself for [get_video_content] and
    [get_word_definition] among others, and no request is sent. *)
Theorem cache_read_after_write_returns_payload
    (Hcodec : forall v, json_loads (json_dumps v) = Some v)
    (p : path) (payload : json) (e1 e2 : env) (w : world) :
  fst (json_dump payload p e1 w) = Ok tt ->
  let w1 := snd (json_dump payload p e1 w) in
  json_load p e1 w1 = (Ok payload, w1) /\
  (forall op, cache_file op = p -> now e2 - now e1 < ttl op * day ->
     run op e2 w1 = (view op payload, w1)) /\
  (forall self video_id,
     KhanAcademyAPI.video_cache_file self video_id = p ->
     now e2 - now e1 < 7 * day ->
     KhanAcademyAPI.get_video_content self video_id e2 w1 = (Ok payload, w1)) /\
  (forall self word,
     WordsAPI.word_cache_file self word = p ->
     now e2 - now e1 < 30 * day ->
     WordsAPI.get_word_definition self word e2 w1 = (Ok payload, w1)).
Proof.
  intros Hdone w1.
  assert (Hplain : plain p = true).
  { destruct (plain p) eqn:Hp; [reflexivity|].
    now rewrite (json_dump_fails payload p e1 w Hp) in Hdone. }
  assert (Hw1 : w1 = store p (written e1 payload) w)
    by (unfold w1; now rewrite (json_dump_plain payload p e1 w Hplain)).
  assert (Hfile : files w1 !! p = Some (written e1 payload)).
  { rewrite Hw1. unfold store. cbn [files]. apply lookup_insert_eq. }
  assert (Hpay : cached_payload w1 p = Some payload).
  { unfold cached_payload. rewrite Hfile. apply Hcodec. }
  assert (Hop : forall op, cache_file op = p -> now e2 - now e1 < ttl op * day ->
                run op e2 w1 = (view op payload, w1)).
  { intros op <- Hage. apply run_hit; [|exact Hpay].
    rewrite Hw1. now apply valid_entry_store. }
  split; [|split; [exact Hop|split]].
  - unfold json_load. rewrite Hfile. cbn [content written]. now rewrite Hcodec.
  - intros self video_id Hp Hage. exact (Hop (KhanVideo self video_id) Hp Hage).
  - intros self word Hp Hage. exact (Hop (WordDefinition self word) Hp Hage).
Qed.

(** C6 (amended).  For each of the cache-first operations and for the
    word of the day, a cache file that does not parse is skipped only when
    it has expired: the call then goes as if the file were not there.
    While the entry is valid the call ends with the parser's exception;
    nothing is sent, logged or written.  The fallback read of
    [search_videos] ends the same way: after the failed request, a search
    file that does not parse raises. *)
Theorem malformed_cache_file_raises_unless_expired
    (e : env) (w : world) (f : file) :
  json_loads (content f) = None ->
  (forall op : cached_op,
     files w !! cache_file op = Some f ->
     plain (cache_file op) = true ->
     (now e - mtime f < ttl op * day ->
        run op e w = (Raise JSONDecodeError, w)) /\
     (ttl op * day <= now e - mtime f ->
        fst (run op e w) = fst (run op e (forget (cache_file op) w)) /\
        sent (snd (run op e w))
          = sent (snd (run op e (forget (cache_file op) w))) /\
        (fetches op = true ->
           sent (snd (run op e w)) = (sent w ++ [fetch_request op])%list))) /\
  (forall self drawn,
     files w !! WordsAPI.word_of_day_cache_file self = Some f ->
     (now e - mtime f < 1 * day ->
        WordsAPI.get_word_of_the_day self drawn e w = (Raise JSONDecodeError, w)) /\
     (1 * day <= now e - mtime f ->
        fst (WordsAPI.get_word_of_the_day self drawn e w)
          = fst (WordsAPI.get_word_definition self drawn e w))) /\
  (forall self topic g limit err,
     files w !! KhanAcademyAPI.search_cache_file self topic g = Some f ->
     fetch_outcome e (videos_request topic g limit) = inl err ->
     KhanAcademyAPI.search_videos self topic g limit e w
       = (Raise JSONDecodeError,
          note {| message := "Khan Academy API error"; exc := err |}
               (emit (videos_request topic g limit) w))).
Proof.
  intros Hl. split; [|split].
  - intros op Hf Hp. split.
    + intros Hage. apply (run_hit_malformed op e w f); [|exact Hf|exact Hl].
      rewrite (valid_entry_fresh w e _ _ f Hp Hf). now apply Z.ltb_lt.
    + intros Hage.
      destruct (run_without_valid_entry op e w
                  (valid_entry_stale w e _ _ f Hf Hage) Hp)
        as (Hr & Hs & _ & Hone & _).
      repeat split; assumption.
  - intros self drawn Hf. split.
    + intros Hage.
      apply (get_word_of_the_day_malformed self drawn e w f); [|exact Hf|exact Hl].
      rewrite (valid_entry_fresh w e _ _ f (word_of_day_file_plain self) Hf).
      now apply Z.ltb_lt.
    + intros Hage.
      rewrite (get_word_of_the_day_miss self drawn e w
                 (valid_entry_stale w e _ _ f Hf Hage)).
      now destruct (WordsAPI.get_word_definition self drawn e w) as [[v|x] w'].
  - intros self topic g limit err Hf Ho.
    rewrite (search_videos_failure self topic g limit e w err Ho).
    rewrite get_cached_videos_eq.
    change (files (note _ (emit _ w))) with (files w). now rewrite Hf, Hl.
Qed.
(** ** Failed requests *)

(** A fetch fails on a transport failure or on a 4xx or 5xx status, and
    on nothing else. *)
Lemma fetch_outcome_failure e r err :
  fetch_outcome e r = inl err <->
  (server e r = ConnectionFailed /\ err = ConnectionError) \/
  (exists st body, server e r = Responded st body /\
                   400 <= st < 600 /\ err = HTTPError st).
Proof.
  unfold fetch_outcome. destruct (server e r) as [|st body].
  - split; [intros [= <-]; now left|].
    intros [[_ ->]|(st & body & Hs & _)]; [reflexivity|discriminate].
  - destruct ((400 <=? st) && (st <? 600)) eqn:Hst.
    + apply andb_true_iff in Hst as [H1 H2].
      apply Z.leb_le in H1. apply Z.ltb_lt in H2.
      split.
      * intros [= <-]. right. exists st, body. repeat split; assumption.
      * intros [[Hs _]|(st' & body' & [= <- <-] & _ & ->)];
          [discriminate|reflexivity].
    + split; [discriminate|].
      intros [[Hs _]|(st' & body' & [= <- <-] & [H1 H2] & _)]; [discriminate|].
      apply andb_false_iff in Hst as [Hst|Hst];
        [apply Z.leb_gt in Hst|apply Z.ltb_ge in Hst]; lia.
Qed.


(** ** The vocabulary client *)

(** A client without a key on a disk where no lookup finds a valid entry:
    every lookup of the sequence is answered by the embedded dictionary and
    the world stays as it was. *)
Lemma lookup_words_offline self calls w :
  truthy (of_opt_str (WordsAPI.api_key self)) = false ->
  (forall word e, valid_entry w e (WordsAPI.word_cache_file self word) 30 = false) ->
  Forall (fun c => reachable (WordsAPI.word_cache_file self c.1) = true) calls ->
  lookup_words self calls w
    = (map (fun c => Ok (WordsAPI._get_basic_definition c.1)) calls, w).
Proof.
  intros Hkey Hnone Hall. induction Hall as [|[word e] rest Hr _ IH]; [reflexivity|].
  cbn [lookup_words map fst].
  pose proof (run_miss_offline (WordDefinition self word) e w (Hnone word e) Hr Hkey) as H.
  cbn [run on_failure] in H. rewrite H, IH. reflexivity.
Qed.

(** The embedded dictionary holds what [embedded_meanings] lists. *)
Lemma basic_definition_known word key meaning :
  In (key, meaning) embedded_meanings ->
  str_lower word = key ->
  WordsAPI._get_basic_definition word = one_definition key meaning.
Proof.
  intros Hin <-. unfold WordsAPI._get_basic_definition.
  repeat (destruct Hin as [[= <- <-]|Hin]; [reflexivity|]). destruct Hin.
Qed.

Lemma basic_definition_unknown word :
  (forall key meaning, In (key, meaning) embedded_meanings -> str_lower word <> key) ->
  WordsAPI._get_basic_definition word
    = one_definition word ("A word meaning related to " +:+ word).
Proof.
  intros Hnone. unfold WordsAPI._get_basic_definition, WordsAPI.basic_definitions.
  cbn [dict_lookup].
  repeat match goal with
         | |- context [String.eqb (str_lower word) ?k] =>
             destruct (String.eqb_spec (str_lower word) k) as [Heq|_];
             [exfalso; eapply Hnone; [|exact Heq]; cbn; tauto|]
         end.
  reflexivity.
Qed.

(** A vocabulary client without a key leaves the world as it found it. *)
Lemma keyless_lookup_world self word e w :
  truthy (of_opt_str (WordsAPI.api_key self)) = false ->
  snd (WordsAPI.get_word_definition self word e w) = w.
Proof.
  intros Hkey. set (op := WordDefinition self word).
  change (snd (run op e w) = w).
  destruct (run_cases op e w)
    as [[_ ->]|[(_ & f & _ & ->)|(_ & _ & [[_ ->]|[Hf _]])]]; try reflexivity.
  cbn [fetches op] in Hf. congruence.
Qed.

(** C7 (amended).  A vocabulary client built without an API key never
    goes to the network: a lookup leaves the world as it found it (nothing
    sent, logged or written), for every word and every disk.  A lookup
    that finds a valid cache entry returns that entry; a lookup that finds
    none, and whose file name [exists()] can test, is answered by the
    embedded dictionary: with the stored meaning of the lower-cased word
    when it is one of the ten words of the dictionary, with a record made
    up from the word otherwise.  On a disk without files every lookup of
    every sequence of lookups is. *)
Theorem words_without_key_never_goes_to_network
    (dir word : string) (e : env) (w : world) :
  let self := {| WordsAPI.api_key := None; WordsAPI.cache_dir := dir |} in
  let cache := WordsAPI.word_cache_file self word in
  snd (WordsAPI.get_word_definition self word e w) = w /\
  sent (snd (WordsAPI.get_word_definition self word e w)) = sent w /\
  (valid_entry w e cache 30 = false -> reachable cache = true ->
     WordsAPI.get_word_definition self word e w
       = (Ok (WordsAPI._get_basic_definition word), w)) /\
  (forall key meaning,
     In (key, meaning) embedded_meanings -> str_lower word = key ->
     WordsAPI._get_basic_definition word
       = JDict [("word", JStr key);
                ("results", JList [JDict [("definition", JStr meaning)]])]) /\
  ((forall key meaning,
      In (key, meaning) embedded_meanings -> str_lower word <> key) ->
   WordsAPI._get_basic_definition word
     = JDict [("word", JStr word);
              ("results",
               JList [JDict [("definition",
                              JStr ("A word meaning related to " +:+ word))]])]) /\
  (files w = ∅ ->
     forall calls,
       Forall (fun c => reachable (WordsAPI.word_cache_file self c.1) = true) calls ->
       lookup_words self calls w
         = (map (fun c => Ok (WordsAPI._get_basic_definition c.1)) calls, w)) /\
  (forall payload,
     valid_entry w e cache 30 = true ->
     cached_payload w cache = Some payload ->
     WordsAPI.get_word_definition self word e w = (Ok payload, w)).
Proof.
  intros self cache. set (op := WordDefinition self word).
  assert (Hw : snd (WordsAPI.get_word_definition self word e w) = w)
    by now apply keyless_lookup_world.
  split; [exact Hw|]. split; [now rewrite Hw|].
  split; [intros Hv Hr; exact (run_miss_offline op e w Hv Hr eq_refl)|].
  split; [exact (basic_definition_known word)|].
  split; [exact (basic_definition_unknown word)|].
  split.
  - intros Hempty calls Hall. apply lookup_words_offline; [reflexivity| |exact Hall].
    intros word' e'. apply valid_entry_absent. rewrite Hempty. apply lookup_empty.
  - intros payload Hv Hp. exact (run_hit op e w payload Hv Hp).
Qed.

Lemma basic_definition_shape word :
  exists w0 meaning,
    WordsAPI._get_basic_definition word = WordsAPI.definition_record w0 meaning.
Proof.
  unfold WordsAPI._get_basic_definition, WordsAPI.basic_definitions.
  cbn [dict_lookup].
  repeat match goal with
         | |- context [String.eqb ?a ?b] => destruct (String.eqb a b)
         end; cbn [default]; eauto.
Qed.



(** C10.  The cache file of a word is named after its lower-cased form,
    so a word and its lower-cased form share one file (given that
    lower-casing twice is lower-casing once), as do any two spellings with
    the same lower-cased form: a valid entry is the answer to both
    lookups; a lookup under either spelling never changes another file;
    and a good response to either is written to that file, when a file of
    that name can be written.  The embedded dictionary is looked up under
    the lower-cased word as well. *)
Theorem word_cache_key_ignores_case
    (Hlower : forall s, str_lower (str_lower s) = str_lower s)
    (self : WordsAPI.client) (word : string) :
  let cache := path_join (WordsAPI.cache_dir self)
                         ("word_" +:+ str_lower word +:+ ".json") in
  WordsAPI.word_cache_file self word = cache /\
  WordsAPI.word_cache_file self (str_lower word) = cache /\
  (forall other, str_lower other = str_lower word ->
     WordsAPI.word_cache_file self other = cache) /\
  (forall e w payload,
     valid_entry w e cache 30 = true ->
     cached_payload w cache = Some payload ->
     WordsAPI.get_word_definition self word e w = (Ok payload, w) /\
     WordsAPI.get_word_definition self (str_lower word) e w = (Ok payload, w)) /\
  (forall e w spelling p,
     spelling = word \/ spelling = str_lower word ->
     p <> cache ->
     files (snd (WordsAPI.get_word_definition self spelling e w)) !! p
       = files w !! p) /\
  (forall e w body spelling,
     spelling = word \/ spelling = str_lower word ->
     valid_entry w e cache 30 = false ->
     plain cache = true ->
     fetches (WordDefinition self spelling) = true ->
     fetch_outcome e (fetch_request (WordDefinition self spelling)) = inr body ->
     files (snd (WordsAPI.get_word_definition self spelling e w)) !! cache
       = Some (written e body)) /\
  (forall record,
     dict_lookup (str_lower word) WordsAPI.basic_definitions = Some record ->
     WordsAPI._get_basic_definition word = record /\
     WordsAPI._get_basic_definition (str_lower word) = record).
Proof.
  intros cache.
  assert (H1 : WordsAPI.word_cache_file self word = cache) by reflexivity.
  assert (H2 : WordsAPI.word_cache_file self (str_lower word) = cache).
  { unfold WordsAPI.word_cache_file, cache. now rewrite Hlower. }
  split; [exact H1|]. split; [exact H2|].
  split; [|split; [|split; [|split]]].
  - intros other Ho. unfold WordsAPI.word_cache_file, cache. now rewrite Ho.
  - intros e w payload Hv Hp. split.
    + apply (run_hit (WordDefinition self word) e w payload);
        cbn [cache_file ttl]; rewrite H1; assumption.
    + apply (run_hit (WordDefinition self (str_lower word)) e w payload);
        cbn [cache_file ttl]; rewrite H2; assumption.
  - intros e w spelling p Hs Hne.
    assert (Hc : cache_file (WordDefinition self spelling) = cache).
    { destruct Hs as [-> | ->]; assumption. }
    apply (run_other_files (WordDefinition self spelling) e w p). congruence.
  - intros e w body spelling Hs Hv Hp Hf Ho.
    assert (Hc : cache_file (WordDefinition self spelling) = cache).
    { destruct Hs as [-> | ->]; assumption. }
    rewrite <- Hc in Hv, Hp.
    pose proof (run_miss_stored (WordDefinition self spelling) e w body body
                  Hv Hp Hf Ho eq_refl) as H.
    cbn [run] in H. rewrite H, Hc. cbn [snd store files].
    apply lookup_insert_eq.
  - intros record Hr. unfold WordsAPI._get_basic_definition.
    rewrite Hlower, Hr. split; reflexivity.
Qed.

(** ** Lesson helpers *)


(** [get_subject_content] when the three requests are answered. *)
Lemma get_subject_content_online self subject g e w vs es ts :
  fetch_outcome e (videos_request subject g 20) = inr vs ->
  fetch_outcome e (exercises_request subject g) = inr es ->
  fetch_outcome e (topics_request subject) = inr ts ->
  KhanAcademyAPI.get_subject_content self subject g e w =
    match KhanAcademyAPI._process_videos vs with
    | Raise x => (Raise x, emit (videos_request subject g 20) w)
    | Ok videos =>
        match KhanAcademyAPI._process_exercises es with
        | Raise x =>
            (Raise x, emit (exercises_request subject g)
                        (emit (videos_request subject g 20) w))
        | Ok exercises =>
            (Ok {| KhanAcademyAPI.videos := videos;
                   KhanAcademyAPI.exercises := exercises;
                   KhanAcademyAPI.topics := ts |},
             emit (topics_request subject)
               (emit (exercises_request subject g)
                  (emit (videos_request subject g 20) w)))
        end
    end.
Proof.
  intros H1 H2 H3. unfold KhanAcademyAPI.get_subject_content, bind.
  rewrite (search_videos_success self subject g 20 e w vs H1).
  destruct (KhanAcademyAPI._process_videos vs) as [videos|]; [|reflexivity].
  rewrite (get_exercises_success self subject g e _ es H2).
  destruct (KhanAcademyAPI._process_exercises es) as [exercises|]; [|reflexivity].
  now rewrite (get_subject_topics_success self subject e _ ts H3).
Qed.


(** * More of the clients *)

(** ** A response is stored before it is looked into *)

(** X1.  After a miss whose fetch succeeded and left something in a cache
    file that can be written, the same call made again before the TTL runs
    out has the same outcome and changes nothing: no request, no write.
    That holds also when the outcome is an exception raised while
    projecting the payload: the payload was stored first, and every call
    raises again until the entry expires. *)
Theorem repeated_call_repeats_the_outcome
    (Hcodec : forall v, json_loads (json_dumps v) = Some v)
    (op : cached_op) (e1 e2 : env) (w : world) (body v : json) :
  valid_entry w e1 (cache_file op) (ttl op) = false ->
  plain (cache_file op) = true ->
  fetches op = true ->
  fetch_outcome e1 (fetch_request op) = inr body ->
  kept op body = Ok (Some v) ->
  now e2 - now e1 < ttl op * day ->
  fst (run op e1 w) = answer op body /\
  snd (run op e1 w)
    = store (cache_file op) (written e1 v) (emit (fetch_request op) w) /\
  run op e2 (snd (run op e1 w)) = (fst (run op e1 w), snd (run op e1 w)).
Proof.
  intros Hv Hp Hf Ho Hk Hage.
  rewrite (run_miss_stored op e1 w body v Hv Hp Hf Ho Hk). cbn [fst snd].
  split; [reflexivity|]. split; [reflexivity|].
  rewrite <- (kept_view op body v Hk).
  apply run_hit.
  - now apply valid_entry_store.
  - now apply cached_payload_store.
Qed.

(** X2.  The cache file of a search is named after the query (CK-12: and
    the subject and grade level), not after [limit]; OpenLibrary's is named
    after the query alone.  So after a search was fetched, a search for the
    same query with another [limit] made before the TTL runs out sends
    nothing and is answered from the stored payload: a CK-12 search gets the
    very result of the first search, an OpenLibrary search the stored
    [docs] filtered for its own grade level. *)
Theorem search_cache_ignores_limit
    (Hcodec : forall v, json_loads (json_dumps v) = Some v)
    (e1 e2 : env) (w : world) (body : json) (limit1 limit2 : Z) :
  (forall self query subject grade_level,
      let first := Ck12Search self query subject grade_level limit1 in
      let second := Ck12Search self query subject grade_level limit2 in
      valid_entry w e1 (cache_file first) 7 = false ->
      fetch_outcome e1 (fetch_request first) = inr body ->
      now e2 - now e1 < 7 * day ->
      run second e2 (snd (run first e1 w))
        = (fst (run first e1 w), snd (run first e1 w))) /\
  (forall self query grade1 grade2,
      let first := BookSearch self query limit1 grade1 in
      let second := BookSearch self query limit2 grade2 in
      valid_entry w e1 (cache_file first) 7 = false ->
      fetch_outcome e1 (fetch_request first) = inr body ->
      now e2 - now e1 < 7 * day ->
      run second e2 (snd (run first e1 w))
        = (view second body, snd (run first e1 w))).
Proof.
  destruct search_files_plain as (Hck & Hbook & _).
  split.
  - intros self query subject grade_level first second Hv Ho Hage.
    pose proof (Hck self query subject grade_level limit1) as Hp. fold first in Hp.
    rewrite (run_miss_stored first e1 w body body Hv Hp eq_refl Ho eq_refl).
    cbn [fst snd].
    change (answer first body) with (view second body).
    change (cache_file first) with (cache_file second).
    apply run_hit.
    + now apply valid_entry_store.
    + now apply cached_payload_store.
  - intros self query grade1 grade2 first second Hv Ho Hage.
    pose proof (Hbook self query limit1 grade1) as Hp. fold first in Hp.
    rewrite (run_miss_stored first e1 w body body Hv Hp eq_refl Ho eq_refl).
    cbn [fst snd].
    change (cache_file first) with (cache_file second).
    apply run_hit.
    + now apply valid_entry_store.
    + now apply cached_payload_store.
Qed.

(** ** CK-12: what a search returns *)

Lemma for_each_project_ok fields xs out :
  for_each (project fields) xs = Ok out ->
  Forall2 (fun x y => exists d, x = JDict d /\ project fields x = Ok y) xs out.
Proof.
  revert out. induction xs as [|x xs IH]; intros out; cbn [for_each].
  - intros [= <-]. constructor.
  - destruct (project fields x) as [y|] eqn:Hx; [|discriminate].
    destruct (for_each (project fields) xs) as [ys|] eqn:Hxs; [|discriminate].
    intros [= <-]. constructor; [|now apply IH].
    destruct x; try discriminate. eauto.
Qed.

Lemma for_each_project_not_record fields xs :
  ~ Forall is_record xs -> for_each (project fields) xs = Raise AttributeError.
Proof.
  induction xs as [|x xs IH]; intros Hn.
  - destruct Hn. constructor.
  - cbn [for_each]. destruct x; try reflexivity.
    cbn [project]. rewrite IH; [reflexivity|].
    intros Hall. apply Hn. constructor; [eexists; reflexivity|exact Hall].
Qed.

Lemma normalized_content_idem d :
  normalized_content (normalized_content d) = normalized_content d.
Proof. reflexivity. Qed.

(** Whatever [_process_content] returns is a list of normalized records. *)
Lemma process_content_ok v out :
  CK12API._process_content v = Ok out ->
  exists items, out = JList items /\ Forall is_normalized items.
Proof.
  unfold CK12API._process_content.
  destruct (py_iter v) as [xs|]; [|discriminate].
  destruct (for_each _ xs) as [ys|] eqn:Hfe; [|discriminate].
  intros [= <-]. exists ys. split; [reflexivity|].
  apply for_each_project_ok in Hfe.
  induction Hfe as [|x y xs ys (d & -> & Hy) _ IH]; constructor; [|exact IH].
  exists d. cbn [project] in Hy. now injection Hy as <-.
Qed.

(** X3.  [_process_content] turns a list of records into the list of
    their normalized records: the same nine fields in the same order for
    each, a missing field [None], a missing [difficulty] ['medium'].  The
    result has the length of the list, and normalizing it again changes
    nothing.  A list with an item that is not a record is refused with an
    [AttributeError]. *)
Theorem process_content_normalizes :
  (forall ds : list (list (string * json)),
      CK12API._process_content (JList (map JDict ds))
        = Ok (JList
                (map (fun d =>
                        JDict
                          [("id", default JNull (dict_lookup "id" d));
                           ("title", default JNull (dict_lookup "title" d));
                           ("description", default JNull (dict_lookup "description" d));
                           ("type", default JNull (dict_lookup "type" d));
                           ("subject", default JNull (dict_lookup "subject" d));
                           ("grade_level", default JNull (dict_lookup "grade_level" d));
                           ("url", default JNull (dict_lookup "url" d));
                           ("embed_url", default JNull (dict_lookup "embed_url" d));
                           ("difficulty",
                            default (JStr "medium") (dict_lookup "difficulty" d))])
                     ds))) /\
  (forall ds : list (list (string * json)),
      exists out,
        CK12API._process_content (JList (map JDict ds)) = Ok (JList out) /\
        length out = length ds /\
        Forall (fun item => exists d, item = JDict d /\ map fst d = content_fields) out /\
        CK12API._process_content (JList out) = Ok (JList out)) /\
  (forall d,
      dict_lookup "title" d = None -> dict_lookup "difficulty" d = None ->
      exists item,
        CK12API._process_content (JList [JDict d]) = Ok (JList [item]) /\
        py_get item "title" (JStr "") = Ok JNull /\
        py_get item "difficulty" JNull = Ok (JStr "medium")) /\
  (forall items,
      ~ Forall is_record items ->
      CK12API._process_content (JList items) = Raise AttributeError).
Proof.
  split; [exact process_content_records|]. split; [|split].
  - intros ds. eexists. split; [apply process_content_records|].
    split; [now rewrite length_map|]. split.
    + apply Forall_forall. intros item Hin. apply list_elem_of_fmap in Hin.
      destruct Hin as (d & -> & _). eexists. split; reflexivity.
    + rewrite <- (map_map normalized_content JDict).
      rewrite process_content_records. now rewrite !map_map.
  - intros d Ht Hd. eexists. split; [exact (process_content_records [d])|].
    cbn. rewrite Ht, Hd. split; reflexivity.
  - intros items Hn. unfold CK12API._process_content. cbn [py_iter].
    now rewrite for_each_project_not_record.
Qed.

(** ** CK-12: the filtered searches *)

Lemma Forall_of_sublist {A} (P : A -> Prop) (k l : list A) :
  sublist k l -> Forall P l -> Forall P k.
Proof.
  induction 1 as [|x k l _ IH|x k l _ IH]; intros Hall.
  - constructor.
  - inversion Hall; subst. constructor; [assumption|now apply IH].
  - inversion Hall; subst. now apply IH.
Qed.

Lemma keep_if_ok p xs out :
  keep_if p xs = Ok out ->
  sublist out xs /\ Forall (fun x => p x = Ok true) out /\ (length out <= length xs)%nat.
Proof.
  revert out. induction xs as [|x xs IH]; intros out; cbn [keep_if].
  - intros [= <-]. repeat split; constructor.
  - destruct (p x) as [keep|] eqn:Hx; [|discriminate].
    destruct (keep_if p xs) as [ys|] eqn:Hxs; [|discriminate].
    intros [= <-]. destruct (IH ys eq_refl) as (Hs & Hall & Hlen).
    destruct keep; cbn [length]; repeat split.
    + now constructor.
    + now constructor.
    + lia.
    + now constructor.
    + exact Hall.
    + lia.
Qed.

Lemma keep_if_total p xs :
  Forall (fun x => exists b, p x = Ok b) xs -> exists out, keep_if p xs = Ok out.
Proof.
  induction 1 as [|x xs [b Hx] _ [out IH]]; cbn [keep_if]; [eauto|].
  rewrite Hx, IH. eauto.
Qed.

Lemma keep_if_raises p xs e :
  (forall x e', p x = Raise e' -> e' = e) ->
  Exists (fun x => exists e', p x = Raise e') xs ->
  keep_if p xs = Raise e.
Proof.
  intros Honly. induction xs as [|x xs IH]; intros Hex; [inversion Hex|].
  cbn [keep_if]. destruct (p x) as [keep|e'] eqn:Hx.
  - assert (Hrest : Exists (fun x => exists e', p x = Raise e') xs).
    { inversion Hex as [? ? [e' He']|]; subst; [congruence|assumption]. }
    now rewrite (IH Hrest).
  - now rewrite (Honly x e' Hx).
Qed.

Lemma either_mentions_raises a k1 b k2 item e :
  CK12API.either_mentions a k1 b k2 item = Raise e -> e = AttributeError.
Proof.
  unfold CK12API.either_mentions.
  destruct (lower_of item k1) as [t1|e1] eqn:H1.
  - destruct (contains a t1); [discriminate|].
    destruct (lower_of item k2) as [t2|e2] eqn:H2; [discriminate|].
    intros [= <-]. exact (lower_of_raises _ _ _ H2).
  - intros [= <-]. exact (lower_of_raises _ _ _ H1).
Qed.

(** A normalized record always has a [type]: the default of
    [get('type', '')] never applies, and a record that came without a type
    has none to lower-case. *)
Lemma lower_of_type_missing d :
  dict_lookup "type" d = None ->
  lower_of (JDict (normalized_content d)) "type" = Raise AttributeError.
Proof. intros H. unfold lower_of. cbn. rewrite H. reflexivity. Qed.

Lemma slice_len_le k n : (slice_len k n <= n)%nat.
Proof. unfold slice_len. destruct (0 <=? k); lia. Qed.

Lemma slice_len_limit k n : 0 <= k -> (slice_len k n <= Z.to_nat k)%nat.
Proof. intros Hk. unfold slice_len. destruct (0 <=? k) eqn:H; [lia|]. apply Z.leb_gt in H. lia. Qed.

Lemma slice_stop_sublist {A} k (l : list A) : sublist (slice_stop k l) l.
Proof. unfold slice_stop. apply sublist_take. Qed.

Lemma slice_stop_limit {A} k (l : list A) :
  0 <= k -> (length (slice_stop k l) <= Z.to_nat k)%nat.
Proof.
  intros Hk. unfold slice_stop. rewrite length_take.
  pose proof (slice_len_limit k (length l) Hk). lia.
Qed.

(** A CK-12 search returns a list of normalized records, when it returns. *)
Lemma search_content_returns self q s g l e w v :
  fst (CK12API.search_content self q s g l e w) = Ok v ->
  exists items, v = JList items /\ Forall is_normalized items.
Proof.
  intros H. destruct (run_returns (Ck12Search self q s g l) e w v H)
    as [->|[[payload Hview]|[payload Hview]]].
  - exists []. split; [reflexivity|constructor].
  - cbn [view] in Hview. destruct (py_get payload _ _); [|discriminate].
    exact (process_content_ok _ _ Hview).
  - cbn [answer view] in Hview. destruct (py_get payload _ _); [|discriminate].
    exact (process_content_ok _ _ Hview).
Qed.

Lemma get_simulations_eq self subject g limit e w :
  CK12API.get_simulations self subject g limit e w =
    match CK12API.search_content self "simulation" (Some subject) g limit e w with
    | (Ok simulations, w') =>
        (match py_iter simulations with
         | Raise x => Raise x
         | Ok sims =>
             match keep_if simulation_like sims with
             | Raise x => Raise x
             | Ok kept => Ok (JList (slice_stop limit kept))
             end
         end, w')
    | (Raise x, w') => (Raise x, w')
    end.
Proof.
  unfold CK12API.get_simulations, bind, lift, ret, simulation_like.
  destruct (CK12API.search_content _ _ _ _ _ e w) as [[v|x] w']; [|reflexivity].
  destruct (py_iter v) as [sims|]; [|reflexivity].
  destruct (keep_if _ sims); reflexivity.
Qed.

Lemma get_practice_problems_eq self subject g limit e w :
  CK12API.get_practice_problems self subject g limit e w =
    match CK12API.search_content self "practice problem" (Some subject) g limit e w with
    | (Ok problems, w') =>
        (match py_iter problems with
         | Raise x => Raise x
         | Ok items =>
             match keep_if problem_like items with
             | Raise x => Raise x
             | Ok kept => Ok (JList (slice_stop limit kept))
             end
         end, w')
    | (Raise x, w') => (Raise x, w')
    end.
Proof.
  unfold CK12API.get_practice_problems, bind, lift, ret, problem_like.
  destruct (CK12API.search_content _ _ _ _ _ e w) as [[v|x] w']; [|reflexivity].
  destruct (py_iter v) as [items|]; [|reflexivity].
  destruct (keep_if _ items); reflexivity.
Qed.

(** X4.  [get_simulations] needs every item of the search to come with a
    type: the search result always has a [type] field, [None] when the server
    sent none, so the default of [sim.get('type', '')] never applies.  When
    the fetched content list holds a record without a [type], the call ends
    with an [AttributeError], after the response has been stored. *)
Theorem get_simulations_needs_every_type
    (self : CK12API.client) (subject : string) (g : option Z) (limit : Z)
    (e : env) (w : world) (body : json) (raws : list (list (string * json))) :
  let op := Ck12Search self "simulation" (Some subject) g limit in
  valid_entry w e (cache_file op) 7 = false ->
  fetch_outcome e (fetch_request op) = inr body ->
  py_get body "content" (JList []) = Ok (JList (map JDict raws)) ->
  Exists (fun d => dict_lookup "type" d = None) raws ->
  CK12API.get_simulations self subject g limit e w
    = (Raise AttributeError,
       store (cache_file op) (written e body) (emit (fetch_request op) w)).
Proof.
  intros op Hv Ho Hcontent Hex.
  rewrite get_simulations_eq.
  destruct search_files_plain as (Hplain & _).
  pose proof (run_miss_stored op e w body body Hv (Hplain _ _ _ _ _)
                eq_refl Ho eq_refl) as H.
  cbn [run op] in H. rewrite H. cbn [answer view op]. rewrite Hcontent.
  rewrite process_content_records. cbn [py_iter].
  rewrite (keep_if_raises simulation_like _ AttributeError); [reflexivity| |].
  - intros x e'. apply either_mentions_raises.
  - apply Exists_exists in Hex. destruct Hex as (d & Hin & Hd).
    apply Exists_exists. exists (JDict (normalized_content d)). split.
    + apply list_elem_of_fmap. eauto.
    + exists AttributeError. unfold simulation_like, CK12API.either_mentions.
      now rewrite (lower_of_type_missing d Hd).
Qed.

(** X5.  When the search returns items that all have a string for [type]
    (and for [title] where it is looked at), [get_simulations] and
    [get_practice_problems] return some of these items, in the order of the
    search: only items that pass the test of the method, and for a [limit]
    that is not negative at most [limit] of them. *)
Theorem filtered_searches_return_matching_items
    (self : CK12API.client) (subject : string) (g : option Z) (limit : Z)
    (e : env) (w w' : world) (items : list json) :
  (CK12API.search_content self "simulation" (Some subject) g limit e w
     = (Ok (JList items), w') ->
   Forall (fun x => exists b, simulation_like x = Ok b) items ->
   exists out,
     CK12API.get_simulations self subject g limit e w = (Ok (JList out), w') /\
     sublist out items /\
     Forall (fun x => simulation_like x = Ok true) out /\
     (0 <= limit -> (length out <= Z.to_nat limit)%nat)) /\
  (CK12API.search_content self "practice problem" (Some subject) g limit e w
     = (Ok (JList items), w') ->
   Forall (fun x => exists b, problem_like x = Ok b) items ->
   exists out,
     CK12API.get_practice_problems self subject g limit e w = (Ok (JList out), w') /\
     sublist out items /\
     Forall (fun x => problem_like x = Ok true) out /\
     (0 <= limit -> (length out <= Z.to_nat limit)%nat)).
Proof.
  split; intros Hs Hall.
  - destruct (keep_if_total _ _ Hall) as [kept Hk].
    destruct (keep_if_ok _ _ _ Hk) as (Hsub & Hpass & _).
    exists (slice_stop limit kept).
    rewrite get_simulations_eq, Hs. cbn [py_iter]. rewrite Hk.
    split; [reflexivity|]. split; [|split].
    + etransitivity; [apply slice_stop_sublist|exact Hsub].
    + eapply Forall_of_sublist; [|exact Hpass]. apply slice_stop_sublist.
    + apply slice_stop_limit.
  - destruct (keep_if_total _ _ Hall) as [kept Hk].
    destruct (keep_if_ok _ _ _ Hk) as (Hsub & Hpass & _).
    exists (slice_stop limit kept).
    rewrite get_practice_problems_eq, Hs. cbn [py_iter]. rewrite Hk.
    split; [reflexivity|]. split; [|split].
    + etransitivity; [apply slice_stop_sublist|exact Hsub].
    + eapply Forall_of_sublist; [|exact Hpass]. apply slice_stop_sublist.
    + apply slice_stop_limit.
Qed.

(** ** CK-12: quizzes and lessons made of search results *)

Lemma convert_normalized_to_quiz d :
  CK12API.convert_to_quiz (JDict (normalized_content d))
    = Ok (blank_quiz (default (JStr "medium") (dict_lookup "difficulty" d))).
Proof. reflexivity. Qed.

(** X6.  The normalized records of a search keep none of the fields a quiz
    is made of, except [difficulty]: every practice problem that
    [get_practice_problems] returns converts to a quiz with an empty
    question, no options, an empty answer and explanation, and 1 point. *)
Theorem practice_problems_convert_to_blank_quizzes
    (self : CK12API.client) (subject : string) (g : option Z) (limit : Z)
    (e : env) (w : world) (v : json) :
  fst (CK12API.get_practice_problems self subject g limit e w) = Ok v ->
  exists problems,
    v = JList problems /\
    Forall (fun problem =>
              exists difficulty,
                CK12API.convert_to_quiz problem = Ok (blank_quiz difficulty))
           problems.
Proof.
  rewrite get_practice_problems_eq.
  destruct (CK12API.search_content self "practice problem" (Some subject) g limit e w)
    as [[found|x] w'] eqn:Hs; [|discriminate].
  destruct (search_content_returns self "practice problem" (Some subject) g limit e w
              found) as (items & -> & Hnorm); [now rewrite Hs|].
  cbn [fst py_iter].
  destruct (keep_if problem_like items) as [kept|] eqn:Hk; [|discriminate].
  intros [= <-]. eexists. split; [reflexivity|].
  destruct (keep_if_ok _ _ _ Hk) as (Hsub & _ & _).
  assert (Hall : Forall is_normalized (slice_stop limit kept)).
  { eapply Forall_of_sublist; [|exact Hnorm].
    etransitivity; [apply slice_stop_sublist|exact Hsub]. }
  eapply Forall_impl; [exact Hall|].
  intros item (d & ->). eexists. apply convert_normalized_to_quiz.
Qed.

Lemma sort_science_ok items sims exps expl :
  CK12API.sort_science items = Ok (sims, exps, expl) ->
  items ≡ₚ sims ++ exps ++ expl /\
  sublist sims items /\ sublist exps items /\ sublist expl items.
Proof.
  revert sims exps expl.
  induction items as [|c items IH]; intros sims exps expl; cbn [CK12API.sort_science].
  - intros [= <- <- <-]. repeat split; constructor.
  - destruct (lower_of c "type") as [t|]; [|discriminate].
    destruct (CK12API.sort_science items) as [[[s0 e0] x0]|]; [|discriminate].
    destruct (IH s0 e0 x0 eq_refl) as (Hp & H1 & H2 & H3).
    destruct (contains "simulation" t); [|destruct (contains "experiment" t)];
      intros [= <- <- <-]; repeat split;
      try (now constructor).
    + rewrite Hp. apply Permutation_middle.
    + rewrite Hp, !app_assoc. apply Permutation_middle.
Qed.

Lemma sort_science_total items :
  Forall (fun x => exists t, lower_of x "type" = Ok t) items ->
  exists sorted, CK12API.sort_science items = Ok sorted.
Proof.
  induction 1 as [|c items [t Ht] _ [[[s0 e0] x0] IH]]; cbn [CK12API.sort_science];
    [eauto|].
  rewrite Ht, IH. eauto.
Qed.

Lemma sort_math_ok items interactive problems :
  CK12API.sort_math items = Ok (interactive, problems) ->
  sublist interactive items /\ sublist problems items /\
  (length interactive + length problems <= length items)%nat /\
  Forall (fun x => exists t, lower_of x "type" = Ok t /\
                             contains "interactive" t = true) interactive /\
  Forall (fun x => exists t, lower_of x "type" = Ok t /\
                             contains "interactive" t = false /\
                             contains "problem" t = true) problems.
Proof.
  revert interactive problems.
  induction items as [|c items IH]; intros interactive problems;
    cbn [CK12API.sort_math].
  - intros [= <- <-]. repeat split; constructor.
  - destruct (lower_of c "type") as [t|] eqn:Ht; [|discriminate].
    destruct (CK12API.sort_math items) as [[i0 p0]|]; [|discriminate].
    destruct (IH i0 p0 eq_refl) as (H1 & H2 & Hlen & Hi & Hp).
    destruct (contains "interactive" t) eqn:Hc1;
      [|destruct (contains "problem" t) eqn:Hc2];
      intros [= <- <-]; cbn [length]; repeat split;
      try (now constructor); try lia; try assumption.
    + constructor; [eauto|assumption].
    + constructor; [eauto|assumption].
Qed.

(** X7.  [get_science_content] puts every item of its search into exactly
    one of [simulations], [experiments] and [explanations], in the order of
    the search: nothing is lost and nothing is doubled.  It returns whenever
    every item has a string for [type].  [get_math_content] keeps only the
    items whose type mentions 'interactive' or 'problem', the former in
    [interactive_content], the others in [practice_problems]. *)
Theorem subject_lessons_sort_the_search
    (self : CK12API.client) (topic : string) (g : option Z)
    (e : env) (w w' : world) (items : list json) :
  (CK12API.search_content self topic (Some "science") g 15 e w
     = (Ok (JList items), w') ->
   Forall (fun x => exists t, lower_of x "type" = Ok t) items ->
   exists lesson sims exps expl,
     CK12API.get_science_content self topic g e w = (Ok lesson, w') /\
     py_get lesson "simulations" JNull = Ok (JList sims) /\
     py_get lesson "experiments" JNull = Ok (JList exps) /\
     py_get lesson "explanations" JNull = Ok (JList expl) /\
     items ≡ₚ sims ++ exps ++ expl /\
     sublist sims items /\ sublist exps items /\ sublist expl items) /\
  (CK12API.search_content self topic (Some "math") g 15 e w
     = (Ok (JList items), w') ->
   forall lesson,
     fst (CK12API.get_math_content self topic g e w) = Ok lesson ->
     exists interactive problems,
       py_get lesson "interactive_content" JNull = Ok (JList interactive) /\
       py_get lesson "practice_problems" JNull = Ok (JList problems) /\
       sublist interactive items /\ sublist problems items /\
       (length interactive + length problems <= length items)%nat /\
       Forall (fun x => exists t, lower_of x "type" = Ok t /\
                                  contains "interactive" t = true) interactive /\
       Forall (fun x => exists t, lower_of x "type" = Ok t /\
                                  contains "interactive" t = false /\
                                  contains "problem" t = true) problems).
Proof.
  split.
  - intros Hs Hall.
    destruct (sort_science_total items Hall) as [[[sims exps] expl] Hsort].
    destruct (sort_science_ok _ _ _ _ Hsort) as (Hp & H1 & H2 & H3).
    eexists _, sims, exps, expl. split.
    { unfold CK12API.get_science_content, bind, lift, ret. rewrite Hs.
      cbn [py_iter]. rewrite Hsort. reflexivity. }
    cbn [fst snd]. repeat split; assumption.
  - intros Hs lesson.
    unfold CK12API.get_math_content, bind, lift, ret. rewrite Hs. cbn [py_iter].
    destruct (CK12API.sort_math items) as [[interactive problems]|] eqn:Hsort;
      [|discriminate].
    cbn [fst snd]. intros [= <-].
    destruct (sort_math_ok _ _ _ Hsort) as (H1 & H2 & Hlen & Hi & Hpr).
    exists interactive, problems. repeat split; assumption.
Qed.

(** ** Khan Academy: nothing is ever cached by the lesson path *)

Lemma advanced_emit w r : emit r w = advanced w [r] [].
Proof. unfold emit, advanced. now rewrite app_nil_r. Qed.

Lemma advanced_note_emit w r l : note l (emit r w) = advanced w [r] [l].
Proof. reflexivity. Qed.

Lemma advanced_advanced w r1 l1 r2 l2 :
  advanced (advanced w r1 l1) r2 l2 = advanced w (r1 ++ r2) (l1 ++ l2).
Proof. unfold advanced. cbn [files sent logged]. now rewrite !app_assoc. Qed.

Lemma search_videos_world self topic g limit e w :
  exists logs,
    snd (KhanAcademyAPI.search_videos self topic g limit e w)
      = advanced w [videos_request topic g limit] logs.
Proof.
  destruct (fetch_outcome e (videos_request topic g limit)) as [err|body] eqn:Ho.
  - rewrite (search_videos_failure self topic g limit e w err Ho).
    rewrite get_cached_videos_eq. cbn [snd]. eexists. apply advanced_note_emit.
  - rewrite (search_videos_success self topic g limit e w body Ho).
    cbn [snd]. eexists. apply advanced_emit.
Qed.

Lemma get_exercises_world self subject g e w :
  exists logs,
    snd (KhanAcademyAPI.get_exercises self subject g e w)
      = advanced w [exercises_request subject g] logs.
Proof.
  destruct (fetch_outcome e (exercises_request subject g)) as [err|body] eqn:Ho.
  - rewrite (get_exercises_failure self subject g e w err Ho).
    cbn [snd]. eexists. apply advanced_note_emit.
  - rewrite (get_exercises_success self subject g e w body Ho).
    cbn [snd]. eexists. apply advanced_emit.
Qed.

Lemma get_subject_topics_world self subject e w :
  exists logs,
    snd (KhanAcademyAPI._get_subject_topics self subject e w)
      = advanced w [topics_request subject] logs.
Proof.
  destruct (fetch_outcome e (topics_request subject)) as [err|body] eqn:Ho.
  - rewrite (get_subject_topics_failure self subject e w err Ho).
    cbn [snd]. eexists. apply advanced_note_emit.
  - rewrite (get_subject_topics_success self subject e w body Ho).
    cbn [snd]. eexists. apply advanced_emit.
Qed.

(** [get_subject_content] makes its three requests in order, unless one of
    the calls raises, and leaves the disk as it was. *)
Lemma get_subject_content_world self subject g e w :
  exists reqs logs,
    snd (KhanAcademyAPI.get_subject_content self subject g e w)
      = advanced w reqs logs /\
    (forall content,
        fst (KhanAcademyAPI.get_subject_content self subject g e w) = Ok content ->
        reqs = [videos_request subject g 20; exercises_request subject g;
                topics_request subject]).
Proof.
  unfold KhanAcademyAPI.get_subject_content, bind, ret.
  destruct (search_videos_world self subject g 20 e w) as [l1 H1].
  destruct (KhanAcademyAPI.search_videos self subject g 20 e w) as [[v|x] w1];
    cbn [snd] in H1; subst w1; [|eexists _, _; split; [reflexivity|discriminate]].
  destruct (get_exercises_world self subject g e (advanced w [videos_request subject g 20] l1))
    as [l2 H2].
  destruct (KhanAcademyAPI.get_exercises self subject g e _) as [[ex|x] w2];
    cbn [snd] in H2; subst w2; rewrite advanced_advanced;
    [|eexists _, _; split; [reflexivity|discriminate]].
  destruct (get_subject_topics_world self subject e
              (advanced w ([videos_request subject g 20] ++ [exercises_request subject g])
                        (l1 ++ l2))) as [l3 H3].
  destruct (KhanAcademyAPI._get_subject_topics self subject e _) as [[t|x] w3];
    cbn [snd] in H3; subst w3; rewrite advanced_advanced;
    eexists _, _; (split; [reflexivity|]); [reflexivity|discriminate].
Qed.

(** X8.  The Khan Academy operations behind a lesson never write to the
    disk: [search_videos], [get_exercises], the topics lookup,
    [get_subject_content] and [create_lesson_from_khan] leave every file as
    it was, so no call of theirs ever fills the cache file that
    [search_videos] falls back to.  Every lesson that is returned has cost
    exactly three requests, in this order: the videos of the subject (limit
    20), its exercises, its topics. *)
Theorem khan_lessons_never_write_and_cost_three_requests
    (self : KhanAcademyAPI.client) (subject topic : string) (g : option Z)
    (limit : Z) (e : env) (w : world) :
  files (snd (KhanAcademyAPI.search_videos self topic g limit e w)) = files w /\
  files (snd (KhanAcademyAPI.get_exercises self subject g e w)) = files w /\
  files (snd (KhanAcademyAPI._get_subject_topics self subject e w)) = files w /\
  files (snd (KhanAcademyAPI.get_subject_content self subject g e w)) = files w /\
  files (snd (KhanAcademyAPI.create_lesson_from_khan self subject g topic e w))
    = files w /\
  (forall lesson,
      fst (KhanAcademyAPI.create_lesson_from_khan self subject g topic e w)
        = Ok lesson ->
      sent (snd (KhanAcademyAPI.create_lesson_from_khan self subject g topic e w))
        = (sent w ++ [videos_request subject g 20; exercises_request subject g;
                      topics_request subject])%list).
Proof.
  destruct (search_videos_world self topic g limit e w) as [l1 H1].
  destruct (get_exercises_world self subject g e w) as [l2 H2].
  destruct (get_subject_topics_world self subject e w) as [l3 H3].
  destruct (get_subject_content_world self subject g e w) as (reqs & l4 & H4 & Hreqs).
  rewrite H1, H2, H3, H4. repeat (split; [reflexivity|]).
  unfold KhanAcademyAPI.create_lesson_from_khan, bind, lift, ret.
  destruct (KhanAcademyAPI.get_subject_content self subject g e w) as [[content|x] w'];
    cbn [snd] in H4; subst w'; [|split; [reflexivity|discriminate]].
  specialize (Hreqs content eq_refl). subst reqs.
  destruct (py_take 3 _); [|split; [reflexivity|discriminate]].
  destruct (py_take 5 _); split; try reflexivity; discriminate.
Qed.

(** ** OpenLibrary: the grade-level filter *)











(** ** OpenLibrary: the reading level *)

Lemma first_level_range levels subjects n :
  OpenLibraryAPI.first_level levels subjects = Ok n ->
  n = 5 \/ In n (map snd levels).
Proof.
  induction levels as [|[kind level] rest IH]; cbn [OpenLibraryAPI.first_level].
  - intros [= <-]. now left.
  - destruct (py_iter subjects) as [subs|]; [|discriminate].
    destruct (OpenLibraryAPI.any_subject_has kind subs) as [[]|]; try discriminate.
    + intros [= <-]. right. now left.
    + intros H. destruct (IH H) as [->|Hin]; [now left|right; now right].
Qed.

(** X10.  [get_reading_level] answers 1, 2, 3, 5 or 8 and nothing else when
    it answers; a book record without subjects is level 5; and the first
    kind in the order picture book, early reader, chapter book, middle
    grade, young adult that some subject names decides: a book whose first
    subject names a picture book is level 1 whatever its other subjects. *)
Theorem reading_level_is_one_of_five :
  (forall book n, OpenLibraryAPI.get_reading_level book = Ok n ->
                  In n [1; 2; 3; 5; 8]) /\
  (forall d, dict_lookup "subject" d = None ->
             OpenLibraryAPI.get_reading_level (JDict d) = Ok 5) /\
  (forall d s others,
      dict_lookup "subject" d = Some (JList (JStr s :: others)) ->
      contains "picture book" (str_lower s) = true ->
      OpenLibraryAPI.get_reading_level (JDict d) = Ok 1).
Proof.
  split; [|split].
  - intros book n. destruct book; try discriminate.
    cbn [OpenLibraryAPI.get_reading_level]. intros H.
    apply first_level_range in H. cbn in H. cbn. intuition.
  - intros d Hd. cbn [OpenLibraryAPI.get_reading_level]. rewrite Hd. reflexivity.
  - intros d s others Hd Hc. cbn [OpenLibraryAPI.get_reading_level]. rewrite Hd.
    unfold OpenLibraryAPI.reading_levels.
    cbn [default OpenLibraryAPI.first_level]. unfold id.
    cbn [py_iter OpenLibraryAPI.any_subject_has]. now rewrite Hc.
Qed.


(** ** The other cache-first methods *)

Lemma py_slice_list_limit k v out :
  0 <= k -> py_slice k v = Ok (JList out) -> (length out <= Z.to_nat k)%nat.
Proof.
  intros Hk. destruct v; cbn [py_slice]; try discriminate; intros [= <-].
  now apply slice_stop_limit.
Qed.

Lemma mars_pick_limit k data out :
  0 <= k -> mars_pick k data = Ok (JList out) -> (length out <= Z.to_nat k)%nat.
Proof.
  intros Hk. unfold mars_pick. destruct (py_item data "photos"); [|discriminate].
  now apply py_slice_list_limit.
Qed.

Lemma images_pick_limit k data out :
  0 <= k -> images_pick k data = Ok (JList out) -> (length out <= Z.to_nat k)%nat.
Proof.
  intros Hk. unfold images_pick.
  destruct (py_item data "collection") as [c|]; [|discriminate].
  destruct (py_item c "items"); [|discriminate].
  now apply py_slice_list_limit.
Qed.

Lemma subject_pick_limit g k data out :
  0 <= k -> subject_pick g k data = Ok (JList out) -> (length out <= Z.to_nat k)%nat.
Proof.
  intros Hk. unfold subject_pick.
  destruct (py_get data "works" (JList [])) as [c|]; [|discriminate].
  destruct (OpenLibraryAPI._filter_by_grade_level c g); [|discriminate].
  now apply py_slice_list_limit.
Qed.

(** X11.  [limit] bounds the answer of [get_mars_photos],
    [search_nasa_images] and [get_subject_books] in every state of the disk
    and of the network: whether the list comes from the cache file, from
    the response or from the handler of a failed request, it has at most
    [limit] items (for [limit >= 0]). *)
Theorem limit_bounds_the_answer (limit : Z) (e : env) (w : world) (out : list json) :
  0 <= limit ->
  (forall self sol camera,
      fst (NASAAPI.get_mars_photos self sol camera limit e w) = Ok (JList out) ->
      (length out <= Z.to_nat limit)%nat) /\
  (forall self query,
      fst (NASAAPI.search_nasa_images self query limit e w) = Ok (JList out) ->
      (length out <= Z.to_nat limit)%nat) /\
  (forall self subject grade_level,
      fst (OpenLibraryAPI.get_subject_books self subject grade_level limit e w)
        = Ok (JList out) ->
      (length out <= Z.to_nat limit)%nat).
Proof.
  intros Hk. repeat split.
  - intros self sol camera H.
    destruct (run_returns (NasaMars self sol camera limit) e w _ H)
      as [[= ->]|[[payload Hp]|[payload Hp]]]; [cbn; lia|..];
      eapply mars_pick_limit; eauto.
  - intros self query H.
    destruct (run_returns (NasaImages self query limit) e w _ H)
      as [[= ->]|[[payload Hp]|[payload Hp]]]; [cbn; lia|..];
      eapply images_pick_limit; eauto.
  - intros self subject g H.
    destruct (run_returns (SubjectBooks self subject g limit) e w _ H)
      as [[= ->]|[[payload Hp]|[payload Hp]]]; [cbn; lia|..];
      eapply subject_pick_limit; eauto.
Qed.

(** X12.  [get_mars_photos] cannot be asked for sol 0: a falsy [sol] is
    replaced by 1000 in the request and by ['latest'] in the name of the
    cache file, so the call is the call without [sol].  And the response is
    stored before ['photos'] is read from it: when the cache file can be
    written, a 200 whose body is a record without ['photos'] ends in
    [KeyError] with the body on disk, and every call for the same sol and
    camera within 7 days ends in [KeyError] again without a request.  When
    the camera makes a file name that [open] refuses (a ['/'] in it), the
    same response ends in the error of [open] instead, nothing is stored,
    and the next call sends the request again. *)
Theorem mars_photos_sol_zero_and_missing_photos
    (Hcodec : forall v, json_loads (json_dumps v) = Some v)
    (self : NASAAPI.client) (sol : option Z) (camera : string)
    (limit1 limit2 : Z) (e1 e2 : env) (w : world) (d : list (string * json)) :
  (forall e w,
      NASAAPI.get_mars_photos self (Some 0) camera limit1 e w
        = NASAAPI.get_mars_photos self None camera limit1 e w) /\
  dict_lookup "sol" (params (mars_request self (Some 0) camera)) = Some (JInt 1000) /\
  (plain (NASAAPI.mars_cache_file self sol camera) = true ->
   valid_entry w e1 (NASAAPI.mars_cache_file self sol camera) 7 = false ->
   fetch_outcome e1 (mars_request self sol camera) = inr (JDict d) ->
   dict_lookup "photos" d = None ->
   now e2 - now e1 < 7 * day ->
   let w1 := store (NASAAPI.mars_cache_file self sol camera) (written e1 (JDict d))
               (emit (mars_request self sol camera) w) in
   NASAAPI.get_mars_photos self sol camera limit1 e1 w = (Raise KeyError, w1) /\
   NASAAPI.get_mars_photos self sol camera limit2 e2 w1 = (Raise KeyError, w1)) /\
  (reachable (NASAAPI.mars_cache_file self sol camera) = true ->
   plain (NASAAPI.mars_cache_file self sol camera) = false ->
   fetch_outcome e1 (mars_request self sol camera) = inr (JDict d) ->
   fetch_outcome e2 (mars_request self sol camera) = inr (JDict d) ->
   let w1 := emit (mars_request self sol camera) w in
   NASAAPI.get_mars_photos self sol camera limit1 e1 w
     = (Raise (open_error (NASAAPI.mars_cache_file self sol camera) w), w1) /\
   NASAAPI.get_mars_photos self sol camera limit2 e2 w1
     = (Raise (open_error (NASAAPI.mars_cache_file self sol camera) w),
        emit (mars_request self sol camera) w1)).
Proof.
  split; [reflexivity|]. split; [reflexivity|].
  split.
  - intros Hp Hv Ho Hd Hage w1.
    assert (Hpick' : forall k, mars_pick k (JDict d) = Raise KeyError)
      by (intros k; unfold mars_pick; cbn [py_item]; now rewrite Hd).
    split.
    + pose proof (run_miss_stored (NasaMars self sol camera limit1) e1 w
                    (JDict d) (JDict d) Hv Hp eq_refl Ho eq_refl) as H.
      cbn [run answer view cache_file fetch_request] in H. rewrite H.
      now rewrite Hpick'.
    + pose proof (run_hit (NasaMars self sol camera limit2) e2 w1 (JDict d)) as H.
      cbn [run view cache_file ttl] in H. rewrite H.
      * now rewrite Hpick'.
      * now apply valid_entry_store.
      * now apply cached_payload_store.
  - intros Hr Hp Ho1 Ho2 w1.
    assert (Hnv : forall e w0,
               valid_entry w0 e (NASAAPI.mars_cache_file self sol camera) 7 = false).
    { intros e0 w0. unfold valid_entry. unfold plain in Hp.
      destruct (kind_of _); [discriminate|reflexivity..]. }
    split.
    + exact (run_miss_unwritable (NasaMars self sol camera limit1) e1 w
               (JDict d) (JDict d) (Hnv _ _) Hr Hp eq_refl Ho1 eq_refl).
    + pose proof (run_miss_unwritable (NasaMars self sol camera limit2) e2 w1
               (JDict d) (JDict d) (Hnv _ _) Hr Hp eq_refl Ho2 eq_refl) as H.
      cbn [run cache_file fetch_request] in H. rewrite H.
      reflexivity.
Qed.

(** ** Mission data *)

Lemma find_mission_first name before found after title :
  Forall (fun project => exists t, lower_of project "title" = Ok t /\
                                   contains (str_lower name) t = false) before ->
  lower_of found "title" = Ok title ->
  contains (str_lower name) title = true ->
  NASAAPI.find_mission name (before ++ found :: after)%list = Ok found.
Proof.
  intros Hbefore Ht Hc. induction Hbefore as [|project rest (t & Hp & Hn) _ IH];
    cbn [app NASAAPI.find_mission].
  - now rewrite Ht, Hc.
  - now rewrite Hp, Hn.
Qed.

Lemma find_mission_none name items :
  Forall (fun project => exists t, lower_of project "title" = Ok t /\
                                   contains (str_lower name) t = false) items ->
  NASAAPI.find_mission name items = Ok JNull.
Proof.
  induction 1 as [|project rest (t & Hp & Hn) _ IH]; cbn [NASAAPI.find_mission];
    [reflexivity|now rewrite Hp, Hn].
Qed.

(** X13.  [get_space_mission_data] answers a miss with the first project
    of the response whose lower-cased title contains the lower-cased
    mission name: the project that comes after projects whose titles do not
    contain it; and with [None] when no title contains it.  Only a project
    that was found (and is truthy) is written to the cache, when the file
    can be written: then every call within 30 days returns it without a
    request.  When none was found, or an empty record, nothing is written,
    so the world differs only by the request sent.  When the mission name
    makes a file name that [open] refuses, the call that found a project
    ends in the error of [open] after its request. *)
Theorem mission_data_is_cached_only_when_found
    (Hcodec : forall v, json_loads (json_dumps v) = Some v)
    (self : NASAAPI.client) (name : string) (e1 e2 : env) (w : world)
    (body projects : json) (before after : list json) (found : json)
    (title : string) :
  let cache := NASAAPI.mission_cache_file self name in
  let unmatched := fun project =>
    exists t, lower_of project "title" = Ok t /\
              contains (str_lower name) t = false in
  reachable cache = true ->
  valid_entry w e1 cache 30 = false ->
  fetch_outcome e1 (mission_request self) = inr body ->
  py_get body "projects" (JList []) = Ok projects ->
  (py_iter projects = Ok (before ++ found :: after)%list ->
   Forall unmatched before ->
   lower_of found "title" = Ok title ->
   contains (str_lower name) title = true ->
   (truthy found = false ->
    NASAAPI.get_space_mission_data self name e1 w
      = (Ok found, emit (mission_request self) w)) /\
   (truthy found = true -> plain cache = true ->
    let w1 := store cache (written e1 found) (emit (mission_request self) w) in
    NASAAPI.get_space_mission_data self name e1 w = (Ok found, w1) /\
    (now e2 - now e1 < 30 * day ->
     NASAAPI.get_space_mission_data self name e2 w1 = (Ok found, w1))) /\
   (truthy found = true -> plain cache = false ->
    NASAAPI.get_space_mission_data self name e1 w
      = (Raise (open_error cache w), emit (mission_request self) w))) /\
  (py_iter projects = Ok (before ++ after)%list ->
   Forall unmatched (before ++ after)%list ->
   NASAAPI.get_space_mission_data self name e1 w
     = (Ok JNull, emit (mission_request self) w)).
Proof.
  intros cache unmatched Hr Hv Ho Hg.
  pose proof (run_miss_success (NasaMission self name) e1 w body Hv Hr eq_refl Ho)
    as Hrun.
  cbn [run kept answer cache_file fetch_request] in Hrun.
  unfold mission_found in Hrun. rewrite Hg in Hrun. fold cache in Hrun.
  split.
  - intros Hi Hbefore Ht Hc. rewrite Hi in Hrun.
    rewrite (find_mission_first name before found after title Hbefore Ht Hc) in Hrun.
    split; [|split].
    + intros Hfalsy. now rewrite Hfalsy in Hrun.
    + intros Htruthy Hp w1. rewrite Htruthy, Hp in Hrun. split; [exact Hrun|].
      intros Hage.
      pose proof (run_hit (NasaMission self name) e2 w1 found) as Hhit.
      cbn [run view cache_file ttl] in Hhit. apply Hhit.
      * now apply valid_entry_store.
      * now apply cached_payload_store.
    + intros Htruthy Hnp. now rewrite Htruthy, Hnp in Hrun.
  - intros Hi Hnone. rewrite Hi in Hrun.
    now rewrite (find_mission_none name _ Hnone) in Hrun.
Qed.

(** ** Vocabulary *)

Lemma take_min_length {A} (n : nat) (l : list A) :
  take (Nat.min n (length l)) l = take n l.
Proof.
  destruct (Nat.le_gt_cases n (length l)) as [Hle|Hgt].
  - now rewrite Nat.min_l.
  - rewrite Nat.min_r by lia. rewrite !take_ge; [reflexivity|lia|lia].
Qed.

Lemma vocabulary_of_in g words :
  In (g, words) WordsAPI.grade_vocabulary ->
  WordsAPI.vocabulary_of g WordsAPI.grade_vocabulary = Some words /\
  length words = 10%nat /\ 1 <= g <= 12.
Proof.
  intros Hin. unfold WordsAPI.grade_vocabulary in Hin. cbn [In] in Hin.
  repeat (destruct Hin as [Hin|Hin];
          [injection Hin as <- <-; repeat split; (reflexivity || lia)|]).
  destruct Hin.
Qed.

Lemma vocabulary_of_out g :
  ~ (1 <= g <= 12) -> WordsAPI.vocabulary_of g WordsAPI.grade_vocabulary = None.
Proof.
  intros Hout. unfold WordsAPI.grade_vocabulary. cbn [WordsAPI.vocabulary_of].
  repeat match goal with
         | |- context [Z.eqb g ?b] =>
             destruct (Z.eqb_spec g b); [lia|cbv iota]
         end.
  reflexivity.
Qed.

(** X14.  [get_grade_level_vocabulary] has ten words for each of the
    grades 1 to 12 and answers any other grade with the list of grade 5.
    The answer is a prefix of the list of the grade, in the order of the
    table: its first [limit] words (all ten when [limit] is larger), and
    all but the last [-limit] for a negative [limit]. *)
Theorem grade_vocabulary_is_ten_words_and_defaults_to_grade_five
    (grade_level limit : Z) :
  map fst WordsAPI.grade_vocabulary = [1; 2; 3; 4; 5; 6; 7; 8; 9; 10; 11; 12] /\
  (forall words,
      In (grade_level, words) WordsAPI.grade_vocabulary ->
      length words = 10%nat /\
      (0 <= limit ->
       WordsAPI.get_grade_level_vocabulary grade_level limit
         = take (Z.to_nat limit) words) /\
      (limit < 0 ->
       WordsAPI.get_grade_level_vocabulary grade_level limit
         = take (10 - Z.to_nat (- limit)) words)) /\
  (~ (1 <= grade_level <= 12) ->
   WordsAPI.get_grade_level_vocabulary grade_level limit
     = WordsAPI.get_grade_level_vocabulary 5 limit /\
   (0 <= limit ->
    WordsAPI.get_grade_level_vocabulary grade_level limit
      = take (Z.to_nat limit)
          ["analytical"; "creative"; "diligent"; "eloquent"; "innovative";
           "logical"; "persistent"; "resilient"; "systematic"; "thorough"])) /\
  (0 <= limit ->
   length (WordsAPI.get_grade_level_vocabulary grade_level limit)
     = Z.to_nat (Z.min limit 10)) /\
  (limit < 0 ->
   length (WordsAPI.get_grade_level_vocabulary grade_level limit)
     = Z.to_nat (Z.max 0 (10 + limit))).
Proof.
  assert (Hfive : In (5, ["analytical"; "creative"; "diligent"; "eloquent";
                          "innovative"; "logical"; "persistent"; "resilient";
                          "systematic"; "thorough"]) WordsAPI.grade_vocabulary)
    by (unfold WordsAPI.grade_vocabulary; cbn [In]; tauto).
  assert (Hin : forall g words,
             In (g, words) WordsAPI.grade_vocabulary ->
             length words = 10%nat /\
             (0 <= limit ->
              WordsAPI.get_grade_level_vocabulary g limit
                = take (Z.to_nat limit) words) /\
             (limit < 0 ->
              WordsAPI.get_grade_level_vocabulary g limit
                = take (10 - Z.to_nat (- limit)) words)).
  { intros g words H. destruct (vocabulary_of_in g words H) as (Hw & Hlen & _).
    split; [exact Hlen|].
    unfold WordsAPI.get_grade_level_vocabulary. rewrite Hw.
    change (default _ (Some words)) with words.
    unfold slice_stop, slice_len. rewrite Hlen. split; intros Hk.
    - destruct (Z.leb_spec 0 limit); [|lia].
      rewrite <- Hlen. apply take_min_length.
    - destruct (Z.leb_spec 0 limit); [lia|reflexivity]. }
  assert (Hout : ~ (1 <= grade_level <= 12) ->
                 WordsAPI.get_grade_level_vocabulary grade_level limit
                   = WordsAPI.get_grade_level_vocabulary 5 limit).
  { intros Hno. unfold WordsAPI.get_grade_level_vocabulary.
    rewrite (vocabulary_of_out _ Hno). reflexivity. }
  assert (Hwords : exists words,
             length words = 10%nat /\
             WordsAPI.get_grade_level_vocabulary grade_level limit
               = slice_stop limit words).
  { destruct (WordsAPI.vocabulary_of grade_level WordsAPI.grade_vocabulary)
      as [words|] eqn:Hw.
    - exists words. split; [|unfold WordsAPI.get_grade_level_vocabulary; now rewrite Hw].
      revert Hw. unfold WordsAPI.grade_vocabulary. cbn [WordsAPI.vocabulary_of].
      repeat match goal with
             | |- context [Z.eqb grade_level ?b] =>
                 destruct (Z.eqb grade_level b); [now intros [= <-]|cbv iota]
             end.
      discriminate.
    - eexists. split; [|unfold WordsAPI.get_grade_level_vocabulary; rewrite Hw;
                        reflexivity].
      reflexivity. }
  assert (Hlen : length (WordsAPI.get_grade_level_vocabulary grade_level limit)
                 = slice_len limit 10).
  { destruct Hwords as (words & Hten & ->). unfold slice_stop.
    rewrite Hten, length_take. pose proof (slice_len_le limit 10). lia. }
  split; [reflexivity|]. split; [intros words; apply Hin|].
  split; [|split].
  - intros Hno. split; [now apply Hout|]. intros Hk. rewrite (Hout Hno).
    now apply (Hin 5 _ Hfive).
  - intros Hk. rewrite Hlen. unfold slice_len.
    destruct (Z.leb_spec 0 limit); lia.
  - intros Hk. rewrite Hlen. unfold slice_len.
    destruct (Z.leb_spec 0 limit); lia.
Qed.







Lemma nothing_beyond_the_definition self word g e w w0 meaning w' :
  WordsAPI.get_word_definition self word e w
    = (Ok (WordsAPI.definition_record w0 meaning), w') ->
  WordsAPI.get_etymology self word e w = (Ok JNull, w') /\
  WordsAPI.get_word_pronunciation self word e w = (Ok JNull, w') /\
  WordsAPI.create_etymology_lesson self word g e w = (Ok JNull, w').
Proof.
  intros H.
  assert (He : WordsAPI.get_etymology self word e w = (Ok JNull, w'))
    by (unfold WordsAPI.get_etymology, bind; rewrite H; reflexivity).
  split; [exact He|]. split.
  - unfold WordsAPI.get_word_pronunciation, bind. rewrite H. reflexivity.
  - unfold WordsAPI.create_etymology_lesson, bind. rewrite He. reflexivity.
Qed.

(** What a lookup that cannot use the API returns, and what it leaves. *)
Lemma get_word_definition_made_up self word e w :
  reachable (WordsAPI.word_cache_file self word) = true ->
  valid_entry w e (WordsAPI.word_cache_file self word) 30 = false ->
  (truthy (of_opt_str (WordsAPI.api_key self)) = false \/
   exists err, fetch_outcome e (fetch_request (WordDefinition self word)) = inl err) ->
  exists w', WordsAPI.get_word_definition self word e w
               = (Ok (WordsAPI._get_basic_definition word), w') /\
             files w' = files w.
Proof.
  intros Hr Hv Hwhy.
  destruct (truthy (of_opt_str (WordsAPI.api_key self))) eqn:Hkey.
  - destruct Hwhy as [|[err Ho]]; [discriminate|].
    pose proof (run_miss_failure (WordDefinition self word) e w err Hv Hr Hkey Ho) as H.
    cbn [run on_failure] in H. eexists. split; [exact H|reflexivity].
  - pose proof (run_miss_offline (WordDefinition self word) e w Hv Hr Hkey) as H.
    cbn [run on_failure] in H. eexists. split; [exact H|reflexivity].
Qed.

(** X16.  Without the API there is no etymology and no pronunciation: when
    a lookup misses the cache (the file name of the word short enough to be
    tested) and the client has no key, or the request fails,
    [get_etymology] and [get_word_pronunciation] return [None] and
    [create_etymology_lesson] returns [None] instead of a lesson, for every
    such word, also the words of the embedded dictionary. *)
Theorem no_etymology_without_the_api
    (self : WordsAPI.client) (word : string) (grade_level : option Z)
    (e : env) (w : world) :
  reachable (WordsAPI.word_cache_file self word) = true ->
  valid_entry w e (WordsAPI.word_cache_file self word) 30 = false ->
  (truthy (of_opt_str (WordsAPI.api_key self)) = false \/
   exists err, fetch_outcome e (fetch_request (WordDefinition self word)) = inl err) ->
  fst (WordsAPI.get_etymology self word e w) = Ok JNull /\
  fst (WordsAPI.get_word_pronunciation self word e w) = Ok JNull /\
  fst (WordsAPI.create_etymology_lesson self word grade_level e w) = Ok JNull.
Proof.
  intros Hr Hv Hwhy.
  destruct (get_word_definition_made_up self word e w Hr Hv Hwhy) as (w' & H & _).
  destruct (basic_definition_shape word) as (w0 & meaning & Hshape).
  rewrite Hshape in H.
  destruct (nothing_beyond_the_definition self word grade_level e w w0 meaning w' H)
    as (-> & -> & ->).
  repeat split.
Qed.

(** X17.  [get_word_of_the_day] stores whatever [get_word_definition]
    returned for the word drawn, and for a day every call returns that,
    whichever word it would have drawn.  That includes the made-up
    definition: where [get_word_definition] itself never caches its
    fallback (the file of the word stays as it was, unless the word is
    spelled so that it shares the file of the word of the day), the word of
    the day drawn by a client without a key, or while the request failed,
    stays the fallback record until the file is a day old.  (The words
    drawn are the twenty of [educational_words], whose file names can all
    be tested, given that lower-casing leaves them as they are; for a word
    whose file name is too long to be tested the lookup, and with it the
    call, ends in [OSError] and nothing is stored.) *)
Theorem word_of_the_day_is_kept_for_a_day
    (Hcodec : forall v, json_loads (json_dumps v) = Some v)
    (self : WordsAPI.client) (drawn1 drawn2 : string) (e1 e2 : env) (w : world) :
  let today := WordsAPI.word_of_day_cache_file self in
  valid_entry w e1 today 1 = false ->
  now e2 - now e1 < 1 * day ->
  (forall word_data w',
      WordsAPI.get_word_definition self drawn1 e1 w = (Ok word_data, w') ->
      let w1 := store today (written e1 word_data) w' in
      WordsAPI.get_word_of_the_day self drawn1 e1 w = (Ok word_data, w1) /\
      WordsAPI.get_word_of_the_day self drawn2 e2 w1 = (Ok word_data, w1)) /\
  (reachable (WordsAPI.word_cache_file self drawn1) = true ->
   valid_entry w e1 (WordsAPI.word_cache_file self drawn1) 30 = false ->
   (truthy (of_opt_str (WordsAPI.api_key self)) = false \/
    exists err,
      fetch_outcome e1 (fetch_request (WordDefinition self drawn1)) = inl err) ->
   let made_up := WordsAPI._get_basic_definition drawn1 in
   fst (WordsAPI.get_word_of_the_day self drawn1 e1 w) = Ok made_up /\
   fst (WordsAPI.get_word_of_the_day self drawn2 e2
          (snd (WordsAPI.get_word_of_the_day self drawn1 e1 w))) = Ok made_up /\
   (today <> WordsAPI.word_cache_file self drawn1 ->
    files (snd (WordsAPI.get_word_of_the_day self drawn1 e1 w))
      !! WordsAPI.word_cache_file self drawn1
      = files w !! WordsAPI.word_cache_file self drawn1)) /\
  (reachable (WordsAPI.word_cache_file self drawn1) = false ->
   WordsAPI.get_word_of_the_day self drawn1 e1 w = (Raise OSError, w)) /\
  (In drawn1 WordsAPI.educational_words -> str_lower drawn1 = drawn1 ->
   reachable (WordsAPI.word_cache_file self drawn1) = true).
Proof.
  intros today Hv Hage.
  assert (Hgen : forall word_data w',
      WordsAPI.get_word_definition self drawn1 e1 w = (Ok word_data, w') ->
      let w1 := store today (written e1 word_data) w' in
      WordsAPI.get_word_of_the_day self drawn1 e1 w = (Ok word_data, w1) /\
      WordsAPI.get_word_of_the_day self drawn2 e2 w1 = (Ok word_data, w1)).
  { intros word_data w' H w1. split.
    - rewrite (get_word_of_the_day_miss self drawn1 e1 w Hv). now rewrite H.
    - apply get_word_of_the_day_hit.
      + apply valid_entry_store; [apply word_of_day_file_plain|assumption].
      + now apply cached_payload_store. }
  split; [exact Hgen|]. split; [|split].
  - intros Hr Hvw Hwhy made_up.
    destruct (get_word_definition_made_up self drawn1 e1 w Hr Hvw Hwhy)
      as (w' & H & Hfiles).
    destruct (Hgen _ w' H) as [H1 H2]. rewrite H1. cbn [fst snd]. rewrite H2.
    split; [reflexivity|]. split; [reflexivity|].
    intros Hother. unfold store. cbn [files]. rewrite Hfiles.
    now apply lookup_insert_ne.
  - intros Hr. rewrite (get_word_of_the_day_miss self drawn1 e1 w Hv).
    pose proof (run_unreachable (WordDefinition self drawn1) e1 w Hr) as H.
    cbn [run] in H. now rewrite H.
  - intros Hin Hlow. unfold WordsAPI.word_cache_file. rewrite Hlow.
    unfold WordsAPI.educational_words in Hin. cbn [In] in Hin.
    repeat (destruct Hin as [<-|Hin]; [reflexivity|]). destruct Hin.
Qed.

(** ** The STEM lesson *)






(** ** A cache file that cannot be written *)


End Facts.
(** * Runs on concrete inputs, with the small library instance *)

#[local] Existing Instance simple_lib.

Lemma simple_codec (v : json) : json_loads (json_dumps v) = Some v.
Proof. reflexivity. Qed.

Lemma ascii_lower_idem (a : ascii) : ascii_lower (ascii_lower a) = ascii_lower a.
Proof. destruct a as [[] [] [] [] [] [] [] []]; reflexivity. Qed.

Lemma lower_string_idem (s : string) : lower_string (lower_string s) = lower_string s.
Proof.
  induction s as [|a s IH]; [reflexivity|].
  cbn [lower_string]. now rewrite ascii_lower_idem, IH.
Qed.

(** A world with one file: the file is there. *)
Lemma one_file_lookup (p : path) (f : file) :
  files (world_with {[ p := f ]}) !! p = Some f.
Proof. apply lookup_singleton_eq. Qed.

Lemma no_file_lookup (p : path) : files (world_with ∅) !! p = None.
Proof. apply lookup_empty. Qed.

Lemma one_file_valid (p : path) (f : file) (e : env) (t : Z) :
  plain p = true ->
  valid_entry (world_with {[ p := f ]}) e p t = (now e - mtime f <? t * day).
Proof. intros Hp. apply valid_entry_fresh; [exact Hp|apply one_file_lookup]. Qed.

Lemma one_file_payload (p : path) (f : file) :
  cached_payload (world_with {[ p := f ]}) p = json_loads (content f).
Proof. unfold cached_payload. now rewrite one_file_lookup. Qed.

Lemma no_file_valid (p : path) (e : env) (t : Z) :
  valid_entry (world_with ∅) e p t = false.
Proof. apply valid_entry_absent, no_file_lookup. Qed.

(** After a write to another file, a file that was not there is not there. *)
Lemma other_file_valid (p q : path) (f : file) (w : world) (e : env) (t : Z) :
  p <> q -> files w !! q = None ->
  valid_entry (store p f w) e q t = false.
Proof.
  intros Hne Hq. apply valid_entry_absent. unfold store. cbn [files].
  now rewrite lookup_insert_ne.
Qed.

(** ** CK-12: the search scenario *)

Lemma ck12_search_fractions_witness :
  let w := world_with ∅ in
  let e1 := at_time 0 (answering 200 fractions_payload) in
  let e2 := at_time (6 * day) unreachable in
  let e3 := at_time (7 * day) (answering 200 fractions_payload) in
  let search := CK12API.search_content ck12 "fractions" (Some "math") (Some 4) 20 in
  let cache := CK12API.search_cache_file ck12 "fractions" (Some "math") (Some 4) in
  let w1 := store cache (written e1 fractions_payload) (emit fractions_request w) in
  let normalized :=
    [JDict [("id", JStr "c1"); ("title", JStr "Equivalent fractions");
            ("description", JNull); ("type", JStr "lesson");
            ("subject", JStr "math"); ("grade_level", JInt 4);
            ("url", JNull); ("embed_url", JNull); ("difficulty", JStr "medium")];
     JDict [("id", JStr "c2"); ("title", JStr "Adding fractions");
            ("description", JNull); ("type", JStr "practice problem");
            ("subject", JNull); ("grade_level", JNull);
            ("url", JNull); ("embed_url", JNull); ("difficulty", JStr "easy")]] in
  (forall v, json_loads (json_dumps v) = Some v) /\
  files w !! cache = None /\
  server e1 fractions_request = Responded 200 fractions_payload /\
  py_get fractions_payload "content" (JList [])
    = Ok (JList [JDict fractions_item1; JDict fractions_item2]) /\
  now e2 - now e1 < 7 * day /\
  7 * day <= now e3 - now e1 /\
  search e1 w = (Ok (JList normalized), w1) /\
  sent w1 = [fractions_request] /\
  cached_payload w1 cache = Some fractions_payload /\
  search e2 w1 = (Ok (JList normalized), w1) /\
  sent (snd (search e3 w1)) = [fractions_request; fractions_request].
Proof.
  intros w e1 e2 e3 search cache w1 normalized.
  assert (Hnone : files w !! cache = None) by apply no_file_lookup.
  assert (Hage : now e2 - now e1 < 7 * day) by reflexivity.
  assert (Hold : 7 * day <= now e3 - now e1) by discriminate.
  destruct (ck12_search_fractions_once_then_cached simple_codec ck12 e1 e2 e3 w
              fractions_payload fractions_item1 fractions_item2
              Hnone eq_refl eq_refl Hage Hold)
    as (_ & H1 & H2 & H3 & H4 & H5).
  split; [exact simple_codec|]. split; [exact Hnone|]. split; [reflexivity|].
  split; [reflexivity|]. split; [exact Hage|]. split; [exact Hold|].
  split; [exact H1|]. split; [exact H2|]. split; [exact H3|].
  split; [exact H4|exact H5].
Defined.

(** ** Khan Academy: the search goes out although a valid entry is on disk *)

(** C2, as stated, fails: with a valid, well-formed cache file for the
    search on disk, [search_videos] still sends its request and returns the
    processed answer of the server, not the cached payload. *)
Lemma khan_search_videos_requests_despite_valid_cache :
  let cache := KhanAcademyAPI.search_cache_file khan "fractions" (Some 3) in
  let w := world_with {[ cache := dumped_at 0 cached_videos ]} in
  let e := at_time hour (answering 200 live_videos) in
  valid_entry w e cache 1 = true /\
  cached_payload w cache = Some cached_videos /\
  let (r, w') := KhanAcademyAPI.search_videos khan "fractions" (Some 3) 10 e w in
  sent w' = [videos_request "fractions" (Some 3) 10] /\
  r = KhanAcademyAPI._process_videos live_videos /\
  r <> Ok cached_videos.
Proof.
  intros cache w e.
  destruct search_files_plain as (_ & _ & _ & _ & Hplain).
  split; [unfold w; rewrite (one_file_valid _ _ _ _ (Hplain khan "fractions" (Some 3)));
          reflexivity|].
  split; [unfold w; rewrite one_file_payload; reflexivity|].
  rewrite (search_videos_success khan "fractions" (Some 3) 10 e w live_videos eq_refl).
  split; [reflexivity|]. split; [reflexivity|].
  vm_compute. discriminate.
Qed.

Lemma cache_first_witness :
  let op := NasaApod nasa (Some "2024-01-01") in
  let picture := JDict [("title", JStr "The Horsehead Nebula")] in
  let w := world_with {[ cache_file op := dumped_at 0 picture ]} in
  let e := at_time (day - 1) (answering 200 JNull) in
  valid_entry w e (cache_file op) (ttl op) = true /\
  cached_payload w (cache_file op) = Some picture /\
  NASAAPI.get_apod nasa (Some "2024-01-01") e w = (Ok picture, w) /\
  sent (snd (NASAAPI.get_apod nasa (Some "2024-01-01") e w)) = [].
Proof.
  intros op picture w e.
  assert (Hv : valid_entry w e (cache_file op) (ttl op) = true)
    by (unfold w; rewrite one_file_valid; reflexivity).
  assert (Hp : cached_payload w (cache_file op) = Some picture)
    by (unfold w; rewrite one_file_payload; reflexivity).
  pose proof (proj1 cache_first_operations_and_network_first_search_videos
                op e w picture Hv Hp) as H.
  split; [exact Hv|]. split; [exact Hp|]. split; [exact H|].
  cbn [run op] in H. now rewrite H.
Defined.

(** ** A failed request is not always answered empty *)



(** With a cache file on disk, here one written a moment ago and holding
    valid JSON, [get_space_weather] raises: the age test never gets to
    compare anything. *)
Example space_weather_with_cache_file_raises :
  let cache := NASAAPI.space_weather_cache_file nasa in
  let w := world_with {[ cache := dumped_at 0 (JList []) ]} in
  NASAAPI.get_space_weather nasa (at_time 1 (answering 200 (JList []))) w
    = (Raise AttributeError, w).
Proof.
  intros cache w.
  apply (get_space_weather_cached_raises nasa _ w (dumped_at 0 (JList []))).
  apply one_file_lookup.
Qed.

(** ** An expired entry is not always fetched again *)

(** C4, as stated, fails: for the vocabulary client built without a key, an
    entry whose age equals the TTL is not returned, but no fetch follows:
    the answer is the embedded dictionary's and nothing is sent. *)
Lemma words_without_key_expired_entry_not_refetched :
  let cache := WordsAPI.word_cache_file words_offline "serendipity" in
  let w := world_with {[ cache := dumped_at 0 serendipity_record ]} in
  let e := at_time (30 * day) (answering 200 serendipity_record) in
  now e - mtime (dumped_at 0 serendipity_record) = 30 * day /\
  valid_entry w e cache 30 = false /\
  cached_payload w cache = Some serendipity_record /\
  let (r, w') := WordsAPI.get_word_definition words_offline "serendipity" e w in
  r = Ok (WordsAPI._get_basic_definition "serendipity") /\
  r <> Ok serendipity_record /\
  sent w' = [].
Proof.
  intros cache w e.
  assert (Hv : valid_entry w e cache 30 = false)
    by (unfold w; rewrite one_file_valid; reflexivity).
  split; [reflexivity|]. split; [exact Hv|].
  split; [unfold w; rewrite one_file_payload; reflexivity|].
  pose proof (run_miss_offline (WordDefinition words_offline "serendipity") e w
                Hv eq_refl eq_refl) as H.
  cbn [run] in H. rewrite H.
  split; [reflexivity|]. split; [|reflexivity].
  vm_compute. discriminate.
Qed.

Lemma stale_entry_witness :
  let op := NasaMars nasa None "all" 2 in
  let f := dumped_at 0 (JDict [("photos", JList [])]) in
  let w := world_with {[ cache_file op := f ]} in
  let fresh := at_time (7 * day - 1) (answering 200 rover_photos) in
  let stale := at_time (7 * day) (answering 200 rover_photos) in
  files w !! cache_file op = Some f /\
  plain (cache_file op) = true /\
  now fresh - mtime f < ttl op * day /\
  ttl op * day <= now stale - mtime f /\
  valid_entry w fresh (cache_file op) (ttl op) = true /\
  run op fresh w = (Ok (JList []), w) /\
  valid_entry w stale (cache_file op) (ttl op) = false /\
  fst (run op stale w) = fst (run op stale (forget (cache_file op) w)) /\
  sent (snd (run op stale w)) = [fetch_request op].
Proof.
  intros op f w fresh stale.
  assert (Hf : files w !! cache_file op = Some f) by apply one_file_lookup.
  assert (Hp : plain (cache_file op) = true) by reflexivity.
  assert (Hyoung : now fresh - mtime f < ttl op * day) by reflexivity.
  assert (Hage : ttl op * day <= now stale - mtime f) by discriminate.
  split; [exact Hf|]. split; [exact Hp|]. split; [exact Hyoung|].
  split; [exact Hage|].
  destruct (stale_entry_is_absent_and_refetched_once op fresh w f Hf Hp)
    as (Hiff & Hhit & _).
  destruct (stale_entry_is_absent_and_refetched_once op stale w f Hf Hp)
    as (Hiff' & _ & Hmiss & _).
  destruct (Hmiss Hage) as (Hr & _ & _ & Hone & _).
  split; [apply Hiff, Hyoung|]. split; [exact (Hhit Hyoung)|].
  split; [|split; [exact Hr|exact (Hone eq_refl)]].
  exact (valid_entry_stale w stale _ _ f Hf Hage).
Defined.

(** ** Read after write *)

Lemma cache_read_after_write_witness :
  let p := KhanAcademyAPI.video_cache_file khan "v-new" in
  let e1 := at_time 0 unreachable in
  let e2 := at_time (7 * day - 1) unreachable in
  let w1 := snd (json_dump video_detail p e1 (world_with ∅)) in
  (forall v, json_loads (json_dumps v) = Some v) /\
  fst (json_dump video_detail p e1 (world_with ∅)) = Ok tt /\
  now e2 - now e1 < 7 * day /\
  json_load p e1 w1 = (Ok video_detail, w1) /\
  KhanAcademyAPI.get_video_content khan "v-new" e2 w1 = (Ok video_detail, w1).
Proof.
  intros p e1 e2 w1.
  assert (Hage : now e2 - now e1 < 7 * day) by reflexivity.
  assert (Hdone : fst (json_dump video_detail p e1 (world_with ∅)) = Ok tt)
    by reflexivity.
  split; [exact simple_codec|]. split; [exact Hdone|]. split; [exact Hage|].
  destruct (cache_read_after_write_returns_payload simple_codec p video_detail e1 e2
              (world_with ∅) Hdone) as (Hload & _ & Hvideo & _).
  split; [exact Hload|].
  exact (Hvideo khan "v-new" eq_refl Hage).
Defined.

(** ** A cache file that does not parse *)

(** C6, as stated, fails: a valid cache file that does not parse ends
    [get_video_content] with the parser's exception; the call does not go on
    to fetch, although the server would have answered. *)
Lemma malformed_valid_cache_file_is_fatal :
  let cache := KhanAcademyAPI.video_cache_file khan "v-new" in
  let w := world_with {[ cache := garbled_at 0 "{'id': " ]} in
  let e := at_time hour (answering 200 video_detail) in
  valid_entry w e cache 7 = true /\
  cached_payload w cache = None /\
  KhanAcademyAPI.get_video_content khan "v-new" e w = (Raise JSONDecodeError, w) /\
  sent w = [].
Proof.
  intros cache w e.
  assert (Hv : valid_entry w e cache 7 = true)
    by (unfold w; rewrite one_file_valid; reflexivity).
  split; [exact Hv|].
  split; [unfold w; rewrite one_file_payload; reflexivity|].
  split; [|reflexivity].
  apply (run_hit_malformed (KhanVideo khan "v-new") e w
           (garbled_at 0 "{'id': ") Hv);
    [apply one_file_lookup|reflexivity].
Qed.

Lemma malformed_cache_file_witness :
  let op := Ck12Subjects ck12 in
  let f := garbled_at 0 "[{'name': " in
  let w := world_with {[ cache_file op := f ]} in
  let young := at_time day (answering 200 (JList [JStr "math"])) in
  let old := at_time (30 * day) (answering 200 (JList [JStr "math"])) in
  json_loads (content f) = None /\
  files w !! cache_file op = Some f /\
  plain (cache_file op) = true /\
  now young - mtime f < ttl op * day /\
  ttl op * day <= now old - mtime f /\
  run op young w = (Raise JSONDecodeError, w) /\
  fst (run op old w) = fst (run op old (forget (cache_file op) w)) /\
  sent (snd (run op old w)) = [fetch_request op].
Proof.
  intros op f w young old.
  assert (Hl : json_loads (content f) = None) by reflexivity.
  assert (Hf : files w !! cache_file op = Some f) by apply one_file_lookup.
  assert (Hp : plain (cache_file op) = true) by reflexivity.
  assert (Hyoung : now young - mtime f < ttl op * day) by reflexivity.
  assert (Hage : ttl op * day <= now old - mtime f) by discriminate.
  split; [exact Hl|]. split; [exact Hf|]. split; [exact Hp|].
  split; [exact Hyoung|]. split; [exact Hage|].
  destruct (proj1 (malformed_cache_file_raises_unless_expired young w f Hl) op Hf Hp)
    as (Hraise & _).
  destruct (proj1 (malformed_cache_file_raises_unless_expired old w f Hl) op Hf Hp)
    as (_ & Hskip).
  destruct (Hskip Hage) as (Hr & _ & Hone).
  split; [exact (Hraise Hyoung)|]. split; [exact Hr|exact (Hone eq_refl)].
Defined.

(** ** The vocabulary client without a key *)

(** C7, as stated, fails: a lookup by a client without a key that finds
    a valid cache entry returns the entry, not the answer of the embedded
    dictionary.  The entry may have been written by a client with a key;
    and the client without a key makes such an entry itself: the word of
    the day is stored in [word_of_day.json], which is also the cache file
    of the word "of_day". *)
Lemma words_without_key_answers_from_the_cache :
  (let cache := WordsAPI.word_cache_file words_offline "serendipity" in
   let w := world_with {[ cache := dumped_at 0 serendipity_record ]} in
   let e := at_time day unreachable in
   WordsAPI.api_key words_offline = None /\
   WordsAPI.get_word_definition words_offline "serendipity" e w
     = (Ok serendipity_record, w) /\
   serendipity_record <> WordsAPI._get_basic_definition "serendipity") /\
  (let e1 := at_time 0 unreachable in
   let e2 := at_time hour unreachable in
   let w1 := snd (WordsAPI.get_word_of_the_day words_offline "serendipity" e1
                    (world_with ∅)) in
   WordsAPI.word_cache_file words_offline "of_day"
     = WordsAPI.word_of_day_cache_file words_offline /\
   WordsAPI.get_word_definition words_offline "of_day" e2 w1
     = (Ok (WordsAPI._get_basic_definition "serendipity"), w1) /\
   WordsAPI._get_basic_definition "serendipity"
     <> WordsAPI._get_basic_definition "of_day").
Proof.
  split.
  - intros cache w e. split; [reflexivity|]. split; [|vm_compute; discriminate].
    apply (run_hit (WordDefinition words_offline "serendipity") e w).
    + unfold w. rewrite one_file_valid; reflexivity.
    + unfold w. rewrite one_file_payload. reflexivity.
  - intros e1 e2 w1. split; [reflexivity|]. split; [|vm_compute; discriminate].
    assert (Hw1 : w1 = store (WordsAPI.word_of_day_cache_file words_offline)
                         (written e1 (WordsAPI._get_basic_definition "serendipity"))
                         (world_with ∅)).
    { unfold w1.
      rewrite (get_word_of_the_day_miss words_offline "serendipity" e1 _
                 (no_file_valid _ _ _)).
      pose proof (run_miss_offline (WordDefinition words_offline "serendipity") e1
                    (world_with ∅) (no_file_valid _ _ _) eq_refl eq_refl) as H.
      cbn [run] in H. now rewrite H. }
    rewrite Hw1.
    apply (run_hit (WordDefinition words_offline "of_day") e2).
    + apply (valid_entry_store _ e1 e2
               (WordsAPI.word_of_day_cache_file words_offline) 30); reflexivity.
    + apply (cached_payload_store _ e1
               (WordsAPI.word_of_day_cache_file words_offline)). exact simple_codec.
Qed.

Lemma words_without_key_witness :
  let w := world_with ∅ in
  let e := at_time 0 (answering 200 serendipity_record) in
  let later := at_time (40 * day) (answering 200 serendipity_record) in
  WordsAPI.get_word_definition words_offline "Happy" e w
    = (Ok (JDict [("word", JStr "happy");
                  ("results",
                   JList [JDict [("definition",
                                  JStr "feeling or showing pleasure or contentment")]])]),
       w) /\
  WordsAPI.get_word_definition words_offline "Zebra" e w
    = (Ok (JDict [("word", JStr "Zebra");
                  ("results",
                   JList [JDict [("definition",
                                  JStr "A word meaning related to Zebra")]])]),
       w) /\
  lookup_words words_offline [("Happy", e); ("serendipity", e); ("Happy", later)] w
    = ([Ok (WordsAPI._get_basic_definition "Happy");
        Ok (WordsAPI._get_basic_definition "serendipity");
        Ok (WordsAPI._get_basic_definition "Happy")], w).
Proof.
  intros w e later.
  destruct (words_without_key_never_goes_to_network "uploads/wordsapi" "Happy" e w)
    as (_ & _ & Hmiss & Hknown & _ & Hall & _).
  destruct (words_without_key_never_goes_to_network "uploads/wordsapi" "Zebra" e w)
    as (_ & _ & Hmiss' & _ & Hunknown & _).
  split; [|split].
  - rewrite <- (Hknown "happy" _ (or_introl eq_refl) eq_refl).
    exact (Hmiss (no_file_valid _ _ _) eq_refl).
  - pose proof (Hmiss' (no_file_valid _ _ _) eq_refl) as Hm.
    rewrite Hunknown in Hm; [exact Hm|].
    intros key meaning Hin.
    repeat (destruct Hin as [[= <- <-]|Hin]; [discriminate|]). destruct Hin.
  - apply (Hall eq_refl).
    repeat (apply Forall_cons; split; [reflexivity|]). apply Forall_nil_2.
Defined.

(** ** Lessons that are returned, and lessons that are not *)







(** ** One cache file per word, whatever the case *)

Lemma word_cache_key_witness :
  let cache := path_join "uploads/wordsapi" "word_happy.json" in
  let w := world_with ∅ in
  let e := at_time 0 (answering 200 serendipity_record) in
  (forall s, str_lower (str_lower s) = str_lower s) /\
  WordsAPI.word_cache_file words_online "Happy" = cache /\
  WordsAPI.word_cache_file words_online (str_lower "Happy") = cache /\
  WordsAPI.word_cache_file words_online "HAPPY" = cache /\
  files (snd (WordsAPI.get_word_definition words_online "Happy" e w)) !! cache
    = Some (dumped_at 0 serendipity_record) /\
  WordsAPI._get_basic_definition "Happy" = WordsAPI._get_basic_definition "happy".
Proof.
  intros cache w e.
  assert (Hlower : forall s, str_lower (str_lower s) = str_lower s)
    by exact lower_string_idem.
  split; [exact Hlower|].
  destruct (word_cache_key_ignores_case Hlower words_online "Happy")
    as (H1 & H2 & H3 & _ & _ & H5 & H6).
  split; [exact H1|]. split; [exact H2|]. split; [exact (H3 "HAPPY" eq_refl)|].
  split.
  - exact (H5 e w serendipity_record "Happy" (or_introl eq_refl)
             (no_file_valid _ _ _) eq_refl eq_refl eq_refl).
  - destruct (H6 (WordsAPI.definition_record "happy"
                    "feeling or showing pleasure or contentment") eq_refl)
      as [Ha Hb].
    rewrite Ha. symmetry. exact Hb.
Defined.

(** * More runs on concrete inputs *)

Lemma repeated_call_witness :
  let op := Ck12Search ck12 "fractions" (Some "math") (Some 4) 20 in
  let w := world_with ∅ in
  let e1 := at_time 0 (answering 200 broken_search) in
  let e2 := at_time (6 * day) unreachable in
  valid_entry w e1 (cache_file op) (ttl op) = false /\
  plain (cache_file op) = true /\
  fetches op = true /\
  fetch_outcome e1 (fetch_request op) = inr broken_search /\
  kept op broken_search = Ok (Some broken_search) /\
  now e2 - now e1 < ttl op * day /\
  fst (run op e1 w) = Raise AttributeError /\
  snd (run op e1 w)
    = store (cache_file op) (written e1 broken_search) (emit (fetch_request op) w) /\
  run op e2 (snd (run op e1 w)) = (Raise AttributeError, snd (run op e1 w)).
Proof.
  intros op w e1 e2.
  assert (Hv : valid_entry w e1 (cache_file op) (ttl op) = false) by apply no_file_valid.
  assert (Hp : plain (cache_file op) = true)
    by apply (proj1 search_files_plain ck12 "fractions" (Some "math") (Some 4) 20).
  assert (Hage : now e2 - now e1 < ttl op * day) by reflexivity.
  split; [exact Hv|]. split; [exact Hp|]. split; [reflexivity|].
  split; [reflexivity|]. split; [reflexivity|]. split; [exact Hage|].
  destruct (repeated_call_repeats_the_outcome simple_codec op e1 e2 w broken_search
              broken_search Hv Hp eq_refl eq_refl eq_refl Hage) as (H1 & H2 & H3).
  split; [exact H1|]. split; [exact H2|]. rewrite H3. now rewrite H1.
Defined.

Lemma search_cache_ignores_limit_witness :
  let first := Ck12Search ck12 "fractions" (Some "math") (Some 4) 20 in
  let second := Ck12Search ck12 "fractions" (Some "math") (Some 4) 1 in
  let w := world_with ∅ in
  let e1 := at_time 0 (answering 200 fractions_payload) in
  let e2 := at_time day unreachable in
  valid_entry w e1 (cache_file first) 7 = false /\
  fetch_outcome e1 (fetch_request first) = inr fractions_payload /\
  now e2 - now e1 < 7 * day /\
  run second e2 (snd (run first e1 w)) = (fst (run first e1 w), snd (run first e1 w)).
Proof.
  intros first second w e1 e2.
  assert (Hv : valid_entry w e1 (cache_file first) 7 = false) by apply no_file_valid.
  assert (Hage : now e2 - now e1 < 7 * day) by reflexivity.
  split; [exact Hv|]. split; [reflexivity|]. split; [exact Hage|].
  exact (proj1 (search_cache_ignores_limit simple_codec e1 e2 w fractions_payload 20 1)
           ck12 "fractions" (Some "math") (Some 4) Hv eq_refl Hage).
Defined.

Lemma process_content_witness :
  CK12API._process_content (JList [JDict [("id", JStr "c9"); ("extra", JInt 1)]])
    = Ok (JList [JDict [("id", JStr "c9"); ("title", JNull); ("description", JNull);
                        ("type", JNull); ("subject", JNull); ("grade_level", JNull);
                        ("url", JNull); ("embed_url", JNull);
                        ("difficulty", JStr "medium")]]) /\
  CK12API._process_content (JList [JDict []; JStr "oops"]) = Raise AttributeError.
Proof.
  destruct process_content_normalizes as (Hall & _ & _ & Hbad).
  split; [exact (Hall [[("id", JStr "c9"); ("extra", JInt 1)]])|].
  apply Hbad. intros Hrec. apply Forall_cons in Hrec as [_ Hrec].
  apply Forall_cons in Hrec as [[d Hd] _]. discriminate.
Defined.

Lemma get_simulations_witness :
  let op := Ck12Search ck12 "simulation" (Some "science") (Some 5) 10 in
  let raws := [[("title", JStr "Interactive pendulum")]] in
  let body := JDict [("content", JList (map JDict raws))] in
  let w := world_with ∅ in
  let e := at_time 0 (answering 200 body) in
  valid_entry w e (cache_file op) 7 = false /\
  fetch_outcome e (fetch_request op) = inr body /\
  py_get body "content" (JList []) = Ok (JList (map JDict raws)) /\
  Exists (fun d => dict_lookup "type" d = None) raws /\
  CK12API.get_simulations ck12 "science" (Some 5) 10 e w
    = (Raise AttributeError,
       store (cache_file op) (written e body) (emit (fetch_request op) w)).
Proof.
  intros op raws body w e.
  assert (Hv : valid_entry w e (cache_file op) 7 = false) by apply no_file_valid.
  assert (Hex : Exists (fun d => dict_lookup "type" d = None) raws)
    by (apply Exists_cons_hd; reflexivity).
  split; [exact Hv|]. split; [reflexivity|]. split; [reflexivity|].
  split; [exact Hex|].
  exact (get_simulations_needs_every_type ck12 "science" (Some 5) 10 e w body raws
           Hv eq_refl eq_refl Hex).
Defined.

(** A search on an empty disk, answered with [body]. *)
Lemma search_content_fetched query subject g limit body :
  let op := Ck12Search ck12 query subject g limit in
  let e := at_time 0 (answering 200 body) in
  CK12API.search_content ck12 query subject g limit e (world_with ∅)
    = (view op body,
       store (cache_file op) (written e body) (emit (fetch_request op) (world_with ∅))).
Proof.
  intros op e.
  exact (run_miss_stored op e (world_with ∅) body body (no_file_valid _ _ _)
           (proj1 search_files_plain ck12 query subject g limit)
           eq_refl eq_refl eq_refl).
Qed.

Lemma filtered_searches_witness :
  let op := Ck12Search ck12 "simulation" (Some "science") (Some 5) 1 in
  let w := world_with ∅ in
  let e := at_time 0 (answering 200 science_payload) in
  let w' := store (cache_file op) (written e science_payload)
              (emit (fetch_request op) w) in
  let items := [JDict (normalized_content pendulum);
                JDict (normalized_content forces)] in
  CK12API.search_content ck12 "simulation" (Some "science") (Some 5) 1 e w
    = (Ok (JList items), w') /\
  Forall (fun x => exists b, simulation_like x = Ok b) items /\
  exists out,
    CK12API.get_simulations ck12 "science" (Some 5) 1 e w = (Ok (JList out), w') /\
    sublist out items /\
    Forall (fun x => simulation_like x = Ok true) out /\
    (0 <= 1 -> (length out <= Z.to_nat 1)%nat).
Proof.
  intros op w e w' items.
  assert (Hrun : CK12API.search_content ck12 "simulation" (Some "science") (Some 5) 1 e w
                 = (Ok (JList items), w'))
    by exact (search_content_fetched "simulation" (Some "science") (Some 5) 1
                science_payload).
  assert (Hall : Forall (fun x => exists b, simulation_like x = Ok b) items).
  { apply Forall_cons. split; [eexists; reflexivity|].
    apply Forall_cons. split; [eexists; reflexivity|]. apply Forall_nil_2. }
  split; [exact Hrun|]. split; [exact Hall|].
  exact (proj1 (filtered_searches_return_matching_items ck12 "science" (Some 5) 1
                  e w w' items) Hrun Hall).
Defined.

Lemma practice_problems_witness :
  let w := world_with ∅ in
  let e := at_time 0 (answering 200 problems_payload) in
  let v := JList [JDict (normalized_content adding)] in
  fst (CK12API.get_practice_problems ck12 "math" (Some 4) 10 e w) = Ok v /\
  exists problems,
    v = JList problems /\
    Forall (fun problem =>
              exists difficulty,
                CK12API.convert_to_quiz problem = Ok (blank_quiz difficulty))
           problems.
Proof.
  intros w e v.
  assert (Hrun : fst (CK12API.get_practice_problems ck12 "math" (Some 4) 10 e w) = Ok v).
  { rewrite get_practice_problems_eq.
    pose proof (search_content_fetched "practice problem" (Some "math") (Some 4) 10
                  problems_payload) as H.
    cbn zeta in H. unfold w, e. rewrite H. reflexivity. }
  split; [exact Hrun|].
  exact (practice_problems_convert_to_blank_quizzes ck12 "math" (Some 4) 10 e w v Hrun).
Defined.

Lemma subject_lessons_witness :
  let op := Ck12Search ck12 "forces" (Some "science") (Some 5) 15 in
  let w := world_with ∅ in
  let e := at_time 0 (answering 200 science_payload) in
  let w' := store (cache_file op) (written e science_payload)
              (emit (fetch_request op) w) in
  let items := [JDict (normalized_content pendulum);
                JDict (normalized_content forces)] in
  CK12API.search_content ck12 "forces" (Some "science") (Some 5) 15 e w
    = (Ok (JList items), w') /\
  Forall (fun x => exists t, lower_of x "type" = Ok t) items /\
  exists lesson sims exps expl,
    CK12API.get_science_content ck12 "forces" (Some 5) e w = (Ok lesson, w') /\
    py_get lesson "simulations" JNull = Ok (JList sims) /\
    py_get lesson "experiments" JNull = Ok (JList exps) /\
    py_get lesson "explanations" JNull = Ok (JList expl) /\
    items ≡ₚ sims ++ exps ++ expl /\
    sublist sims items /\ sublist exps items /\ sublist expl items.
Proof.
  intros op w e w' items.
  assert (Hrun : CK12API.search_content ck12 "forces" (Some "science") (Some 5) 15 e w
                 = (Ok (JList items), w'))
    by exact (search_content_fetched "forces" (Some "science") (Some 5) 15
                science_payload).
  assert (Hall : Forall (fun x => exists t, lower_of x "type" = Ok t) items).
  { apply Forall_cons. split; [eexists; reflexivity|].
    apply Forall_cons. split; [eexists; reflexivity|]. apply Forall_nil_2. }
  split; [exact Hrun|]. split; [exact Hall|].
  exact (proj1 (subject_lessons_sort_the_search ck12 "forces" (Some 5) e w w' items)
           Hrun Hall).
Defined.

Lemma khan_lessons_witness :
  let w := world_with ∅ in
  let e := at_time 0 khan_server in
  let lesson := KhanAcademyAPI.lesson_data "math" (Some 3) "fractions"
                  (JList [bare_video "v1"; bare_video "v2"; bare_video "v3"])
                  (JList [bare_exercise "x1"; bare_exercise "x2"; bare_exercise "x3";
                          bare_exercise "x4"; bare_exercise "x5"]) in
  fst (KhanAcademyAPI.create_lesson_from_khan khan "math" (Some 3) "fractions" e w)
    = Ok lesson /\
  sent (snd (KhanAcademyAPI.create_lesson_from_khan khan "math" (Some 3) "fractions" e w))
    = [videos_request "math" (Some 3) 20; exercises_request "math" (Some 3);
       topics_request "math"] /\
  files (snd (KhanAcademyAPI.create_lesson_from_khan khan "math" (Some 3) "fractions" e w))
    = ∅.
Proof.
  intros w e lesson.
  assert (Hrun : fst (KhanAcademyAPI.create_lesson_from_khan khan "math" (Some 3)
                        "fractions" e w) = Ok lesson).
  { unfold KhanAcademyAPI.create_lesson_from_khan, bind.
    rewrite (get_subject_content_online khan "math" (Some 3) e w _ _ _
               eq_refl eq_refl eq_refl).
    reflexivity. }
  destruct (khan_lessons_never_write_and_cost_three_requests khan "math" "fractions"
              (Some 3) 10 e w) as (_ & _ & _ & _ & Hfiles & Hsent).
  split; [exact Hrun|]. split; [exact (Hsent lesson Hrun)|exact Hfiles].
Defined.


Lemma reading_level_witness :
  let d := [("title", JStr "Dune")] in
  dict_lookup "subject" d = None /\
  OpenLibraryAPI.get_reading_level (JDict d) = Ok 5.
Proof.
  intros d. split; [reflexivity|].
  exact (proj1 (proj2 reading_level_is_one_of_five) d eq_refl).
Defined.

Lemma limit_bounds_witness :
  let w := world_with ∅ in
  let e := at_time 0 (answering 200 rover_photos) in
  let out := [JDict [("id", JInt 1)]; JDict [("id", JInt 2)]] in
  0 <= 2 /\
  fst (NASAAPI.get_mars_photos nasa None "all" 2 e w) = Ok (JList out) /\
  (length out <= Z.to_nat 2)%nat.
Proof.
  intros w e out.
  assert (Hk : 0 <= 2) by lia.
  assert (Hrun : fst (NASAAPI.get_mars_photos nasa None "all" 2 e w) = Ok (JList out)).
  { pose proof (run_miss_stored (NasaMars nasa None "all" 2) e w rover_photos
                  rover_photos (no_file_valid _ _ _) eq_refl eq_refl eq_refl eq_refl)
      as H.
    cbn [run] in H. now rewrite H. }
  split; [exact Hk|]. split; [exact Hrun|].
  exact (proj1 (limit_bounds_the_answer 2 e w out Hk) nasa None "all" Hrun).
Defined.

Lemma mars_photos_witness :
  let d := [("error", JStr "over the rate limit")] in
  let w := world_with ∅ in
  let e1 := at_time 0 (answering 200 (JDict d)) in
  let e2 := at_time day (answering 200 (JDict d)) in
  (let cache := NASAAPI.mars_cache_file nasa None "all" in
   let w1 := store cache (written e1 (JDict d))
               (emit (mars_request nasa None "all") w) in
   cache = path_join "uploads/nasa" "mars_photos_latest_all.json" /\
   NASAAPI.get_mars_photos nasa None "all" 10 e1 w = (Raise KeyError, w1) /\
   NASAAPI.get_mars_photos nasa None "all" 5 e2 w1 = (Raise KeyError, w1)) /\
  (let w1 := emit (mars_request nasa None "fhaz/rhaz") w in
   NASAAPI.get_mars_photos nasa None "fhaz/rhaz" 10 e1 w
     = (Raise FileNotFoundError, w1) /\
   NASAAPI.get_mars_photos nasa None "fhaz/rhaz" 5 e2 w1
     = (Raise FileNotFoundError, emit (mars_request nasa None "fhaz/rhaz") w1)).
Proof.
  intros d w e1 e2.
  assert (Hage : now e2 - now e1 < 7 * day) by reflexivity.
  split.
  - intros cache w1. split; [reflexivity|].
    exact (proj1 (proj2 (proj2 (mars_photos_sol_zero_and_missing_photos simple_codec
                                  nasa None "all" 10 5 e1 e2 w d)))
             eq_refl (no_file_valid _ _ _) eq_refl eq_refl Hage).
  - intros w1.
    exact (proj2 (proj2 (proj2 (mars_photos_sol_zero_and_missing_photos simple_codec
                                  nasa None "fhaz/rhaz" 10 5 e1 e2 w d)))
             eq_refl eq_refl eq_refl eq_refl).
Defined.

Lemma mission_data_witness :
  let w := world_with ∅ in
  let e1 := at_time 0 (answering 200 techport) in
  let e2 := at_time (29 * day) unreachable in
  let cache := NASAAPI.mission_cache_file nasa "Artemis I" in
  let w1 := store cache (written e1 artemis) (emit (mission_request nasa) w) in
  cache = path_join "uploads/nasa" "mission_artemis_i.json" /\
  now e2 - now e1 < 30 * day /\
  NASAAPI.get_space_mission_data nasa "Artemis I" e1 w = (Ok artemis, w1) /\
  NASAAPI.get_space_mission_data nasa "Artemis I" e2 w1 = (Ok artemis, w1) /\
  NASAAPI.get_space_mission_data nasa "Voyager" e1 w
    = (Ok JNull, emit (mission_request nasa) w).
Proof.
  intros w e1 e2 cache w1.
  assert (Hage : now e2 - now e1 < 30 * day) by reflexivity.
  split; [reflexivity|]. split; [exact Hage|].
  destruct (mission_data_is_cached_only_when_found simple_codec nasa "Artemis I"
              e1 e2 w techport (JList [JDict [("title", JStr "Apollo 11")]; artemis])
              [JDict [("title", JStr "Apollo 11")]] [] artemis "artemis i"
              eq_refl (no_file_valid _ _ _) eq_refl eq_refl) as (Hfound & _).
  destruct (Hfound eq_refl) as (_ & Hkept & _); [|reflexivity|reflexivity|].
  { apply Forall_cons. split; [|apply Forall_nil_2]. eexists. split; reflexivity. }
  destruct (Hkept eq_refl eq_refl) as (H1 & H2).
  split; [exact H1|]. split; [exact (H2 Hage)|].
  destruct (mission_data_is_cached_only_when_found simple_codec nasa "Voyager"
              e1 e2 w techport (JList [JDict [("title", JStr "Apollo 11")]; artemis])
              [JDict [("title", JStr "Apollo 11")]] [artemis] JNull ""
              eq_refl (no_file_valid _ _ _) eq_refl eq_refl) as (_ & Hnone).
  apply Hnone; [reflexivity|].
  repeat (apply Forall_cons; split; [eexists; split; reflexivity|]).
  apply Forall_nil_2.
Defined.

Lemma grade_vocabulary_witness :
  WordsAPI.get_grade_level_vocabulary 3 2 = ["adventure"; "brave"] /\
  WordsAPI.get_grade_level_vocabulary 3 (-7) = ["adventure"; "brave"; "curious"] /\
  WordsAPI.get_grade_level_vocabulary 99 3 = ["analytical"; "creative"; "diligent"] /\
  length (WordsAPI.get_grade_level_vocabulary 99 30) = 10%nat.
Proof.
  destruct (grade_vocabulary_is_ten_words_and_defaults_to_grade_five 3 2)
    as (_ & Hin & _).
  destruct (grade_vocabulary_is_ten_words_and_defaults_to_grade_five 3 (-7))
    as (_ & Hin' & _).
  destruct (grade_vocabulary_is_ten_words_and_defaults_to_grade_five 99 3)
    as (_ & _ & Hout & _).
  destruct (grade_vocabulary_is_ten_words_and_defaults_to_grade_five 99 30)
    as (_ & _ & _ & Hlen & _).
  assert (Hthree : In (3, ["adventure"; "brave"; "curious"; "determined"; "energetic";
                           "friendly"; "generous"; "honest"; "imaginative"; "kind"])
                      WordsAPI.grade_vocabulary)
    by (unfold WordsAPI.grade_vocabulary; cbn [In]; tauto).
  split; [|split; [|split]].
  - exact (proj1 (proj2 (Hin _ Hthree)) ltac:(lia)).
  - exact (proj2 (proj2 (Hin' _ Hthree)) ltac:(lia)).
  - exact (proj2 (Hout ltac:(lia)) ltac:(lia)).
  - exact (Hlen ltac:(lia)).
Defined.


Lemma no_etymology_witness :
  let w := world_with ∅ in
  let e := at_time 0 unreachable in
  reachable (WordsAPI.word_cache_file words_online "happy") = true /\
  valid_entry w e (WordsAPI.word_cache_file words_online "happy") 30 = false /\
  fetch_outcome e (fetch_request (WordDefinition words_online "happy"))
    = inl ConnectionError /\
  fst (WordsAPI.get_etymology words_online "happy" e w) = Ok JNull /\
  fst (WordsAPI.get_word_pronunciation words_online "happy" e w) = Ok JNull /\
  fst (WordsAPI.create_etymology_lesson words_online "happy" (Some 1) e w) = Ok JNull.
Proof.
  intros w e.
  assert (Hv : valid_entry w e (WordsAPI.word_cache_file words_online "happy") 30 = false)
    by apply no_file_valid.
  split; [reflexivity|]. split; [exact Hv|]. split; [reflexivity|].
  exact (no_etymology_without_the_api words_online "happy" (Some 1) e w eq_refl Hv
           (or_intror (ex_intro _ ConnectionError eq_refl))).
Defined.

Lemma word_of_the_day_witness :
  let w := world_with ∅ in
  let e1 := at_time 0 unreachable in
  let e2 := at_time hour unreachable in
  let made_up := WordsAPI._get_basic_definition "serendipity" in
  valid_entry w e1 (WordsAPI.word_of_day_cache_file words_offline) 1 = false /\
  now e2 - now e1 < 1 * day /\
  reachable (WordsAPI.word_cache_file words_offline "serendipity") = true /\
  valid_entry w e1 (WordsAPI.word_cache_file words_offline "serendipity") 30 = false /\
  truthy (of_opt_str (WordsAPI.api_key words_offline)) = false /\
  fst (WordsAPI.get_word_of_the_day words_offline "serendipity" e1 w) = Ok made_up /\
  fst (WordsAPI.get_word_of_the_day words_offline "curious" e2
         (snd (WordsAPI.get_word_of_the_day words_offline "serendipity" e1 w)))
    = Ok made_up.
Proof.
  intros w e1 e2 made_up.
  assert (Hv : valid_entry w e1 (WordsAPI.word_of_day_cache_file words_offline) 1 = false)
    by apply no_file_valid.
  assert (Hage : now e2 - now e1 < 1 * day) by reflexivity.
  assert (Hvw : valid_entry w e1 (WordsAPI.word_cache_file words_offline "serendipity")
                  30 = false) by apply no_file_valid.
  split; [exact Hv|]. split; [exact Hage|]. split; [reflexivity|].
  split; [exact Hvw|]. split; [reflexivity|].
  destruct (proj1 (proj2 (word_of_the_day_is_kept_for_a_day simple_codec words_offline
                            "serendipity" "curious" e1 e2 w Hv Hage))
              eq_refl Hvw (or_introl eq_refl))
    as (H1 & H2 & _).
  split; [exact H1|exact H2].
Defined.


